(** * go-installer-tools: the XAR package inspector

    A shallow embedding of [internal/pkg/xar] (header and TOC decoding,
    section extraction, the Distribution and PackageInfo strategies, the
    signature detector) and of [internal/reader.TempFileReader], together
    with the properties stated about them.

    Conventions.
    - A Go [string] is a [string] (a sequence of bytes); a [[]byte] is a
      [list byte]; [nil] slices that the code tests against [nil] are
      [option]s.
    - [int64], [uint32] and [uint16] values are [Z]; every [int64]
      operation that can overflow is written with [wrap64].
    - A Go [(T, error)] result is a [result T]; a computation that may hit
      a run-time panic, or whose read loop is cut by the fuel of the model,
      is a [run].
    - The log calls have no effect on any result and are left out.
    - The libraries the package calls but does not contain (zlib, bzip2,
      encoding/xml, howett.net/plist, the digests, the growth policy of
      [append], the iteration order of a map) are the fields of the class
      [Environment]; nothing is assumed about them beyond what is written
      there. *)

From Stdlib Require Import ZArith List String Ascii Lia.
From Stdlib Require Import Strings.Byte QArith.QArith_base.
From stdpp Require Import base gmap strings list.

Open Scope Z_scope.

(** ** Errors and outcomes *)

Inductive error : Type :=
| ErrInvalidType                      (* xar.ErrInvalidType *)
| ErrNotSigned                        (* xar.ErrNotSigned *)
| EOF                                 (* io.EOF *)
| ErrUnexpectedEOF                    (* io.ErrUnexpectedEOF *)
| ErrNegativeOffset                   (* "bytes.Reader.ReadAt: negative offset" *)
| ErrUnknownHash (id : Z)             (* fmt.Errorf("unknown hash algorithm %d", id) *)
| Errorf (msg : string)               (* fmt.Errorf(msg), no wrapped cause *)
| Wrapf (msg : string) (cause : error) (* fmt.Errorf(msg + ": %w", cause) *)
| LibError (msg : string).            (* an error value made by a library *)

Inductive result (A : Type) : Type :=
| Ok (a : A)
| Err (e : error).
Arguments Ok {A} a.
Arguments Err {A} e.

Inductive run (A : Type) : Type :=
| Done (a : A)
| Panicked
| OutOfFuel.
Arguments Done {A} a.
Arguments Panicked {A}.
Arguments OutOfFuel {A}.

(** Sequencing: a panic or the end of the fuel ends the computation. The
    notation [x ← m; k] is stdpp's. *)
#[global] Instance run_bind : MBind run := fun A B k m =>
  match m with
  | Done a => k a
  | Panicked => Panicked
  | OutOfFuel => OutOfFuel
  end.

(** The message of an error, as [err.Error()] prints it, for the errors the
    package builds itself. *)
Fixpoint error_mentions (name : string) (e : error) : bool :=
  match e with
  | Wrapf msg cause =>
      match String.index 0 name msg with
      | Some _ => true
      | None => error_mentions name cause
      end
  | Errorf msg => match String.index 0 name msg with Some _ => true | None => false end
  | _ => false
  end.

(** ** Fixed-width integers *)

Definition maxint64 : Z := 2 ^ 63 - 1.
Definition minint64 : Z := - 2 ^ 63.

(** The value an [int64] holds after an operation whose exact result is [z]. *)
Definition wrap64 (z : Z) : Z := (z + 2 ^ 63) mod 2 ^ 64 - 2 ^ 63.

Definition is_int64 (z : Z) : Prop := minint64 <= z <= maxint64.

Lemma wrap64_id z : is_int64 z -> wrap64 z = z.
Proof.
  unfold is_int64, wrap64, minint64, maxint64. intros H.
  rewrite Z.mod_small; lia.
Qed.

Lemma wrap64_range z : is_int64 (wrap64 z).
Proof.
  unfold is_int64, wrap64, minint64, maxint64.
  pose proof (Z.mod_pos_bound (z + 2 ^ 63) (2 ^ 64) ltac:(lia)). lia.
Qed.

(** Big-endian value of a byte string, as [binary.BigEndian] reads it. *)
Definition be_uint (bs : list byte) : Z :=
  fold_left (fun acc b => acc * 256 + Z.of_N (Byte.to_N b)) bs 0.

(** [int64(u)] for a [uint64] [u]: two's complement. *)
Definition int64_of_uint64 (u : Z) : Z :=
  if u <? 2 ^ 63 then u else u - 2 ^ 64.

(** ** The header *)

Definition xarMagic : Z := 0x78617221.
Definition xarHeaderSize : Z := 28.

Definition hashNone : Z := 0.
Definition hashSHA1 : Z := 1.
Definition hashMD5 : Z := 2.
Definition hashSHA256 : Z := 3.
Definition hashSHA512 : Z := 4.

Record xarHeader : Type := {
  hdr_Magic : Z;             (* uint32 *)
  hdr_HeaderSize : Z;        (* uint16 *)
  hdr_Version : Z;           (* uint16 *)
  hdr_CompressedSize : Z;    (* int64 *)
  hdr_UncompressedSize : Z;  (* int64 *)
  hdr_HashType : Z           (* uint32 *)
}.

Definition zero_xarHeader : xarHeader :=
  {| hdr_Magic := 0; hdr_HeaderSize := 0; hdr_Version := 0;
     hdr_CompressedSize := 0; hdr_UncompressedSize := 0; hdr_HashType := 0 |}.

(** The fields of the 28 bytes, in declaration order. *)
Definition decode_xarHeader (b : list byte) : xarHeader :=
  {| hdr_Magic := be_uint (take 4 b);
     hdr_HeaderSize := be_uint (take 2 (drop 4 b));
     hdr_Version := be_uint (take 2 (drop 6 b));
     hdr_CompressedSize := int64_of_uint64 (be_uint (take 8 (drop 8 b)));
     hdr_UncompressedSize := int64_of_uint64 (be_uint (take 8 (drop 16 b)));
     hdr_HashType := be_uint (take 4 (drop 24 b)) |}.

(** [crypto.Hash] *)
Inductive crypto_Hash : Type :=
| crypto_none      (* the zero value *)
| crypto_SHA1
| crypto_SHA256
| crypto_SHA512.

(** ** Readers ([io], [bytes], [os])

    One call [Read(p)] or [ReadAt(p, off)] is described by the length of
    [p] it is given and by what it returns: the bytes copied into [p] and
    the error ([None] is [nil]). *)

Definition read : Type := (list byte * option error)%type.

Definition len (b : list byte) : Z := Z.of_nat (length b).

(** [io.ReaderAt] *)
Definition ReaderAt : Type := Z -> Z -> run read.

(** [io.Reader]: a reader is a value that [Read] updates. *)
Class Reader (R : Type) : Type := Read : R -> Z -> run (read * R).

(** [bytes.Reader.ReadAt] over the byte string [s]. *)
Definition bytes_Reader_ReadAt (s : list byte) : ReaderAt := fun plen off =>
  if off <? 0 then Done ([], Some ErrNegativeOffset)
  else if len s <=? off then Done ([], Some EOF)
  else
    let d := take (Z.to_nat plen) (drop (Z.to_nat off) s) in
    Done (d, if len d <? plen then Some EOF else None).

(** [io.SectionReader] *)
Record SectionReader : Type := {
  sr_r : ReaderAt;
  sr_base : Z;
  sr_off : Z;
  sr_limit : Z;
  sr_n : Z
}.

Definition NewSectionReader (r : ReaderAt) (off n : Z) : SectionReader :=
  let remaining :=
    if off <=? wrap64 (maxint64 - n) then wrap64 (n + off)
    else maxint64 (* overflow: read up to offset 1<<63 - 1 *) in
  {| sr_r := r; sr_base := off; sr_off := off; sr_limit := remaining; sr_n := n |}.

Definition SectionReader_Size (s : SectionReader) : Z :=
  wrap64 (sr_limit s - sr_base s).

(** [p = p[0:max]] panics when [max] is negative. *)
Definition SectionReader_Read (s : SectionReader) (plen : Z)
  : run (read * SectionReader) :=
  if sr_limit s <=? sr_off s then Done (([], Some EOF), s)
  else
    let max := wrap64 (sr_limit s - sr_off s) in
    if (max <? plen) && (max <? 0) then Panicked
    else
      let plen := if max <? plen then max else plen in
      '(d, err) ← sr_r s plen (sr_off s);
      Done ((d, err),
            {| sr_r := sr_r s; sr_base := sr_base s;
               sr_off := wrap64 (sr_off s + len d);
               sr_limit := sr_limit s; sr_n := sr_n s |}).

Definition SectionReader_ReadAt (s : SectionReader) : ReaderAt := fun plen off =>
  if (off <? 0) || (SectionReader_Size s <=? off) then Done ([], Some EOF)
  else
    let off := wrap64 (off + sr_base s) in
    let max := wrap64 (sr_limit s - off) in
    if max <? plen then
      if max <? 0 then Panicked
      else
        '(d, err) ← sr_r s max off;
        Done (d, Some (default EOF err))
    else sr_r s plen off.

#[global] Instance SectionReader_Reader : Reader SectionReader :=
  SectionReader_Read.

(** [*os.File] over a regular file whose reads and seeks succeed: the
    contents and the read offset. *)
Record os_File : Type := {
  f_data : list byte;
  f_off : nat
}.

Definition os_File_Read (f : os_File) (plen : Z) : run (read * os_File) :=
  if plen <=? 0 then Done (([], None), f)
  else
    let d := take (Z.to_nat plen) (drop (f_off f) (f_data f)) in
    Done ((d, match d with [] => Some EOF | _ => None end),
          {| f_data := f_data f; f_off := (f_off f + length d)%nat |}).

#[global] Instance os_File_Reader : Reader os_File := os_File_Read.

(** [f.Seek(0, 0)] *)
Definition os_File_Seek0 (f : os_File) : os_File :=
  {| f_data := f_data f; f_off := 0 |}.

(** ** [reader.TempFileReader]

    [Reader] is the [*os.File] that [main] passes; [buf] is [None] for the
    [nil] pointer. The scratch field [tmpBuf] is never read. *)
Record TempFileReader : Type := {
  tfr_Reader : os_File;
  tfr_buf : option (list byte)
}.

Definition TempFileReader_Read (t : TempFileReader) (plen : Z)
  : run (read * TempFileReader) :=
  let buf := default [] (tfr_buf t) in
  '((d, err), f) ← Read (tfr_Reader t) plen;
  let buf := if 0 <? len d then buf ++ d else buf in
  Done ((d, err), {| tfr_Reader := f; tfr_buf := Some buf |}).

#[global] Instance TempFileReader_Reader : Reader TempFileReader :=
  TempFileReader_Read.

(** [Rewind]: the file is sought back to its start, the buffer keeps what
    it holds. With this [Reader] the result is always [nil]. *)
Definition Rewind (t : TempFileReader) : TempFileReader :=
  {| tfr_Reader := os_File_Seek0 (tfr_Reader t);
     tfr_buf := Some (default [] (tfr_buf t)) |}.

(** [ReadAt]: from the buffered bytes. When nothing was read yet the rest
    of the file is copied into the buffer first. *)
Definition TempFileReader_ReadAt (t : TempFileReader) : ReaderAt :=
  let b :=
    match tfr_buf t with
    | Some b => b
    | None => drop (f_off (tfr_Reader t)) (f_data (tfr_Reader t))
    end in
  bytes_Reader_ReadAt b.

Definition TempFileReader_Size (t : TempFileReader) : Z :=
  match tfr_buf t with
  | None => 0
  | Some b => len b
  end.

(** A reader freshly built over an opened file, as [main] does. *)
Definition open_TempFileReader (pkg : list byte) : TempFileReader :=
  {| tfr_Reader := {| f_data := pkg; f_off := 0 |}; tfr_buf := None |}.

(** ** Strings ([strings], [path/filepath] on a system whose separator is '/') *)

Definition chars (s : string) : list ascii := list_ascii_of_string s.
Definition str (cs : list ascii) : string := string_of_list_ascii cs.

Definition is_empty (s : string) : bool :=
  match s with
  | EmptyString => true
  | String _ _ => false
  end.

Definition strings_HasPrefix (s p : string) : bool := String.prefix p s.

Definition strings_HasSuffix (s suffix : string) : bool :=
  String.prefix (String.rev suffix) (String.rev s).

Definition strings_TrimPrefix (s p : string) : string :=
  if strings_HasPrefix s p then str (drop (String.length p) (chars s)) else s.

Definition strings_Contains (s substr : string) : bool :=
  match String.index 0 substr s with
  | Some _ => true
  | None => false
  end.

(** [strings.Split(s, sep)] for a separator of one byte: the pieces between
    the separators, at least one piece. *)
Fixpoint split_go (sep : ascii) (cur : list ascii) (cs : list ascii) : list string :=
  match cs with
  | [] => [str (rev cur)]
  | c :: cs =>
      if Ascii.eqb c sep then str (rev cur) :: split_go sep [] cs
      else split_go sep (c :: cur) cs
  end.

Definition strings_Split1 (s : string) (sep : ascii) : list string :=
  split_go sep [] (chars s).

(** The width in bytes of the rune at the head of [cs] when it is a space
    for [unicode.IsSpace], 0 otherwise. The spaces are U+0009..U+000D,
    U+0020, U+0085, U+00A0, U+1680, U+2000..U+200A, U+2028, U+2029, U+202F,
    U+205F and U+3000, in their UTF-8 encodings. *)
Definition space_width (cs : list N) : nat :=
  match cs with
  | [] => 0%nat
  | c :: rest =>
      if ((9 <=? c) && (c <=? 13) || (c =? 32))%N then 1%nat
      else
        match rest with
        | d :: rest' =>
            if ((c =? 0xC2) && ((d =? 0x85) || (d =? 0xA0)))%N then 2%nat
            else
              match rest' with
              | e :: _ =>
                  if ((c =? 0xE1) && (d =? 0x9A) && (e =? 0x80)
                      || (c =? 0xE2) && (d =? 0x80)
                         && ((0x80 <=? e) && (e <=? 0x8A)
                             || (e =? 0xA8) || (e =? 0xA9) || (e =? 0xAF))
                      || (c =? 0xE2) && (d =? 0x81) && (e =? 0x9F)
                      || (c =? 0xE3) && (d =? 0x80) && (e =? 0x80))%N
                  then 3%nat else 0%nat
              | [] => 0%nat
              end
        | [] => 0%nat
        end
  end.

(** The same for the last rune of a string given backwards: a byte below
    128 is a rune of its own; otherwise the rune is a space only when the
    last two or the last three bytes are the whole encoding of one. *)
Definition space_width_back (rcs : list N) : nat :=
  match rcs with
  | [] => 0%nat
  | e :: rest =>
      if (e <? 128)%N then space_width [e]
      else
        match rest with
        | d :: rest' =>
            if (space_width [d; e] =? 2)%nat then 2%nat
            else
              match rest' with
              | c :: _ => if (space_width [c; d; e] =? 3)%nat then 3%nat else 0%nat
              | [] => 0%nat
              end
        | [] => 0%nat
        end
  end.

Fixpoint trim_while (width : list N -> nat) (fuel : nat) (cs : list N) : list N :=
  match fuel with
  | O => cs
  | S fuel =>
      match width cs with
      | O => cs
      | w => trim_while width fuel (drop w cs)
      end
  end.

Definition strings_TrimSpace (s : string) : string :=
  let cs := N_of_ascii <$> chars s in
  let cs := trim_while space_width (length cs) cs in
  let rcs := trim_while space_width_back (length cs) (rev cs) in
  str (ascii_of_N <$> rev rcs).

(** [strings.NewReplacer("\n", "", "\r", "", "\t", "").Replace] *)
Definition invalidChars_Replace (s : string) : string :=
  str (filter (fun c => ¬ (c = "010" ∨ c = "013" ∨ c = "009")%char) (chars s)).

Definition is_sep (c : ascii) : bool := Ascii.eqb c "/".

(** [filepath.Split]: the directory up to and with the last separator, and
    the file after it. *)
Fixpoint after_last_sep (cs : list ascii) (i : nat) : nat :=
  match i with
  | O => O
  | S j => if is_sep (nth j cs "/"%char) then i else after_last_sep cs j
  end.

Definition filepath_Split (path : string) : string * string :=
  let cs := chars path in
  let i := after_last_sep cs (length cs) in
  (str (take i cs), str (drop i cs)).

(** [filepath.Clean]: [out] is the buffer written so far, [dotdot] the
    index in it where [..] must stop. *)
Fixpoint backtrack (fuel : nat) (out : list ascii) (w dotdot : nat) : nat :=
  match fuel with
  | O => w
  | S fuel =>
      if (dotdot <? w)%nat && negb (is_sep (nth w out "/"%char))
      then backtrack fuel out (w - 1) dotdot
      else w
  end.

Definition clean_step (rooted : bool) (st : list ascii * nat) (elem : string)
  : list ascii * nat :=
  let '(out, dotdot) := st in
  if is_empty elem then st                       (* empty path element *)
  else if String.eqb elem "." then st            (* . element *)
  else if String.eqb elem ".." then              (* .. element *)
    if (dotdot <? length out)%nat then
      (take (backtrack (length out) out (length out - 1) dotdot) out, dotdot)
    else if negb rooted then
      let out := if (0 <? length out)%nat then out ++ ["/"%char] else out in
      let out := out ++ ["."%char; "."%char] in
      (out, length out)
    else st
  else                                           (* real path element *)
    let out :=
      if rooted && negb (length out =? 1)%nat
         || negb rooted && negb (length out =? 0)%nat
      then out ++ ["/"%char] else out in
    (out ++ chars elem, dotdot).

Definition filepath_Clean (path : string) : string :=
  match chars path with
  | [] => "."
  | c :: _ =>
      let rooted := is_sep c in
      let init := if rooted then (["/"%char], 1%nat) else ([], 0%nat) in
      let '(out, _) :=
        fold_left (clean_step rooted) (strings_Split1 path "/") init in
      match out with
      | [] => "."
      | _ => str out
      end
  end.

(** [filepath.Join(a, b)] for a non-empty [a]. *)
Definition filepath_Join2 (a b : string) : string :=
  filepath_Clean (a +:+ "/" +:+ b).

Example Clean_examples :
  filepath_Clean "a//b/./c/.." = "a/b"
  /\ filepath_Clean "/../a" = "/a"
  /\ filepath_Clean "../../a/b/../.." = "../.."
  /\ filepath_Clean "a/.." = "."
  /\ filepath_Join2 "/" "Applications/Foo.app" = "/Applications/Foo.app"
  /\ filepath_Join2 "/Applications" "" = "/Applications".
Proof. repeat split; vm_compute; reflexivity. Qed.

Example Split_examples :
  filepath_Split "Applications/Foo.app" = ("Applications/", "Foo.app")
  /\ filepath_Split "Foo.app" = ("", "Foo.app")
  /\ filepath_Split "a/b/" = ("a/b/", "")
  /\ strings_Split1 "com.example.App" "." = ["com"; "example"; "App"]
  /\ strings_Split1 "" "." = [""].
Proof. repeat split; vm_compute; reflexivity. Qed.

Example TrimSpace_examples :
  strings_TrimSpace "  com.example.app " = "com.example.app"
  /\ strings_TrimSpace (String "009" (String "010" "a b" +:+ String "013" "")) = "a b"
  /\ strings_TrimSpace (String "194" (String "160" "x")) = "x"
  /\ strings_TrimSpace (String "160" "x") = String "160" "x"
  /\ strings_TrimSpace " " = ""
  /\ strings_TrimSpace (String "194" (String "010" (String "160" "")))
     = String "194" (String "010" (String "160" ""))
  /\ invalidChars_Replace (String "009" "a" +:+ String "010" "b") = "ab".
Proof. repeat split; vm_compute; reflexivity. Qed.

(** ** The table of contents *)

(** [toc]: the two [*any] fields, [None] for [nil]. *)
Record toc : Type := {
  toc_Signature : option unit;
  toc_XSignature : option unit
}.

Record xmlFileData : Type := {
  fd_Length : Z;           (* int64 *)
  fd_Offset : Z;           (* int64 *)
  fd_Size : Z;             (* int64 *)
  fd_Encoding_Style : string
}.

Record xmlFile : Type := {
  xf_Name : string;
  xf_Type : string;
  xf_Data : option xmlFileData
}.

(** [xmlXar]: [root.TOC.Files], a slice of pointers. *)
Record xmlXar : Type := {
  xar_TOC_Files : list (option xmlFile)
}.

(** ** The Distribution document *)

Record distBundle : Type := {
  db_CFBundleShortVersionString : string;
  db_CFBundleVersion : string;
  db_ID : string;
  db_Path : string
}.

Record distPkgRef : Type := {
  pr_ID : string;
  pr_Version : string;
  pr_BundleVersion : option (list distBundle)   (* BundleVersion.Bundles *)
}.

Record distributionXML : Type := {
  dist_Title : string;
  dist_Options : list string;               (* Options[i].HostArchitectures *)
  dist_OsVersions : list string;            (* AllowedOSVersions.OsVersions[i].Min *)
  dist_PkgRefs : list distPkgRef;
  dist_Product_ID : string;
  dist_Product_Version : string
}.

(** ** The PackageInfo document *)

Record BundleInfo : Type := {
  bi_Path : string;
  bi_ID : string;
  bi_CFBundleShortVersionString : string;
  bi_CFBundleDisplayName : string;
  bi_CFBundleIdentifier : string;
  bi_CFBundleName : string;
  bi_LSMinimumSystemVersion : string
}.

Record PackageInfo : Type := {
  pi_Version : string;
  pi_InstallLocation : string;
  pi_Identifier : string;
  pi_Bundles : list BundleInfo
}.

(** ** The metadata record *)

Record AppBundle : Type := {
  ab_ID : string;
  ab_ShortVersion : string;
  ab_AppLocationPath : string
}.

(** Modelled from the spec: the declaration of [PKGInstallerMetadata] is
    not among the sources. The fields are the ones the code assigns or
    prints, which are those of the record the specification calls
    UnifiedMetadata; a field nobody assigns holds the zero value of its
    type. [PkgSizeMB] is the [float64] quotient of the byte count by
    1024*1024, kept as an exact fraction. *)
Record PKGInstallerMetadata : Type := {
  ApplicationTitle : string;
  DisplayName : string;
  BundleName : string;
  Version : string;
  PrimaryBundleIdentifier : string;
  PrimaryBundlePath : string;
  PackageIDs : list string;
  MinimumOperatingSystemVersion : string;
  HostArchitectures : string;
  AppBundles : list AppBundle;
  IsSigned : bool;
  PkgSizeMB : Q;
  SHA256Sum : option (list byte);
  SHA1Sum : option (list byte);
  MD5Sum : option (list byte)
}.

Definition zero_PKGInstallerMetadata : PKGInstallerMetadata :=
  {| ApplicationTitle := ""; DisplayName := ""; BundleName := ""; Version := "";
     PrimaryBundleIdentifier := ""; PrimaryBundlePath := ""; PackageIDs := [];
     MinimumOperatingSystemVersion := ""; HostArchitectures := "";
     AppBundles := []; IsSigned := false; PkgSizeMB := Qmake 0 1;
     SHA256Sum := None; SHA1Sum := None; MD5Sum := None |}.

(** ** The libraries around the package *)

(** What [zlib.NewReader(r)] followed by [io.ReadAll] gives. *)
Inductive inflated : Type :=
| NewReaderFailed (e : error)     (* zlib.NewReader returns an error *)
| ReadFailed (e : error)          (* the stream breaks while it is read *)
| Inflated (b : list byte).

(** What [zlib.NewReader] over the header-declared bytes followed by
    [xml.NewDecoder(tocReader).Decode(&root)] gives. *)
Inductive decodedTOC : Type :=
| TOCReaderFailed (e : error)
| TOCDecodeFailed (e : error)
| TOCDecoded (root : xmlXar).

Class Environment : Type := {
  (** [append(b, 0)] on a full slice of capacity [c]: the new capacity. *)
  growslice : Z -> Z;
  growslice_grows : forall c, 0 < c -> c < growslice c;
  (** the order in which [range] visits the keys of a map *)
  map_range : gset string -> list string;
  map_range_perm : forall s, map_range s ≡ₚ elements s;
  (** compress/zlib and compress/bzip2 over the reader of an entry *)
  zlib_ReadAll : SectionReader -> run inflated;
  bzip2_ReadAll : SectionReader -> run (result (list byte));
  (** zlib and encoding/xml over the bytes a limited reader can deliver:
      how many of them are consumed, and the outcome *)
  toc_Decode : list byte -> nat * decodedTOC;
  (** encoding/xml and howett.net/plist over a document held in memory *)
  xml_Unmarshal_tocXar : list byte -> result toc;
  xml_Unmarshal_distributionXML : list byte -> result distributionXML;
  plist_Decode_PackageInfo : list byte -> result PackageInfo;
  (** the digests *)
  sha1_Sum : list byte -> list byte;
  md5_Sum : list byte -> list byte;
  sha256_Sum : list byte -> list byte
}.

Definition is_EOF (e : error) : bool :=
  match e with
  | EOF => true
  | _ => false
  end.

Section Loops.
Context `{Environment} {R : Type} `{Reader R}.

(** [io.ReadAll]: [b] is what was read, [cap] the capacity of its slice. *)
Fixpoint ReadAll_loop (fuel : nat) (r : R) (b : list byte) (cap : Z)
  : run read :=
  match fuel with
  | O => OutOfFuel
  | S fuel =>
      '((d, err), r) ← Read r (cap - len b);
      let b := b ++ d in
      match err with
      | Some e => Done (b, if is_EOF e then None else Some e)
      | None =>
          let cap := if len b =? cap then growslice cap else cap in
          ReadAll_loop fuel r b cap
      end
  end.

Definition io_ReadAll (fuel : nat) (r : R) : run read :=
  ReadAll_loop fuel r [] 512.

(** [io.ReadFull] into a buffer of [size] > 0 bytes. *)
Fixpoint ReadFull_loop (fuel : nat) (r : R) (b : list byte) (size : Z)
  : run (read * R) :=
  match fuel with
  | O => OutOfFuel
  | S fuel =>
      '((d, err), r) ← Read r (size - len b);
      let b := b ++ d in
      match err with
      | None =>
          if len b <? size then ReadFull_loop fuel r b size
          else Done ((b, None), r)
      | Some e =>
          Done ((b, if size <=? len b then None
                    else if (0 <? len b) && is_EOF e then Some ErrUnexpectedEOF
                    else Some e), r)
      end
  end.

Definition io_ReadFull (fuel : nat) (r : R) (size : Z) : run (read * R) :=
  ReadFull_loop fuel r [] size.

(** [io.Copy(dst, r)] into a writer that takes everything (a digest, a
    [bytes.Buffer]): the bytes written, the error, the reader afterwards.
    [plen] is the length of the buffer offered to each [Read]: 32 KiB in
    [io.Copy], at least [bytes.MinRead] in [bytes.Buffer.ReadFrom]. *)
Fixpoint Copy_loop (fuel : nat) (plen : Z) (r : R) (written : list byte)
  : run (read * R) :=
  match fuel with
  | O => OutOfFuel
  | S fuel =>
      '((d, err), r) ← Read r plen;
      let written := written ++ d in
      match err with
      | Some e => Done ((written, if is_EOF e then None else Some e), r)
      | None => Copy_loop fuel plen r written
      end
  end.

Definition io_Copy (fuel : nat) (r : R) : run (read * R) :=
  Copy_loop fuel (32 * 1024) r [].

Definition bytes_Buffer_ReadFrom (fuel : nat) (r : R) : run (read * R) :=
  Copy_loop fuel 512 r [].
End Loops.

Section Xar.
Context `{Environment}.

(** *** parse.go *)

Definition parseHeader (fuel : nat) (r : SectionReader)
  : run (result (xarHeader * crypto_Hash)) :=
  '((b, err), _) ← io_ReadFull fuel r xarHeaderSize;
  match err with
  | Some e => Done (Err e)
  | None =>
      let hdr := decode_xarHeader b in
      if negb (hdr_Magic hdr =? xarMagic) then Done (Err ErrInvalidType)
      else if hdr_HashType hdr =? hashSHA1 then Done (Ok (hdr, crypto_SHA1))
      else if hdr_HashType hdr =? hashSHA256 then Done (Ok (hdr, crypto_SHA256))
      else if hdr_HashType hdr =? hashSHA512 then Done (Ok (hdr, crypto_SHA512))
      else Done (Err (ErrUnknownHash (hdr_HashType hdr)))
  end.

(** [decompress] *)
Definition decompress (r : SectionReader) : run (result (list byte)) :=
  z ← zlib_ReadAll r;
  match z with
  | NewReaderFailed e => Done (Err e)
  | ReadFailed e => Done (Err e)
  | Inflated b => Done (Ok b)
  end.

(** [parseTOC]: the digest fed through the tee is never looked at. *)
Definition parseTOC (r : SectionReader) (hashType : crypto_Hash)
  : run (result toc) :=
  d ← decompress r;
  match d with
  | Err e => Done (Err (Wrapf "decompressing TOC" e))
  | Ok decomp =>
      match xml_Unmarshal_tocXar decomp with
      | Err e => Done (Err (Wrapf "decoding TOC" e))
      | Ok t => Done (Ok t)
      end
  end.

(** *** xar.go: the signature detector *)

Definition CheckPKGSignature {R : Type} `{Reader R} (fuel : nat) (pkg : R)
  : run (option error * R) :=
  '((buff, err), pkg) ← bytes_Buffer_ReadFrom fuel pkg;
  match err with
  | Some e => Done (Some e, pkg)
  | None =>
      let r := bytes_Reader_ReadAt buff in
      h ← parseHeader fuel (NewSectionReader r 0 28);
      match h with
      | Err e => Done (Some e, pkg)
      | Ok (hdr, hashType) =>
          let base := hdr_HeaderSize hdr in
          t ← parseTOC (NewSectionReader r base (hdr_CompressedSize hdr)) hashType;
          match t with
          | Err e => Done (Some e, pkg)
          | Ok toc =>
              match toc_Signature toc, toc_XSignature toc with
              | None, None => Done (Some ErrNotSigned, pkg)
              | _, _ => Done (None, pkg)
              end
          end
      end
  end.

(** *** xar.go: the section extractor *)

Definition readCompressedFile (fuel : nat) (rat : ReaderAt)
    (heapOffset sectionLength : Z) (f : option xmlFile)
  : run (result (list byte)) :=
  match f with
  | None => Done (Err (Errorf "nil file provided"))
  | Some f =>
      match xf_Data f with
      | None => Done (Err (Errorf "file has no data section"))
      | Some data =>
          let heapReader :=
            NewSectionReader rat heapOffset (wrap64 (sectionLength - heapOffset)) in
          let fileReader :=
            NewSectionReader (SectionReader_ReadAt heapReader)
              (fd_Offset data) (fd_Length data) in
          let reading := "reading " +:+ xf_Name f +:+ " file" in
          if strings_Contains (fd_Encoding_Style data) "x-gzip" then
            z ← zlib_ReadAll fileReader;
            match z with
            | NewReaderFailed e => Done (Err (Wrapf "create zlib reader" e))
            | ReadFailed e => Done (Err (Wrapf reading e))
            | Inflated contents => Done (Ok contents)
            end
          else if strings_Contains (fd_Encoding_Style data) "x-bzip2" then
            z ← bzip2_ReadAll fileReader;
            match z with
            | Err e => Done (Err (Wrapf reading e))
            | Ok contents => Done (Ok contents)
            end
          else
            '(contents, err) ← io_ReadAll fuel fileReader;
            match err with
            | Some e => Done (Err (Wrapf reading e))
            | None => Done (Ok contents)
            end
      end
  end.
End Xar.

(** ** The Distribution strategy *)

(** The variables the loops of [parseDistributionFile] update. *)
Record distState : Type := {
  st_appBundles : list AppBundle;
  st_primaryBundleIdentifier : string;
  st_primaryBundlePath : string;
  st_primaryFound : bool
}.

(** The inner loop that sets [duplicate]. *)
Fixpoint duplicate_in (appBundles : list AppBundle) (id : string) : bool :=
  match appBundles with
  | [] => false
  | ab :: rest => if String.eqb (ab_ID ab) id then true else duplicate_in rest id
  end.

Definition bundle_step (pkgID : string) (st : distState) (bundle : distBundle)
  : distState :=
  if negb (is_empty (db_CFBundleShortVersionString bundle))
     && negb (is_empty (db_ID bundle)) then
    let appBundles :=
      if duplicate_in (st_appBundles st) (db_ID bundle) then st_appBundles st
      else st_appBundles st ++
             [{| ab_ID := db_ID bundle;
                 ab_ShortVersion := db_CFBundleShortVersionString bundle;
                 ab_AppLocationPath := db_Path bundle |}] in
    if negb (st_primaryFound st) && String.eqb pkgID (db_ID bundle) then
      {| st_appBundles := appBundles;
         st_primaryBundleIdentifier := pkgID;
         st_primaryBundlePath := db_Path bundle;
         st_primaryFound := true |}
    else
      {| st_appBundles := appBundles;
         st_primaryBundleIdentifier := st_primaryBundleIdentifier st;
         st_primaryBundlePath := st_primaryBundlePath st;
         st_primaryFound := st_primaryFound st |}
  else st.

Definition pkg_step (st : distState) (pkg : distPkgRef) : distState :=
  match pr_BundleVersion pkg with
  | Some bundles => fold_left (bundle_step (pr_ID pkg)) bundles st
  | None => st
  end.

(** The loop that builds [pkgIDs] with the map [pkgIDsMap]. *)
Definition pkgIDs_step (acc : gmap string bool * list string) (ab : AppBundle)
  : gmap string bool * list string :=
  let '(pkgIDsMap, pkgIDs) := acc in
  if negb (is_empty (ab_ID ab)) && negb (default false (pkgIDsMap !! ab_ID ab))
  then (<[ab_ID ab := true]> pkgIDsMap, pkgIDs ++ [ab_ID ab])
  else acc.

(** [parseDistributionFile] after the document is unmarshalled. *)
Definition distributionMetadata (distXML : distributionXML) : PKGInstallerMetadata :=
  let title := dist_Title distXML in
  let hostArch := match dist_Options distXML with o :: _ => o | [] => "" end in
  let minOS := match dist_OsVersions distXML with v :: _ => v | [] => "" end in
  let st :=
    fold_left pkg_step (dist_PkgRefs distXML)
      {| st_appBundles := []; st_primaryBundleIdentifier := "";
         st_primaryBundlePath := ""; st_primaryFound := false |} in
  let appBundles := st_appBundles st in
  let '(primaryBundleIdentifier, primaryBundlePath) :=
    match st_primaryFound st, appBundles with
    | false, ab :: _ => (ab_ID ab, ab_AppLocationPath ab)
    | _, _ => (st_primaryBundleIdentifier st, st_primaryBundlePath st)
    end in
  let '(_, pkgIDs) := fold_left pkgIDs_step appBundles (∅, []) in
  let version :=
    match appBundles with
    | ab :: _ => ab_ShortVersion ab
    | [] => dist_Product_Version distXML
    end in
  {| ApplicationTitle := title;
     DisplayName := title;
     BundleName := "";
     Version := version;
     PrimaryBundleIdentifier := primaryBundleIdentifier;
     PrimaryBundlePath := primaryBundlePath;
     PackageIDs := pkgIDs;
     MinimumOperatingSystemVersion := minOS;
     HostArchitectures := hostArch;
     AppBundles := appBundles;
     IsSigned := false;
     PkgSizeMB := Qmake 0 1;
     SHA256Sum := None; SHA1Sum := None; MD5Sum := None |}.

(** ** The PackageInfo strategy *)

Definition sanitizeBundleString (s : string) : string :=
  invalidChars_Replace (strings_TrimSpace s).

Definition isValidAppFilePath (input : string) : string * bool :=
  let '(dir, file) := filepath_Split input in
  if is_empty dir && String.eqb file input then (file, true)
  else if strings_HasSuffix file ".app" && String.eqb dir "Applications/"
  then (file, true)
  else ("", false).

(** The variables the loop of [getPackageInfo] updates: six of its named
    results and the set [packageIDSet]. *)
Record pkgInfoState : Type := {
  s_name : string;
  s_identifier : string;
  s_version : string;
  s_displayName : string;
  s_bundleName : string;
  s_minOSVersion : string;
  s_packageIDSet : gset string
}.

(** The seven values [getPackageInfo] returns. *)
Record pkgInfoResult : Type := {
  r_name : string;
  r_identifier : string;
  r_version : string;
  r_packageIDs : list string;
  r_displayName : string;
  r_bundleName : string;
  r_minOSVersion : string
}.

(** The path of a bundle as the loop of [getPackageInfo] computes it. *)
Definition installPath (p : PackageInfo) (bundle : BundleInfo) : string :=
  let installPath := bi_Path bundle in
  let installPath :=
    if negb (is_empty (pi_InstallLocation p))
    then filepath_Join2 (pi_InstallLocation p) installPath
    else installPath in
  let installPath := strings_TrimPrefix installPath "/" in
  strings_TrimPrefix installPath "./".

Definition packageInfo_step (p : PackageInfo) (st : pkgInfoState)
    (bundle : BundleInfo) : pkgInfoState :=
  let '(base, isValid) := isValidAppFilePath (installPath p bundle) in
  let bundleID := sanitizeBundleString (bi_ID bundle) in
  let set :=
    if negb (is_empty bundleID) then {[bundleID]} ∪ s_packageIDSet st
    else s_packageIDSet st in
  if isValid then
    {| s_identifier := sanitizeBundleString (bi_ID bundle);
       s_name := base;
       s_version := sanitizeBundleString (bi_CFBundleShortVersionString bundle);
       s_displayName := sanitizeBundleString (bi_CFBundleDisplayName bundle);
       s_bundleName := sanitizeBundleString (bi_CFBundleName bundle);
       s_minOSVersion := sanitizeBundleString (bi_LSMinimumSystemVersion bundle);
       s_packageIDSet := set |}
  else
    {| s_identifier := s_identifier st; s_name := s_name st;
       s_version := s_version st; s_displayName := s_displayName st;
       s_bundleName := s_bundleName st; s_minOSVersion := s_minOSVersion st;
       s_packageIDSet := set |}.

Definition packageInfo_init : pkgInfoState :=
  {| s_name := ""; s_identifier := ""; s_version := "";
     s_displayName := ""; s_bundleName := ""; s_minOSVersion := "";
     s_packageIDSet := ∅ |}.

Section Strategies.
Context `{Environment}.

Definition parseDistributionFile (rawXML : list byte)
  : result PKGInstallerMetadata :=
  match xml_Unmarshal_distributionXML rawXML with
  | Err e => Err (Wrapf "unmarshal Distribution XML" e)
  | Ok distXML => Ok (distributionMetadata distXML)
  end.

Definition getPackageInfo (p : PackageInfo) : pkgInfoResult :=
  let st := fold_left (packageInfo_step p) (pi_Bundles p) packageInfo_init in
  (* Convert set to slice *)
  let packageIDs := map_range (s_packageIDSet st) in
  let version :=
    if is_empty (s_version st) then sanitizeBundleString (pi_Version p)
    else s_version st in
  let identifier :=
    if is_empty (s_identifier st) then sanitizeBundleString (pi_Identifier p)
    else s_identifier st in
  let name :=
    if is_empty (s_name st) then
      match last (strings_Split1 identifier ".") with
      | Some part => part
      | None => s_name st
      end
    else s_name st in
  let packageIDs :=
    if (length packageIDs =? 0)%nat && negb (is_empty identifier)
    then packageIDs ++ [identifier] else packageIDs in
  {| r_name := name; r_identifier := identifier; r_version := version;
     r_packageIDs := packageIDs; r_displayName := s_displayName st;
     r_bundleName := s_bundleName st; r_minOSVersion := s_minOSVersion st |}.

Definition parsePackageInfoFile (rawData : list byte)
  : result PKGInstallerMetadata :=
  match plist_Decode_PackageInfo rawData with
  | Err e => Err (Wrapf "decode PackageInfo plist" e)
  | Ok packageInfo =>
      let r := getPackageInfo packageInfo in
      Ok {| ApplicationTitle := r_name r;
            DisplayName := r_displayName r;
            BundleName := "";
            Version := r_version r;
            PrimaryBundleIdentifier := r_identifier r;
            PrimaryBundlePath := "";
            PackageIDs := r_packageIDs r;
            MinimumOperatingSystemVersion := r_minOSVersion r;
            HostArchitectures := "";
            AppBundles := [];
            IsSigned := false;
            PkgSizeMB := Qmake 0 1;
            SHA256Sum := None; SHA1Sum := None; MD5Sum := None |}
  end.
End Strategies.

(** ** Bulk extraction *)

Definition with_IsSigned (m : PKGInstallerMetadata) (b : bool) : PKGInstallerMetadata :=
  {| ApplicationTitle := ApplicationTitle m; DisplayName := DisplayName m;
     BundleName := BundleName m; Version := Version m;
     PrimaryBundleIdentifier := PrimaryBundleIdentifier m;
     PrimaryBundlePath := PrimaryBundlePath m; PackageIDs := PackageIDs m;
     MinimumOperatingSystemVersion := MinimumOperatingSystemVersion m;
     HostArchitectures := HostArchitectures m; AppBundles := AppBundles m;
     IsSigned := b; PkgSizeMB := PkgSizeMB m;
     SHA256Sum := SHA256Sum m; SHA1Sum := SHA1Sum m; MD5Sum := MD5Sum m |}.

Definition with_PkgSizeMB (m : PKGInstallerMetadata) (q : Q) : PKGInstallerMetadata :=
  {| ApplicationTitle := ApplicationTitle m; DisplayName := DisplayName m;
     BundleName := BundleName m; Version := Version m;
     PrimaryBundleIdentifier := PrimaryBundleIdentifier m;
     PrimaryBundlePath := PrimaryBundlePath m; PackageIDs := PackageIDs m;
     MinimumOperatingSystemVersion := MinimumOperatingSystemVersion m;
     HostArchitectures := HostArchitectures m; AppBundles := AppBundles m;
     IsSigned := IsSigned m; PkgSizeMB := q;
     SHA256Sum := SHA256Sum m; SHA1Sum := SHA1Sum m; MD5Sum := MD5Sum m |}.

Definition with_SHA256Sum (m : PKGInstallerMetadata) (d : list byte) : PKGInstallerMetadata :=
  {| ApplicationTitle := ApplicationTitle m; DisplayName := DisplayName m;
     BundleName := BundleName m; Version := Version m;
     PrimaryBundleIdentifier := PrimaryBundleIdentifier m;
     PrimaryBundlePath := PrimaryBundlePath m; PackageIDs := PackageIDs m;
     MinimumOperatingSystemVersion := MinimumOperatingSystemVersion m;
     HostArchitectures := HostArchitectures m; AppBundles := AppBundles m;
     IsSigned := IsSigned m; PkgSizeMB := PkgSizeMB m;
     SHA256Sum := Some d; SHA1Sum := SHA1Sum m; MD5Sum := MD5Sum m |}.

Definition with_SHA1Sum (m : PKGInstallerMetadata) (d : list byte) : PKGInstallerMetadata :=
  {| ApplicationTitle := ApplicationTitle m; DisplayName := DisplayName m;
     BundleName := BundleName m; Version := Version m;
     PrimaryBundleIdentifier := PrimaryBundleIdentifier m;
     PrimaryBundlePath := PrimaryBundlePath m; PackageIDs := PackageIDs m;
     MinimumOperatingSystemVersion := MinimumOperatingSystemVersion m;
     HostArchitectures := HostArchitectures m; AppBundles := AppBundles m;
     IsSigned := IsSigned m; PkgSizeMB := PkgSizeMB m;
     SHA256Sum := SHA256Sum m; SHA1Sum := Some d; MD5Sum := MD5Sum m |}.

Definition with_MD5Sum (m : PKGInstallerMetadata) (d : list byte) : PKGInstallerMetadata :=
  {| ApplicationTitle := ApplicationTitle m; DisplayName := DisplayName m;
     BundleName := BundleName m; Version := Version m;
     PrimaryBundleIdentifier := PrimaryBundleIdentifier m;
     PrimaryBundlePath := PrimaryBundlePath m; PackageIDs := PackageIDs m;
     MinimumOperatingSystemVersion := MinimumOperatingSystemVersion m;
     HostArchitectures := HostArchitectures m; AppBundles := AppBundles m;
     IsSigned := IsSigned m; PkgSizeMB := PkgSizeMB m;
     SHA256Sum := SHA256Sum m; SHA1Sum := SHA1Sum m; MD5Sum := Some d |}.

(** The reader after [n] more bytes of its file were read through it. *)
Definition TempFileReader_advance (t : TempFileReader) (n : nat) : TempFileReader :=
  let f := tfr_Reader t in
  let d := take n (drop (f_off f) (f_data f)) in
  {| tfr_Reader := {| f_data := f_data f; f_off := (f_off f + length d)%nat |};
     tfr_buf := Some (default [] (tfr_buf t) ++ d) |}.

Section Extraction.
Context `{Environment}.

(** The base offset of the heap, from the header that was read. *)
Definition heapOffset (hdr : xarHeader) : Z :=
  wrap64 (xarHeaderSize + hdr_CompressedSize hdr).

(** The loop over [root.TOC.Files]: [dist] and [pinfo] are
    [distributionContents] and [packageInfoContents]. *)
Fixpoint collectContents (fuel : nat) (rat : ReaderAt) (heapOffset size : Z)
    (files : list (option xmlFile)) (dist pinfo : option (list byte))
  : run (option (list byte) * option (list byte)) :=
  match files with
  | [] => Done (dist, pinfo)
  | f :: files =>
      match f with
      | None => collectContents fuel rat heapOffset size files dist pinfo
      | Some xf =>
          match xf_Data xf with
          | None => collectContents fuel rat heapOffset size files dist pinfo
          | Some _ =>
              c ← readCompressedFile fuel rat heapOffset size f;
              match c with
              | Err _ => collectContents fuel rat heapOffset size files dist pinfo
              | Ok contents =>
                  if String.eqb (xf_Name xf) "Distribution" then
                    collectContents fuel rat heapOffset size files (Some contents) pinfo
                  else if String.eqb (xf_Name xf) "PackageInfo" then
                    collectContents fuel rat heapOffset size files dist (Some contents)
                  else collectContents fuel rat heapOffset size files dist pinfo
              end
          end
      end
  end.

(** The strategy selection: Distribution first, PackageInfo as the
    fallback; [None] when neither gives a record. *)
Definition selectMetadata (isSignedStatus : bool)
    (dist pinfo : option (list byte)) : option PKGInstallerMetadata :=
  let meta :=
    match dist with
    | Some distributionContents =>
        match parseDistributionFile distributionContents with
        | Err _ => None
        | Ok distMeta => Some (with_IsSigned distMeta isSignedStatus)
        end
    | None => None
    end in
  match meta, pinfo with
  | None, Some packageInfoContents =>
      match parsePackageInfoFile packageInfoContents with
      | Err _ => None
      | Ok pkgMeta => Some (with_IsSigned pkgMeta isSignedStatus)
      end
  | _, _ => meta
  end.

(** [tfr.Rewind()] followed by one of [hash.ComputeSHA1], [ComputeMD5],
    [ComputeSHA256]: [None] when the digest could not be computed. *)
Definition digestPass (fuel : nat) (tfr : TempFileReader)
    (sum : list byte -> list byte) : run (option (list byte) * TempFileReader) :=
  let tfr := Rewind tfr in
  '((data, err), tfr) ← io_Copy fuel tfr;
  match err with
  | Some _ => Done (None, tfr)
  | None => Done (Some (sum data), tfr)
  end.

Definition ExtractXARMetadata (fuel : nat) (tfr : TempFileReader)
  : run (result PKGInstallerMetadata) :=
  (* Compute SHA256 hash and capture total file size *)
  '((hashed, _), tfr) ← io_Copy fuel tfr;
  let size := len hashed in
  let pkgSizeMB := Qmake size (2 ^ 20) in
  let tfr := Rewind tfr in
  (* Check signature status *)
  '(err, tfr) ← CheckPKGSignature fuel tfr;
  let status :=
    match err with
    | None => Ok true
    | Some ErrNotSigned => Ok false
    | Some ErrInvalidType => Err ErrInvalidType
    | Some e => Err (Wrapf "check package signature" e)
    end in
  match status with
  | Err e => Done (Err e)
  | Ok isSignedStatus =>
      let tfr := Rewind tfr in
      (* Read the file header *)
      '((b, err), tfr) ← io_ReadFull fuel tfr xarHeaderSize;
      match err with
      | Some e => Done (Err (Wrapf "decode xar header" e))
      | None =>
          let hdr := decode_xarHeader b in
          (* Read TOC *)
          let avail :=
            take (Z.to_nat (hdr_CompressedSize hdr))
              (drop (f_off (tfr_Reader tfr)) (f_data (tfr_Reader tfr))) in
          let '(consumed, decoded) := toc_Decode avail in
          let tfr := TempFileReader_advance tfr (consumed `min` length avail) in
          match decoded with
          | TOCReaderFailed e => Done (Err (Wrapf "create TOC reader" e))
          | TOCDecodeFailed e => Done (Err (Wrapf "decode TOC XML" e))
          | TOCDecoded root =>
              '(dist, pinfo) ←
                collectContents fuel (TempFileReader_ReadAt tfr)
                  (heapOffset hdr) size (xar_TOC_Files root) None None;
              (* Finalize metadata *)
              let meta :=
                match selectMetadata isSignedStatus dist pinfo with
                | None =>
                    with_SHA256Sum (with_IsSigned zero_PKGInstallerMetadata false)
                      (sha256_Sum hashed)
                | Some meta =>
                    with_PkgSizeMB (with_SHA256Sum meta (sha256_Sum hashed)) pkgSizeMB
                end in
              (* Compute additional hashes *)
              '(sha1Sum, tfr) ← digestPass fuel tfr sha1_Sum;
              let meta := from_option (with_SHA1Sum meta) meta sha1Sum in
              '(md5Sum, tfr) ← digestPass fuel tfr md5_Sum;
              let meta := from_option (with_MD5Sum meta) meta md5Sum in
              '(sha256Sum, tfr) ← digestPass fuel tfr sha256_Sum;
              let meta := from_option (with_SHA256Sum meta) meta sha256Sum in
              Done (Ok meta)
          end
      end
  end.
End Extraction.

(** * Properties *)

(** ** Reading loops

    [delivers r xs r_end]: the reader [r] hands out the bytes [xs], as many
    at a time as the caller has room for, then reports [io.EOF] (with the
    last bytes or after them) and is left in the state [r_end]. *)

Lemma len_app (a b : list byte) : len (a ++ b) = len a + len b.
Proof. unfold len. rewrite length_app. lia. Qed.

Lemma len_nonneg (a : list byte) : 0 <= len a.
Proof. unfold len. lia. Qed.

Lemma len_take (n : nat) (a : list byte) : len (take n a) = Z.min (Z.of_nat n) (len a).
Proof. unfold len. rewrite length_take. lia. Qed.

Lemma len_drop (n : nat) (a : list byte) : len (drop n a) = Z.max 0 (len a - Z.of_nat n).
Proof. unfold len. rewrite length_drop. lia. Qed.

Section LoopFacts.
Context `{Environment} {R : Type} `{Reader R}.

#[warnings="-register-all"] Inductive delivers : R -> list byte -> R -> Prop :=
| delivers_intro (r : R) (xs : list byte) (r_end : R) :
    (forall plen, 0 < plen ->
       exists err r',
         Read r plen = Done ((take (Z.to_nat plen) xs, err), r')
         /\ (err = Some EOF /\ len xs <= plen /\ r' = r_end
             \/ err = None /\ xs <> [] /\
                delivers r' (drop (Z.to_nat plen) xs) r_end)) ->
    delivers r xs r_end.

Lemma delivers_inv r xs r_end plen :
  delivers r xs r_end -> 0 < plen ->
  exists err r',
    Read r plen = Done ((take (Z.to_nat plen) xs, err), r')
    /\ (err = Some EOF /\ len xs <= plen /\ r' = r_end
        \/ err = None /\ xs <> [] /\
           delivers r' (drop (Z.to_nat plen) xs) r_end).
Proof. intros D Hp. inversion D; subst. auto. Qed.

Lemma drop_shorter (xs : list byte) plen :
  0 < plen -> xs <> [] ->
  (length (drop (Z.to_nat plen) xs) < length xs)%nat.
Proof.
  intros Hp Hxs. rewrite length_drop.
  destruct xs; [congruence|]. simpl. lia.
Qed.

Lemma take_all (xs : list byte) plen :
  len xs <= plen -> take (Z.to_nat plen) xs = xs.
Proof. unfold len. intros. apply take_ge. lia. Qed.

Lemma ReadAll_loop_delivers fuel : forall r xs r_end b cap,
  delivers r xs r_end -> len b < cap -> (length xs < fuel)%nat ->
  ReadAll_loop fuel r b cap = Done (b ++ xs, None).
Proof.
  induction fuel as [|fuel IH]; intros r xs r_end b cap D Hcap Hfuel; [lia|].
  destruct (delivers_inv _ _ _ (cap - len b) D ltac:(lia))
    as (err & r' & HR & [(-> & Hle & ->) | (-> & Hne & D')]).
  - simpl. rewrite HR. simpl. rewrite take_all by done. reflexivity.
  - simpl. rewrite HR. simpl.
    set (d := take (Z.to_nat (cap - len b)) xs).
    assert (Hd : len d <= cap - len b) by (subst d; rewrite len_take; lia).
    rewrite (IH r' (drop (Z.to_nat (cap - len b)) xs) r_end).
    + rewrite <- app_assoc. subst d. rewrite take_drop. reflexivity.
    + exact D'.
    + rewrite len_app. destruct (Z.eqb_spec (len b + len d) cap) as [E|E].
      * rewrite E. apply growslice_grows. pose proof (len_nonneg b). lia.
      * lia.
    + pose proof (drop_shorter xs (cap - len b) ltac:(lia) Hne). lia.
Qed.

Lemma io_ReadAll_delivers fuel r xs r_end :
  delivers r xs r_end -> (length xs < fuel)%nat ->
  io_ReadAll fuel r = Done (xs, None).
Proof.
  intros D F. unfold io_ReadAll.
  rewrite (ReadAll_loop_delivers fuel r xs r_end [] 512 D); [done| |done].
  unfold len. simpl. lia.
Qed.

Lemma Copy_loop_delivers fuel : forall plen r xs r_end w,
  delivers r xs r_end -> 0 < plen -> (length xs < fuel)%nat ->
  Copy_loop fuel plen r w = Done ((w ++ xs, None), r_end).
Proof.
  induction fuel as [|fuel IH]; intros plen r xs r_end w D Hp Hfuel; [lia|].
  destruct (delivers_inv _ _ _ plen D Hp)
    as (err & r' & HR & [(-> & Hle & ->) | (-> & Hne & D')]).
  - simpl. rewrite HR. simpl. rewrite take_all by done. reflexivity.
  - simpl. rewrite HR. simpl.
    rewrite (IH plen r' (drop (Z.to_nat plen) xs) r_end); auto.
    + rewrite <- app_assoc, take_drop. reflexivity.
    + pose proof (drop_shorter xs plen Hp Hne). lia.
Qed.

(** The error of [io.ReadFull] when the reader has [n] bytes in all. *)
Definition ReadFull_error (size n : Z) : option error :=
  if size <=? n then None
  else if 0 <? n then Some ErrUnexpectedEOF
  else Some EOF.

Lemma ReadFull_loop_delivers fuel : forall r xs r_end b size,
  delivers r xs r_end -> len b < size -> (length xs < fuel)%nat ->
  exists r',
    ReadFull_loop fuel r b size
    = Done ((b ++ take (Z.to_nat (size - len b)) xs,
             ReadFull_error size (len b + len xs)), r').
Proof.
  induction fuel as [|fuel IH]; intros r xs r_end b size D Hb Hfuel; [lia|].
  destruct (delivers_inv _ _ _ (size - len b) D ltac:(lia))
    as (err & r' & HR & [(-> & Hle & ->) | (-> & Hne & D')]).
  - simpl. rewrite HR. simpl. exists r_end.
    rewrite len_app, take_all by done. unfold ReadFull_error.
    pose proof (len_nonneg b). pose proof (len_nonneg xs).
    destruct (Z.leb_spec size (len b + len xs)); [done|].
    destruct (Z.ltb_spec 0 (len b + len xs)); simpl; done.
  - simpl. rewrite HR. simpl.
    set (d := take (Z.to_nat (size - len b)) xs).
    rewrite len_app.
    assert (Hd : len d = Z.min (size - len b) (len xs)).
    { subst d. rewrite len_take. lia. }
    destruct (Z.ltb_spec (len b + len d) size) as [Hlt|Hge].
    + (* the reader gave all it had and less than asked: one more call *)
      assert (Hxs : len xs < size - len b) by lia.
      assert (Hdx : d = xs) by (subst d; apply take_all; lia).
      assert (Hdrop : drop (Z.to_nat (size - len b)) xs = []).
      { apply drop_ge. unfold len in *. lia. }
      rewrite Hdrop in D'.
      destruct (IH r' [] r_end (b ++ d) size D') as [r'' E].
      * rewrite len_app. lia.
      * assert (0 < length xs)%nat by (destruct xs; [congruence|simpl; lia]).
        simpl. lia.
      * exists r''. rewrite E. rewrite take_nil, app_nil_r.
        rewrite len_app. unfold len at 3. simpl. rewrite Z.add_0_r.
        rewrite Hdx. reflexivity.
    + exists r'. unfold ReadFull_error.
      destruct (Z.leb_spec size (len b + len xs)); [done|lia].
Qed.

Lemma io_ReadFull_delivers fuel r xs r_end size :
  delivers r xs r_end -> 0 < size -> (length xs < fuel)%nat ->
  exists r',
    io_ReadFull fuel r size
    = Done ((take (Z.to_nat size) xs, ReadFull_error size (len xs)), r').
Proof.
  intros D Hs F. unfold io_ReadFull.
  destruct (ReadFull_loop_delivers fuel r xs r_end [] size D) as [r' E];
    [unfold len; simpl; lia | done |].
  exists r'. rewrite E. unfold len at 1 2. simpl.
  rewrite Z.sub_0_r. reflexivity.
Qed.
End LoopFacts.

(** ** The temporary-file reader *)

(** What is left of the file behind the reader. *)
Definition unread (t : TempFileReader) : list byte :=
  drop (f_off (tfr_Reader t)) (f_data (tfr_Reader t)).

Lemma TempFileReader_Read_eq t plen :
  0 < plen ->
  Read t plen
  = Done ((take (Z.to_nat plen) (unread t),
           match unread t with [] => Some EOF | _ => None end),
          TempFileReader_advance t (Z.to_nat plen)).
Proof.
  intros Hp. unfold Read, TempFileReader_Reader, TempFileReader_Read.
  unfold Read, os_File_Reader, os_File_Read.
  destruct (Z.leb_spec plen 0); [lia|]. simpl.
  unfold TempFileReader_advance, unread.
  set (xs := drop _ _).
  assert (Hz : (0 < Z.to_nat plen)%nat) by lia.
  destruct xs as [|x xs'] eqn:E.
  - rewrite take_nil. simpl. rewrite app_nil_r. reflexivity.
  - destruct (Z.to_nat plen) as [|k]; [lia|]. simpl.
    unfold len. simpl.
    destruct (Z.ltb_spec 0 (Z.of_nat (S (length (take k xs'))))); [|lia].
    reflexivity.
Qed.

Lemma unread_advance t n : unread (TempFileReader_advance t n) = drop n (unread t).
Proof.
  unfold unread, TempFileReader_advance. simpl.
  rewrite length_take, drop_drop.
  destruct (Nat.le_gt_cases n (length (drop (f_off (tfr_Reader t)) (f_data (tfr_Reader t))))) as [L|G].
  - rewrite Nat.min_l by done. reflexivity.
  - rewrite Nat.min_r by lia. rewrite length_drop in *.
    rewrite !drop_ge; [done| |]; lia.
Qed.

Lemma advance_advance t n m :
  TempFileReader_advance (TempFileReader_advance t n) m
  = TempFileReader_advance t (n + m).
Proof.
  pose proof (unread_advance t n) as Hr. unfold unread in Hr.
  unfold TempFileReader_advance at 1. rewrite Hr.
  unfold TempFileReader_advance. simpl.
  rewrite <- app_assoc, take_take_drop. f_equal. f_equal.
  rewrite <- Nat.add_assoc. f_equal.
  rewrite <- length_app, take_take_drop. reflexivity.
Qed.

Lemma advance_ge t n :
  (length (unread t) <= n)%nat ->
  TempFileReader_advance t n = TempFileReader_advance t (length (unread t)).
Proof.
  intros Hn. unfold TempFileReader_advance. fold (unread t).
  rewrite (take_ge _ n) by done. rewrite (take_ge _ (length (unread t))) by done.
  reflexivity.
Qed.

Lemma TempFileReader_delivers t :
  delivers t (unread t) (TempFileReader_advance t (length (unread t))).
Proof.
  remember (length (unread t)) as n eqn:Hn.
  revert t Hn. induction (lt_wf n) as [n _ IH]. intros t Hn.
  constructor. intros plen Hp. rewrite (TempFileReader_Read_eq t plen Hp).
  eexists _, _. split; [reflexivity|].
  destruct (unread t) as [|x xs] eqn:E.
  - left. simpl in Hn. subst n. split; [done|]. split.
    + unfold len. simpl. lia.
    + rewrite advance_ge; rewrite E; simpl; [done|lia].
  - right. split; [done|]. split; [done|].
    set (k := Z.to_nat plen).
    assert (Hk : (0 < k)%nat) by (subst k; lia).
    assert (Hpos : (0 < length (unread t))%nat) by (rewrite E; simpl; lia).
    rewrite <- E, <- unread_advance. rewrite <- E in Hn.
    assert (Hlen : (length (unread (TempFileReader_advance t k)) < n)%nat).
    { rewrite unread_advance, length_drop. lia. }
    pose proof (IH _ Hlen (TempFileReader_advance t k) eq_refl) as D.
    rewrite advance_advance in D.
    replace (TempFileReader_advance t n)
      with (TempFileReader_advance t (k + length (unread (TempFileReader_advance t k)))); [exact D|].
    rewrite unread_advance, length_drop.
    destruct (Nat.le_gt_cases k (length (unread t))).
    + f_equal. lia.
    + rewrite advance_ge by lia. f_equal. lia.
Qed.

(** ** Section readers *)

(** [r] answers [ReadAt] as a [bytes.Reader] over [s] does, at the offsets
    a section reader asks for. *)
Definition reads_bytes (r : ReaderAt) (s : list byte) : Prop :=
  forall plen off, 0 <= plen -> 0 <= off -> r plen off = bytes_Reader_ReadAt s plen off.

Definition section (r : ReaderAt) (base off limit n : Z) : SectionReader :=
  {| sr_r := r; sr_base := base; sr_off := off; sr_limit := limit; sr_n := n |}.

Definition window (s : list byte) (off limit : Z) : list byte :=
  take (Z.to_nat (limit - off)) (drop (Z.to_nat off) s).

Lemma maxint64_eq : maxint64 = 9223372036854775807.
Proof. reflexivity. Qed.

Lemma wrap64_small z : - 2 ^ 63 <= z <= 2 ^ 63 - 1 -> wrap64 z = z.
Proof. intros. apply wrap64_id. unfold is_int64, minint64, maxint64. lia. Qed.

Lemma window_drop s off limit k :
  0 <= off -> 0 <= k <= limit - off ->
  drop (Z.to_nat k) (window s off limit) = window s (off + k) limit.
Proof.
  intros Ho Hk. unfold window.
  replace (Z.to_nat (off + k)) with (Z.to_nat off + Z.to_nat k)%nat by lia.
  rewrite <- drop_drop.
  rewrite (take_drop_commute _ (Z.to_nat (limit - (off + k))) (Z.to_nat k)).
  f_equal. f_equal. lia.
Qed.

Lemma SectionReader_delivers r s base n m : forall off limit,
  reads_bytes r s -> 0 <= off -> limit <= maxint64 ->
  length (window s off limit) = m ->
  delivers (section r base off limit n) (window s off limit)
    (section r base (off + len (window s off limit)) limit n).
Proof.
  induction (lt_wf m) as [m _ IH]. intros off limit Hr Ho Hl Hm.
  rewrite maxint64_eq in Hl.
  constructor. intros plen Hp.
  unfold Read, SectionReader_Reader, SectionReader_Read. simpl.
  destruct (Z.leb_spec limit off) as [Hle|Hlt].
  { (* the section is exhausted *)
    assert (E : window s off limit = []).
    { unfold window. replace (Z.to_nat (limit - off)) with 0%nat by lia. done. }
    rewrite E. eexists _, _. split; [rewrite take_nil; reflexivity|].
    left. split; [done|]. split; [unfold len; simpl; lia|].
    unfold section, len. simpl. rewrite Z.add_0_r. reflexivity. }
  rewrite (wrap64_small (limit - off)) by lia.
  destruct (Z.ltb_spec (limit - off) 0) as [?|_]; [lia|].
  rewrite andb_false_r.
  set (plen' := if limit - off <? plen then limit - off else plen).
  assert (Hplen' : plen' = Z.min plen (limit - off)).
  { subst plen'. destruct (Z.ltb_spec (limit - off) plen); lia. }
  rewrite (Hr plen' off) by lia.
  unfold bytes_Reader_ReadAt.
  destruct (Z.ltb_spec off 0) as [?|_]; [lia|].
  destruct (Z.leb_spec (len s) off) as [Hs|Hs].
  { (* the source ends before the section does *)
    assert (E : window s off limit = []).
    { unfold window. rewrite drop_ge; [apply take_nil|]. unfold len in Hs. lia. }
    rewrite E. simpl. eexists _, _. split; [rewrite take_nil; reflexivity|].
    left. split; [done|]. split; [unfold len; simpl; lia|].
    unfold section, len. simpl. rewrite Z.add_0_r, wrap64_small by lia.
    reflexivity. }
  simpl.
  set (ds := drop (Z.to_nat off) s).
  set (d := take (Z.to_nat plen') ds).
  assert (Hds : len ds = len s - off).
  { subst ds. rewrite len_drop. lia. }
  assert (Hd : len d = Z.min plen' (len ds)).
  { subst d. rewrite len_take. lia. }
  assert (Hxs : len (window s off limit) = Z.min (limit - off) (len ds)).
  { unfold window. fold ds. rewrite len_take. lia. }
  assert (Hdx : d = take (Z.to_nat plen) (window s off limit)).
  { subst d. unfold window. fold ds. rewrite take_take. f_equal. lia. }
  rewrite (wrap64_small (off + len d)) by lia.
  eexists _, _. split; [rewrite <- Hdx; reflexivity|].
  destruct (Z.ltb_spec (len d) plen') as [Hshort|Hfull].
  - left. split; [done|]. split; [lia|].
    unfold section. f_equal. lia.
  - right. split; [done|].
    assert (Hne : window s off limit <> []).
    { intros E. rewrite E in Hxs. unfold len in Hxs at 1. simpl in Hxs. lia. }
    split; [done|].
    assert (Hk : drop (Z.to_nat plen) (window s off limit)
                 = window s (off + len d) limit).
    { rewrite <- (window_drop s off limit (len d)) by lia.
      destruct (Z.le_gt_cases plen (limit - off)).
      - f_equal. lia.
      - rewrite !drop_ge; [done| |]; unfold len in *; lia. }
    rewrite Hk.
    replace (off + len (window s off limit))
      with (off + len d + len (window s (off + len d) limit)).
    + eapply (IH (length (window s (off + len d) limit))); try done; try lia.
      rewrite <- Hk, length_drop. unfold len in *.
      destruct (window s off limit); [done|]. simpl in *. lia.
    + rewrite <- Hk, len_drop. lia.
Qed.

(** The heap reader of [readCompressedFile] over a source that holds at
    least [size] bytes answers as a [bytes.Reader] over the heap. *)
Lemma heapReader_reads_bytes rat buf H size :
  reads_bytes rat buf -> 0 <= H <= size -> size <= len buf -> size <= maxint64 ->
  reads_bytes
    (SectionReader_ReadAt (NewSectionReader rat H (wrap64 (size - H))))
    (take (Z.to_nat (size - H)) (drop (Z.to_nat H) buf)).
Proof.
  intros Hr HH Hsize Hmax plen off Hp Ho. rewrite maxint64_eq in Hmax.
  unfold NewSectionReader, SectionReader_ReadAt, SectionReader_Size. simpl.
  rewrite (wrap64_small (size - H)) by lia.
  rewrite maxint64_eq.
  rewrite (wrap64_small (9223372036854775807 - (size - H))) by lia.
  destruct (Z.leb_spec H (9223372036854775807 - (size - H))); [|lia].
  rewrite (wrap64_small (size - H + H)) by lia.
  replace (size - H + H) with size by lia.
  rewrite (wrap64_small (size - H)) by lia.
  set (heap := take (Z.to_nat (size - H)) (drop (Z.to_nat H) buf)).
  assert (Hheap : len heap = size - H).
  { subst heap. rewrite len_take, len_drop. lia. }
  unfold bytes_Reader_ReadAt.
  destruct (Z.ltb_spec off 0) as [?|_]; [lia|]. simpl.
  rewrite Hheap.
  destruct (Z.leb_spec (size - H) off) as [Hout|Hin]; [reflexivity|].
  rewrite (wrap64_small (off + H)) by lia.
  rewrite (wrap64_small (size - (off + H))) by lia.
  assert (Hcut : forall k, 0 <= k <= size - (off + H) ->
            take (Z.to_nat k) (drop (Z.to_nat off) heap)
            = take (Z.to_nat k) (drop (Z.to_nat (off + H)) buf)).
  { intros k Hk. subst heap.
    replace (Z.to_nat (size - H))
      with (Z.to_nat off + Z.to_nat (size - H - off))%nat by lia.
    rewrite <- take_drop_commute, take_take, drop_drop.
    f_equal; [lia|]. f_equal. lia. }
  assert (Hfull : forall k, 0 <= k <= size - (off + H) ->
            len (take (Z.to_nat k) (drop (Z.to_nat (off + H)) buf)) = k).
  { intros k Hk. rewrite len_take, len_drop. lia. }
  destruct (Z.ltb_spec (size - (off + H)) plen) as [Hclip|Hfit].
  - destruct (Z.ltb_spec (size - (off + H)) 0); [lia|].
    rewrite (Hr (size - (off + H)) (off + H)) by lia.
    unfold bytes_Reader_ReadAt.
    destruct (Z.ltb_spec (off + H) 0); [lia|].
    destruct (Z.leb_spec (len buf) (off + H)); [lia|]. simpl.
    rewrite Hfull by lia.
    destruct (Z.ltb_spec (size - (off + H)) (size - (off + H))); [lia|]. simpl.
    assert (E : take (Z.to_nat plen) (drop (Z.to_nat off) heap)
                = take (Z.to_nat (size - (off + H))) (drop (Z.to_nat off) heap)).
    { rewrite !take_ge; [done| |]; rewrite length_drop; unfold len in Hheap; lia. }
    rewrite E, Hcut by lia. rewrite Hfull by lia.
    destruct (Z.ltb_spec (size - (off + H)) plen); [reflexivity|lia].
  - rewrite (Hr plen (off + H)) by lia.
    unfold bytes_Reader_ReadAt.
    destruct (Z.ltb_spec (off + H) 0); [lia|].
    destruct (Z.leb_spec (len buf) (off + H)); [lia|].
    rewrite Hcut by lia. reflexivity.
Qed.

(** ** The section extractor on an entry that is stored as it is *)

(** The encoding style names neither codec. *)
Definition stored (data : xmlFileData) : Prop :=
  strings_Contains (fd_Encoding_Style data) "x-gzip" = false
  /\ strings_Contains (fd_Encoding_Style data) "x-bzip2" = false.

Section SectionExtractor.
Context `{Environment}.

Lemma heap_of_source (pkg extra : list byte) (H0 : Z) :
  0 <= H0 <= len pkg ->
  take (Z.to_nat (len pkg - H0)) (drop (Z.to_nat H0) (pkg ++ extra))
  = drop (Z.to_nat H0) pkg.
Proof.
  intros HH. unfold len in *.
  rewrite drop_app_le by lia.
  rewrite take_app_le by (rewrite length_drop; lia).
  apply take_ge. rewrite length_drop. lia.
Qed.

Lemma readCompressedFile_stored fuel rat pkg extra base f data :
  reads_bytes rat (pkg ++ extra) ->
  xf_Data f = Some data -> stored data ->
  0 <= base <= len pkg -> len pkg <= maxint64 ->
  0 <= fd_Offset data <= maxint64 -> 0 <= fd_Length data <= maxint64 ->
  (length pkg < fuel)%nat ->
  readCompressedFile fuel rat base (len pkg) (Some f)
  = Done (Ok (take (Z.to_nat (fd_Length data))
                (drop (Z.to_nat (base + fd_Offset data)) pkg))).
Proof.
  intros Hrat HD [Hz Hb] Hbase Hmax HO HL Hfuel.
  unfold readCompressedFile. rewrite HD, Hz, Hb.
  pose proof (heapReader_reads_bytes rat (pkg ++ extra) base (len pkg) Hrat Hbase) as Hheap.
  rewrite heap_of_source in Hheap by done.
  specialize (Hheap ltac:(rewrite len_app; pose proof (len_nonneg extra); lia) Hmax).
  set (heapRA := SectionReader_ReadAt _) in *.
  set (O := fd_Offset data) in *. set (L := fd_Length data) in *.
  set (heap := drop (Z.to_nat base) pkg) in *.
  assert (Hlen : len heap = len pkg - base).
  { subst heap. rewrite len_drop. lia. }
  rewrite maxint64_eq in *.
  assert (Ewin : forall limit,
            (limit = L + O /\ limit <= 9223372036854775807)
            \/ (limit = 9223372036854775807 /\ limit < L + O) ->
            window heap O limit
            = take (Z.to_nat L) (drop (Z.to_nat (base + O)) pkg)).
  { intros limit Hlim. unfold window. subst heap. rewrite drop_drop.
    replace (Z.to_nat base + Z.to_nat O)%nat with (Z.to_nat (base + O)) by lia.
    destruct Hlim as [[-> _]|[-> Hlt]]; [f_equal; lia|].
    rewrite !take_ge; [done| |]; rewrite length_drop; unfold len in *; lia. }
  assert (Hread : forall limit,
            (limit = L + O /\ limit <= 9223372036854775807)
            \/ (limit = 9223372036854775807 /\ limit < L + O) ->
            io_ReadAll fuel (section heapRA O O limit L)
            = Done (take (Z.to_nat L) (drop (Z.to_nat (base + O)) pkg), None)).
  { intros limit Hlim. rewrite <- (Ewin limit Hlim).
    eapply io_ReadAll_delivers.
    - eapply (SectionReader_delivers heapRA heap O L _ O limit); try done; try lia.
      rewrite maxint64_eq. lia.
    - rewrite (Ewin limit Hlim), length_take, length_drop. lia. }
  unfold NewSectionReader at 1. fold (section heapRA O O).
  rewrite maxint64_eq.
  rewrite (wrap64_small (9223372036854775807 - L)) by lia.
  destruct (Z.leb_spec O (9223372036854775807 - L)).
  - rewrite (wrap64_small (L + O)) by lia.
    unfold section in Hread. rewrite (Hread (L + O)) by (left; lia). reflexivity.
  - unfold section in Hread.
    rewrite (Hread 9223372036854775807) by (right; lia). reflexivity.
Qed.
End SectionExtractor.

(** ** A stand-in for the libraries

    To run the model on concrete packages the libraries are replaced by
    small decoders over a toy syntax: a compressed stream is the two bytes
    78 9c followed by the payload; a bzip2 stream is "BZ" followed by the
    payload; a table of contents is a flag byte (bit 0: signature, bit 1:
    x-signature) followed by four bytes per file (a letter for the name,
    the offset, the length, the encoding); a Distribution document is the
    byte "<" and a PackageInfo document the byte "b", each standing for one
    fixed document. *)

Definition sample_inflate (b : list byte) : inflated :=
  match b with
  | x78 :: x9c :: payload => Inflated payload
  | [] | [_] => NewReaderFailed ErrUnexpectedEOF
  | _ => NewReaderFailed (LibError "zlib: invalid header")
  end.

Definition sample_stream (r : SectionReader) : run (list byte) :=
  '((d, _), _) ← SectionReader_Read r 65536;
  Done d.

Fixpoint sample_files (fuel : nat) (b : list byte) : option (list (option xmlFile)) :=
  match fuel, b with
  | _, [] => Some []
  | S fuel, tag :: off :: length :: enc :: b =>
      files ← sample_files fuel b;
      Some (Some {| xf_Name :=
                      match tag with
                      | x44 => "Distribution"
                      | x50 => "PackageInfo"
                      | _ => "Other"
                      end;
                    xf_Type := "file";
                    xf_Data :=
                      match enc with
                      | x00 => None
                      | _ =>
                          Some {| fd_Length := Z.of_N (Byte.to_N length);
                                  fd_Offset := Z.of_N (Byte.to_N off);
                                  fd_Size := Z.of_N (Byte.to_N length);
                                  fd_Encoding_Style :=
                                    match enc with
                                    | x01 => "application/octet-stream"
                                    | x02 => "application/x-gzip"
                                    | _ => "application/x-bzip2"
                                    end |}
                      end |} :: files)
  | _, _ => None
  end.

Definition sample_toc (payload : list byte) : result toc :=
  match payload with
  | flags :: _ =>
      Ok {| toc_Signature :=
              if N.testbit (Byte.to_N flags) 0 then Some () else None;
            toc_XSignature :=
              if N.testbit (Byte.to_N flags) 1 then Some () else None |}
  | [] => Err (LibError "EOF")
  end.

Definition sample_toc_Decode (avail : list byte) : nat * decodedTOC :=
  (length avail,
   match sample_inflate avail with
   | NewReaderFailed e => TOCReaderFailed e
   | ReadFailed e => TOCDecodeFailed e
   | Inflated [] => TOCDecodeFailed (LibError "EOF")
   | Inflated (_ :: b) =>
       match sample_files (length b) b with
       | Some files => TOCDecoded {| xar_TOC_Files := files |}
       | None => TOCDecodeFailed (LibError "XML syntax error")
       end
   end).

Definition sample_distribution : distributionXML :=
  {| dist_Title := "Sample";
     dist_Options := ["arm64,x86_64"];
     dist_OsVersions := ["11.0"];
     dist_PkgRefs :=
       [ {| pr_ID := "com.example.pkg"; pr_Version := "3.0";
            pr_BundleVersion :=
              Some [ {| db_CFBundleShortVersionString := "1.0";
                        db_CFBundleVersion := "100";
                        db_ID := "com.example.app";
                        db_Path := "Applications/Sample.app" |};
                     {| db_CFBundleShortVersionString := "";
                        db_CFBundleVersion := "7";
                        db_ID := "com.example.helper";
                        db_Path := "Library/Helper.app" |} ] |};
         {| pr_ID := "com.example.tool"; pr_Version := "3.0";
            pr_BundleVersion :=
              Some [ {| db_CFBundleShortVersionString := "2.0";
                        db_CFBundleVersion := "200";
                        db_ID := "com.example.app";
                        db_Path := "Applications/Other.app" |};
                     {| db_CFBundleShortVersionString := "5.1";
                        db_CFBundleVersion := "510";
                        db_ID := "com.example.tool";
                        db_Path := "usr/local/bin/tool" |} ] |};
         {| pr_ID := "com.example.empty"; pr_Version := ""; pr_BundleVersion := None |} ];
     dist_Product_ID := "com.example.product";
     dist_Product_Version := "9.9" |}.

Definition sample_bundle (path id version : string) : BundleInfo :=
  {| bi_Path := path; bi_ID := id; bi_CFBundleShortVersionString := version;
     bi_CFBundleDisplayName := ""; bi_CFBundleIdentifier := id;
     bi_CFBundleName := ""; bi_LSMinimumSystemVersion := "" |}.

Definition sample_packageInfo : PackageInfo :=
  {| pi_Version := "9.9"; pi_InstallLocation := "/";
     pi_Identifier := "com.example.pkg";
     pi_Bundles :=
       [ sample_bundle "Applications/One.app" "com.example.one" "1.0";
         sample_bundle "Applications/Two.app" "com.example.two" "2.0";
         sample_bundle "Library/Three.bundle" "com.example.one" "3.0" ] |}.

Definition sample_bzip2 (b : list byte) : result (list byte) :=
  match b with
  | x42 :: x5a :: payload => Ok payload
  | _ => Err (LibError "bzip2 data invalid")
  end.

Definition sample_unmarshal_distribution (b : list byte) : result distributionXML :=
  match b with
  | x3c :: _ => Ok sample_distribution
  | _ => Err (LibError "EOF")
  end.

Definition sample_decode_packageInfo (b : list byte) : result PackageInfo :=
  match b with
  | x62 :: _ => Ok sample_packageInfo
  | _ => Err (LibError "plist: invalid")
  end.

Lemma sample_growslice_grows (c : Z) : 0 < c -> c < 2 * c.
Proof. lia. Qed.

Lemma sample_range_perm (s : gset string) : elements s ≡ₚ elements s.
Proof. reflexivity. Qed.

Definition sample_Environment : Environment :=
  {| growslice := fun c => 2 * c;
     growslice_grows := sample_growslice_grows;
     map_range := elements;
     map_range_perm := sample_range_perm;
     zlib_ReadAll := fun r => b ← sample_stream r; Done (sample_inflate b);
     bzip2_ReadAll := fun r => b ← sample_stream r; Done (sample_bzip2 b);
     toc_Decode := sample_toc_Decode;
     xml_Unmarshal_tocXar := sample_toc;
     xml_Unmarshal_distributionXML := sample_unmarshal_distribution;
     plist_Decode_PackageInfo := sample_decode_packageInfo;
     sha1_Sum := fun b => x01 :: b;
     md5_Sum := fun b => x02 :: b;
     sha256_Sum := fun b => x03 :: b |}.

(** ** The Distribution strategy: first occurrence wins *)

(** A bundle of the document can become an AppBundle when its short
    version and its id are not empty. *)
Definition eligible (b : distBundle) : bool :=
  negb (is_empty (db_CFBundleShortVersionString b)) && negb (is_empty (db_ID b)).

Definition toAppBundle (b : distBundle) : AppBundle :=
  {| ab_ID := db_ID b;
     ab_ShortVersion := db_CFBundleShortVersionString b;
     ab_AppLocationPath := db_Path b |}.

(** The eligible bundles of the package references, in the order in which
    the document lists them. *)
Definition candidates_of (refs : list distPkgRef) : list AppBundle :=
  List.flat_map
    (fun pkg =>
       match pr_BundleVersion pkg with
       | Some bundles => List.map toAppBundle (List.filter eligible bundles)
       | None => []
       end) refs.

Definition candidates (d : distributionXML) : list AppBundle :=
  candidates_of (dist_PkgRefs d).

Definition has_id (id : string) (ab : AppBundle) : bool := String.eqb (ab_ID ab) id.

(** Keeping a bundle unless one with its id was kept before. *)
Definition keep_first (kept : list AppBundle) (ab : AppBundle) : list AppBundle :=
  if duplicate_in kept (ab_ID ab) then kept else kept ++ [ab].

Lemma is_empty_true s : is_empty s = true <-> s = "".
Proof. destruct s; simpl; split; congruence. Qed.

Lemma is_empty_false s : is_empty s = false <-> s <> "".
Proof. destruct s; simpl; split; congruence. Qed.

Lemma duplicate_in_find kept id :
  duplicate_in kept id = match List.find (has_id id) kept with Some _ => true | None => false end.
Proof.
  induction kept as [|ab kept IH]; simpl; [done|].
  unfold has_id at 1. destruct (String.eqb (ab_ID ab) id); done.
Qed.

Lemma duplicate_in_spec kept id :
  duplicate_in kept id = true <-> id ∈ ab_ID <$> kept.
Proof.
  induction kept as [|ab kept IH]; simpl.
  - split; [done|]. intros Hin. inversion Hin.
  - destruct (String.eqb_spec (ab_ID ab) id) as [->|Hne].
    + split; [|done]. intros _. left.
    + rewrite IH. split.
      * intros Hin. right. done.
      * intros Hin. inversion Hin; subst; [done|done].
Qed.

Lemma bundle_step_appBundles pkgID st b :
  st_appBundles (bundle_step pkgID st b)
  = if eligible b then keep_first (st_appBundles st) (toAppBundle b)
    else st_appBundles st.
Proof.
  unfold bundle_step, eligible, keep_first. simpl.
  destruct (negb (is_empty (db_CFBundleShortVersionString b))
            && negb (is_empty (db_ID b))); [|done].
  destruct (negb (st_primaryFound st) && String.eqb pkgID (db_ID b)); done.
Qed.

Lemma bundles_fold_appBundles pkgID bundles : forall st,
  st_appBundles (fold_left (bundle_step pkgID) bundles st)
  = fold_left keep_first (List.map toAppBundle (List.filter eligible bundles))
      (st_appBundles st).
Proof.
  induction bundles as [|b bundles IH]; intros st; simpl; [done|].
  rewrite IH, bundle_step_appBundles. destruct (eligible b); done.
Qed.

Lemma refs_fold_appBundles refs : forall st,
  st_appBundles (fold_left pkg_step refs st)
  = fold_left keep_first (candidates_of refs) (st_appBundles st).
Proof.
  induction refs as [|pkg refs IH]; intros st; simpl; [done|].
  rewrite IH, fold_left_app. f_equal.
  unfold pkg_step. destruct (pr_BundleVersion pkg); [|done].
  apply bundles_fold_appBundles.
Qed.

Lemma AppBundles_keep_first d :
  AppBundles (distributionMetadata d) = fold_left keep_first (candidates d) [].
Proof.
  unfold distributionMetadata.
  repeat match goal with |- context [let '(_, _) := ?x in _] => destruct x end.
  simpl. apply refs_fold_appBundles.
Qed.

(** What [keep_first] keeps. *)
Lemma keep_first_fold_app abs : forall kept,
  exists added,
    fold_left keep_first abs kept = kept ++ added /\ added `sublist_of` abs.
Proof.
  induction abs as [|ab abs IH]; intros kept; simpl.
  - exists []. rewrite app_nil_r. split; [done|]. constructor.
  - destruct (IH (keep_first kept ab)) as (added & E & S). rewrite E.
    unfold keep_first. destruct (duplicate_in kept (ab_ID ab)).
    + exists added. split; [done|]. by constructor.
    + exists (ab :: added). rewrite <- app_assoc. split; [done|]. by constructor.
Qed.

Lemma keep_first_fold_NoDup abs : forall kept,
  NoDup (ab_ID <$> kept) -> NoDup (ab_ID <$> fold_left keep_first abs kept).
Proof.
  induction abs as [|ab abs IH]; intros kept HN; simpl; [done|].
  apply IH. unfold keep_first.
  destruct (duplicate_in kept (ab_ID ab)) eqn:E; [done|].
  rewrite fmap_app. simpl. apply NoDup_app. split; [done|]. split.
  - intros id Hin Hin'. apply list_elem_of_singleton in Hin'. subst.
    apply duplicate_in_spec in Hin. congruence.
  - apply NoDup_singleton.
Qed.

Lemma find_app_first {A} (f : A -> bool) (l k : list A) :
  List.find f (l ++ k) = match List.find f l with Some x => Some x | None => List.find f k end.
Proof. induction l as [|x l IH]; simpl; [done|]. destruct (f x); done. Qed.

Lemma keep_first_fold_find id abs : forall kept,
  List.find (has_id id) (fold_left keep_first abs kept)
  = match List.find (has_id id) kept with
    | Some ab => Some ab
    | None => List.find (has_id id) abs
    end.
Proof.
  induction abs as [|ab abs IH]; intros kept; simpl.
  - destruct (List.find (has_id id) kept); done.
  - rewrite IH. unfold keep_first. rewrite duplicate_in_find.
    destruct (List.find (has_id (ab_ID ab)) kept) as [ab'|] eqn:E.
    + destruct (List.find (has_id id) kept) eqn:E'; [done|].
      destruct (has_id id ab) eqn:Hid; [|done].
      unfold has_id in Hid. apply String.eqb_eq in Hid. subst. congruence.
    + rewrite find_app_first. simpl.
      destruct (List.find (has_id id) kept); [done|].
      destruct (has_id id ab); done.
Qed.

Lemma candidates_of_eligible refs :
  Forall (fun ab => ab_ID ab <> "" /\ ab_ShortVersion ab <> "") (candidates_of refs).
Proof.
  apply Forall_forall. intros ab Hin. apply list_elem_of_In in Hin.
  unfold candidates_of in Hin. apply in_flat_map in Hin as (pkg & _ & Hin).
  destruct (pr_BundleVersion pkg); [|done].
  apply in_map_iff in Hin as (b & <- & Hb). apply filter_In in Hb as [_ Hb].
  unfold eligible in Hb. apply andb_true_iff in Hb as [Hv Hi].
  apply negb_true_iff in Hv, Hi. apply is_empty_false in Hv, Hi. done.
Qed.

(** The second loop, over a list without repeated or empty ids, lists the
    ids in order. *)
Lemma pkgIDs_fold abs : forall m ids,
  (forall k, default false (m !! k) = true <-> k ∈ ids) ->
  NoDup (ids ++ (ab_ID <$> abs)) ->
  Forall (fun ab => ab_ID ab <> "") abs ->
  (fold_left pkgIDs_step abs (m, ids)).2 = ids ++ (ab_ID <$> abs).
Proof.
  induction abs as [|ab abs IH]; intros m ids Hm HN HF; simpl.
  - by rewrite app_nil_r.
  - inversion HF as [|? ? Hne HF']; subst.
    apply is_empty_false in Hne. rewrite Hne. simpl.
    assert (Hfresh : ab_ID ab ∉ ids).
    { apply NoDup_app in HN as (_ & Hd & _). intros Hin.
      apply (Hd _ Hin). left. }
    destruct (default false (m !! ab_ID ab)) eqn:E.
    { apply Hm in E. done. }
    simpl. rewrite IH.
    + rewrite <- app_assoc. done.
    + intros k. destruct (decide (k = ab_ID ab)) as [->|Hk].
      * rewrite lookup_insert_eq. simpl. split; [|done].
        intros _. apply elem_of_app. right. left.
      * rewrite lookup_insert_ne by done. rewrite Hm, elem_of_app.
        split; [tauto|]. intros [?|Hin]; [done|].
        apply list_elem_of_singleton in Hin. done.
    + rewrite <- app_assoc. done.
    + done.
Qed.

Lemma AppBundles_sublist d :
  AppBundles (distributionMetadata d) `sublist_of` candidates d.
Proof.
  rewrite AppBundles_keep_first.
  destruct (keep_first_fold_app (candidates d) []) as (added & -> & S). done.
Qed.

Lemma AppBundles_eligible d :
  Forall (fun ab => ab_ID ab <> "" /\ ab_ShortVersion ab <> "")
    (AppBundles (distributionMetadata d)).
Proof.
  apply Forall_forall. intros ab Hin.
  pose proof (candidates_of_eligible (dist_PkgRefs d)) as HF.
  rewrite Forall_forall in HF. apply HF.
  eapply elem_of_sublist; [exact Hin|]. apply AppBundles_sublist.
Qed.

Lemma AppBundles_NoDup d :
  NoDup (ab_ID <$> AppBundles (distributionMetadata d)).
Proof.
  rewrite AppBundles_keep_first. apply keep_first_fold_NoDup. constructor.
Qed.

Lemma PackageIDs_fold d :
  PackageIDs (distributionMetadata d)
  = (fold_left pkgIDs_step (AppBundles (distributionMetadata d)) (∅, [])).2.
Proof.
  unfold distributionMetadata.
  repeat match goal with |- context [let '(_, _) := ?x in _] => destruct x eqn:? end.
  simpl.
  match goal with E : fold_left pkgIDs_step _ _ = _ |- _ => rewrite E end.
  done.
Qed.

Lemma PackageIDs_AppBundles d :
  PackageIDs (distributionMetadata d) = ab_ID <$> AppBundles (distributionMetadata d).
Proof.
  rewrite PackageIDs_fold.
  rewrite (pkgIDs_fold (AppBundles (distributionMetadata d)) ∅ []); [done| | |].
  - intros k. rewrite lookup_empty. simpl. split; [done|].
    intros Hin. inversion Hin.
  - apply AppBundles_NoDup.
  - eapply Forall_impl; [apply AppBundles_eligible|]. simpl. tauto.
Qed.

(** The bundles of a list that are the first of their id: the one at
    position [i] stays when none of the [i] bundles before it has its id.
    The order is the order of the list. *)
Definition first_of_its_id (abs : list AppBundle) (p : nat * AppBundle) : Prop :=
  ab_ID p.2 ∉ ab_ID <$> take p.1 abs.

#[global] Instance first_of_its_id_dec abs p : Decision (first_of_its_id abs p).
Proof. unfold first_of_its_id. apply _. Defined.

Definition first_occurrences (abs : list AppBundle) : list AppBundle :=
  (filter (first_of_its_id abs) (imap pair abs)).*2.

Lemma filter_agree {A} (P Q : A -> Prop) `{!forall x, Decision (P x)}
    `{!forall x, Decision (Q x)} (l : list A) :
  Forall (fun x => P x <-> Q x) l -> filter P l = filter Q l.
Proof.
  induction 1 as [|x l Hx _ IH]; [done|].
  rewrite !filter_cons, IH.
  destruct (decide (P x)), (decide (Q x)); tauto.
Qed.

Lemma first_occurrences_snoc pre ab :
  first_occurrences (pre ++ [ab])
  = first_occurrences pre
    ++ (if decide (ab_ID ab ∈ ab_ID <$> pre) then [] else [ab]).
Proof.
  unfold first_occurrences. rewrite imap_app, filter_app, fmap_app. f_equal.
  - f_equal. apply filter_agree. apply Forall_forall. intros [i x] Hin.
    apply elem_of_lookup_imap in Hin as (j & y & [= -> ->] & Hj).
    unfold first_of_its_id. simpl.
    apply lookup_lt_Some in Hj. rewrite take_app_le by lia. done.
  - simpl. rewrite filter_cons, filter_nil.
    destruct (decide (first_of_its_id (pre ++ [ab]) (length pre + 0, ab)%nat))
      as [Hn|Hn];
      unfold first_of_its_id in Hn; simpl in Hn;
      rewrite Nat.add_0_r, (take_app_length pre [ab]) in Hn;
      destruct (decide (ab_ID ab ∈ ab_ID <$> pre)); done.
Qed.

Lemma first_occurrences_ids pre id :
  id ∈ ab_ID <$> first_occurrences pre <-> id ∈ ab_ID <$> pre.
Proof.
  induction pre as [|ab pre IH] using rev_ind; [done|].
  rewrite first_occurrences_snoc, !fmap_app, !elem_of_app, IH. simpl.
  destruct (decide (ab_ID ab ∈ ab_ID <$> pre)) as [Hin|Hin]; simpl.
  - split.
    + intros [?|Hn]; [by left|inversion Hn].
    + intros [?|Hid]; [by left|]. apply list_elem_of_singleton in Hid. subst. by left.
  - done.
Qed.

Lemma keep_first_fold_first_occurrences abs : forall pre,
  fold_left keep_first abs (first_occurrences pre) = first_occurrences (pre ++ abs).
Proof.
  induction abs as [|ab abs IH]; intros pre; simpl.
  - by rewrite app_nil_r.
  - replace (pre ++ ab :: abs) with ((pre ++ [ab]) ++ abs) by (by rewrite <- app_assoc).
    rewrite <- IH. f_equal. rewrite first_occurrences_snoc. unfold keep_first.
    destruct (duplicate_in (first_occurrences pre) (ab_ID ab)) eqn:E.
    + apply (proj1 (duplicate_in_spec _ _)) in E.
      apply (proj1 (first_occurrences_ids _ _)) in E.
      destruct (decide (ab_ID ab ∈ ab_ID <$> pre)) as [|Hn];
        [by rewrite app_nil_r|by destruct Hn].
    + destruct (decide (ab_ID ab ∈ ab_ID <$> pre)) as [Hin|]; [|done].
      apply (proj2 (first_occurrences_ids _ _)) in Hin.
      apply (proj2 (duplicate_in_spec _ _)) in Hin. congruence.
Qed.

Lemma AppBundles_first_occurrences d :
  AppBundles (distributionMetadata d) = first_occurrences (candidates d).
Proof.
  rewrite AppBundles_keep_first.
  apply (keep_first_fold_first_occurrences (candidates d) []).
Qed.

(** C3. Distribution strategy: among the bundles whose id and short
    version are both non-empty, the AppBundles keep one bundle per id, the
    first one the document lists (a later bundle with the same id is
    dropped whatever its version or path), in the order of the document:
    they are exactly the eligible bundles before which the document lists
    no eligible bundle with the same id, in the order in which it lists
    them; packageIDs lists their ids in that same first-seen order. *)
Theorem distribution_first_occurrence_wins (d : distributionXML) :
  let m := distributionMetadata d in
  NoDup (ab_ID <$> AppBundles m)
  /\ AppBundles m `sublist_of` candidates d
  /\ (forall id, List.find (has_id id) (AppBundles m)
                 = List.find (has_id id) (candidates d))
  /\ AppBundles m = first_occurrences (candidates d)
  /\ PackageIDs m = ab_ID <$> first_occurrences (candidates d).
Proof.
  simpl. split; [apply AppBundles_NoDup|]. split; [apply AppBundles_sublist|].
  split; [|split; [apply AppBundles_first_occurrences|]].
  - intros id. rewrite AppBundles_keep_first, keep_first_fold_find. done.
  - rewrite PackageIDs_AppBundles, AppBundles_first_occurrences. done.
Qed.

Example first_occurrences_sample :
  let ab id v := {| ab_ID := id; ab_ShortVersion := v; ab_AppLocationPath := "" |} in
  first_occurrences [ab "a" "1"; ab "b" "1"; ab "a" "1"; ab "c" "1"; ab "b" "2"]
  = [ab "a" "1"; ab "b" "1"; ab "c" "1"].
Proof. vm_compute. done. Qed.

(** C8. Distribution strategy: the overall version is the short version of
    the first AppBundle when there is one, which is the first eligible
    bundle the document lists, and the product-version attribute of the
    document otherwise. *)
Theorem distribution_version (d : distributionXML) :
  let m := distributionMetadata d in
  Version m = match AppBundles m with
              | ab :: _ => ab_ShortVersion ab
              | [] => dist_Product_Version d
              end
  /\ head (AppBundles m) = head (candidates d).
Proof.
  simpl. split.
  - unfold distributionMetadata.
    repeat match goal with |- context [let '(_, _) := ?x in _] => destruct x end.
    done.
  - rewrite AppBundles_keep_first. destruct (candidates d) as [|ab abs]; [done|].
    simpl. unfold keep_first at 2. simpl.
    destruct (keep_first_fold_app abs [ab]) as (added & -> & _). done.
Qed.

(** C10. Distribution strategy: packageIDs and AppBundles have the same
    length, the i-th package id is the id of the i-th AppBundle, and every
    AppBundle has a non-empty id and a non-empty short version. *)
Theorem distribution_ids_aligned (d : distributionXML) :
  let m := distributionMetadata d in
  length (PackageIDs m) = length (AppBundles m)
  /\ (forall i : nat, PackageIDs m !! i = ab_ID <$> (AppBundles m !! i))
  /\ Forall (fun ab => ab_ID ab <> "" /\ ab_ShortVersion ab <> "") (AppBundles m).
Proof.
  simpl. rewrite PackageIDs_AppBundles. split; [apply length_fmap|].
  split; [|apply AppBundles_eligible].
  intros i. apply list_lookup_fmap.
Qed.

Example distribution_sample :
  let m := distributionMetadata sample_distribution in
  ab_ID <$> candidates sample_distribution
    = ["com.example.app"; "com.example.app"; "com.example.tool"]
  /\ AppBundles m
     = [ {| ab_ID := "com.example.app"; ab_ShortVersion := "1.0";
            ab_AppLocationPath := "Applications/Sample.app" |};
         {| ab_ID := "com.example.tool"; ab_ShortVersion := "5.1";
            ab_AppLocationPath := "usr/local/bin/tool" |} ]
  /\ PackageIDs m = ["com.example.app"; "com.example.tool"]
  /\ Version m = "1.0".
Proof. vm_compute. done. Qed.

(** ** The PackageInfo strategy: the last qualifying bundle and the fallbacks *)

(** A bundle qualifies when its path, as the loop computes it, is valid. *)
Definition qualifies (p : PackageInfo) (b : BundleInfo) : bool :=
  (isValidAppFilePath (installPath p b)).2.

Definition base_name (p : PackageInfo) (b : BundleInfo) : string :=
  (isValidAppFilePath (installPath p b)).1.

Definition last_qualifying (p : PackageInfo) : option BundleInfo :=
  last (List.filter (qualifies p) (pi_Bundles p)).

(** The ids of the bundles that are not empty once sanitized, in the order
    of the document and with their repetitions. *)
Definition bundleIDs_of (bundles : list BundleInfo) : list string :=
  List.filter (fun id => negb (is_empty id))
    (List.map (fun b => sanitizeBundleString (bi_ID b)) bundles).

Definition bundleIDs (p : PackageInfo) : list string := bundleIDs_of (pi_Bundles p).

(** The six values a qualifying bundle assigns, and those a state holds. *)
Definition assigned (p : PackageInfo) (b : BundleInfo) : list string :=
  [ sanitizeBundleString (bi_ID b);
    base_name p b;
    sanitizeBundleString (bi_CFBundleShortVersionString b);
    sanitizeBundleString (bi_CFBundleDisplayName b);
    sanitizeBundleString (bi_CFBundleName b);
    sanitizeBundleString (bi_LSMinimumSystemVersion b) ].

Definition held (st : pkgInfoState) : list string :=
  [ s_identifier st; s_name st; s_version st; s_displayName st;
    s_bundleName st; s_minOSVersion st ].

(** The last component of an identifier, as [strings.Split] on "." gives it. *)
Definition lastComponent (identifier : string) : string :=
  match last (strings_Split1 identifier ".") with
  | Some part => part
  | None => ""
  end.

Lemma packageInfo_step_held p st b :
  held (packageInfo_step p st b) = if qualifies p b then assigned p b else held st.
Proof.
  unfold packageInfo_step, qualifies, assigned, base_name.
  destruct (isValidAppFilePath (installPath p b)) as [base [|]]; reflexivity.
Qed.

Lemma packageInfo_step_set p st b :
  s_packageIDSet (packageInfo_step p st b)
  = if negb (is_empty (sanitizeBundleString (bi_ID b)))
    then {[sanitizeBundleString (bi_ID b)]} ∪ s_packageIDSet st
    else s_packageIDSet st.
Proof.
  unfold packageInfo_step.
  destruct (isValidAppFilePath (installPath p b)) as [base [|]]; reflexivity.
Qed.

Lemma packageInfo_fold_held p bundles : forall st,
  held (fold_left (packageInfo_step p) bundles st)
  = match last (List.filter (qualifies p) bundles) with
    | Some b => assigned p b
    | None => held st
    end.
Proof.
  induction bundles as [|b bundles IH]; intros st; simpl; [done|].
  rewrite IH, packageInfo_step_held.
  destruct (qualifies p b); [|done].
  rewrite last_cons. destruct (last (List.filter (qualifies p) bundles)); done.
Qed.

Lemma packageInfo_fold_set p bundles : forall st id,
  id ∈ s_packageIDSet (fold_left (packageInfo_step p) bundles st)
  <-> id ∈ bundleIDs_of bundles \/ id ∈ s_packageIDSet st.
Proof.
  induction bundles as [|b bundles IH]; intros st id; simpl.
  - unfold bundleIDs_of. simpl. split; [tauto|]. intros [Hin|?]; [inversion Hin|done].
  - rewrite IH, packageInfo_step_set. unfold bundleIDs_of. simpl.
    destruct (negb (is_empty (sanitizeBundleString (bi_ID b)))); simpl.
    + rewrite elem_of_union, elem_of_singleton, elem_of_cons. tauto.
    + tauto.
Qed.

Section PackageInfoFacts.
Context `{Environment}.

Lemma map_range_elem_of (s : gset string) id : id ∈ map_range s <-> id ∈ s.
Proof. rewrite (map_range_perm s). apply elem_of_elements. Qed.

Lemma map_range_NoDup (s : gset string) : NoDup (map_range s).
Proof. rewrite (map_range_perm s). apply NoDup_elements. Qed.

(** What [getPackageInfo] returns, from the state its loop ends in. *)
Lemma getPackageInfo_held p :
  let st := fold_left (packageInfo_step p) (pi_Bundles p) packageInfo_init in
  let r := getPackageInfo p in
  held st = match last_qualifying p with
            | Some b => assigned p b
            | None => ["" ; ""; ""; ""; ""; ""]
            end
  /\ r_identifier r = (if is_empty (s_identifier st)
                       then sanitizeBundleString (pi_Identifier p) else s_identifier st)
  /\ r_version r = (if is_empty (s_version st)
                    then sanitizeBundleString (pi_Version p) else s_version st)
  /\ r_name r = (if is_empty (s_name st) then lastComponent (r_identifier r) else s_name st)
  /\ r_displayName r = s_displayName st
  /\ r_bundleName r = s_bundleName st
  /\ r_minOSVersion r = s_minOSVersion st.
Proof.
  simpl. split; [apply packageInfo_fold_held|].
  unfold getPackageInfo, lastComponent. simpl.
  repeat split.
  destruct (is_empty (s_name _)) eqn:E; [|done].
  apply is_empty_true in E. rewrite E.
  destruct (last _); done.
Qed.

Lemma getPackageInfo_packageIDs p :
  let r := getPackageInfo p in
  NoDup (r_packageIDs r)
  /\ (bundleIDs p <> [] -> forall id, id ∈ r_packageIDs r <-> id ∈ bundleIDs p)
  /\ (bundleIDs p = [] ->
      r_packageIDs r = if is_empty (r_identifier r) then [] else [r_identifier r]).
Proof.
  simpl. unfold getPackageInfo. simpl.
  set (st := fold_left (packageInfo_step p) (pi_Bundles p) packageInfo_init).
  set (identifier := if is_empty (s_identifier st) then _ else _).
  assert (Hset : forall id, id ∈ map_range (s_packageIDSet st) <-> id ∈ bundleIDs p).
  { intros id. rewrite map_range_elem_of. subst st.
    rewrite packageInfo_fold_set. simpl. unfold bundleIDs.
    pose proof (not_elem_of_empty (C:=gset string) id). tauto. }
  destruct (map_range (s_packageIDSet st)) as [|x ids] eqn:E.
  - assert (He : bundleIDs p = []).
    { destruct (bundleIDs p) as [|y l]; [done|].
      exfalso. apply (not_elem_of_nil y). apply Hset. left. }
    simpl. split.
    { destruct (is_empty identifier); simpl; [constructor|].
      apply NoDup_singleton. }
    split; [done|]. intros _. destruct (is_empty identifier); done.
  - simpl. split; [rewrite <- E; apply map_range_NoDup|].
    split; [intros _; exact Hset|].
    intros He. exfalso. rewrite He in Hset. apply (not_elem_of_nil x), Hset. left.
Qed.
End PackageInfoFacts.

Section PackageInfoClaims.
Context `{Environment}.

(** C4 (as amended). PackageInfo strategy: when bundles qualify, the last
    one of the forward pass gives displayName, bundleName and minOSVersion,
    and gives name, identifier and version unless the value it supplies is
    empty, in which case the top-level fallback applies; earlier qualifying
    bundles leave no trace. packageIDs has no repetition; it holds exactly
    the non-empty sanitized bundle ids when there is one, in no particular
    order, and otherwise the resolved identifier alone, if that is not
    empty. *)
Theorem packageInfo_last_qualifying_wins (p : PackageInfo) (b : BundleInfo) :
  last_qualifying p = Some b ->
  let r := getPackageInfo p in
  r_displayName r = sanitizeBundleString (bi_CFBundleDisplayName b)
  /\ r_bundleName r = sanitizeBundleString (bi_CFBundleName b)
  /\ r_minOSVersion r = sanitizeBundleString (bi_LSMinimumSystemVersion b)
  /\ r_identifier r
     = (if is_empty (sanitizeBundleString (bi_ID b))
        then sanitizeBundleString (pi_Identifier p)
        else sanitizeBundleString (bi_ID b))
  /\ r_version r
     = (if is_empty (sanitizeBundleString (bi_CFBundleShortVersionString b))
        then sanitizeBundleString (pi_Version p)
        else sanitizeBundleString (bi_CFBundleShortVersionString b))
  /\ r_name r
     = (if is_empty (base_name p b) then lastComponent (r_identifier r)
        else base_name p b)
  /\ NoDup (r_packageIDs r)
  /\ (bundleIDs p <> [] -> forall id, id ∈ r_packageIDs r <-> id ∈ bundleIDs p)
  /\ (bundleIDs p = [] ->
      r_packageIDs r = if is_empty (r_identifier r) then [] else [r_identifier r]).
Proof.
  intros Hlast. simpl.
  destruct (getPackageInfo_held p) as (Hheld & Hid & Hver & Hname & Hdn & Hbn & Hmin).
  rewrite Hlast in Hheld. unfold held, assigned in Hheld.
  injection Hheld as Ei En Ev Ed Eb Em.
  rewrite Ei in Hid. rewrite Ev in Hver. rewrite En in Hname.
  rewrite Ed in Hdn. rewrite Eb in Hbn. rewrite Em in Hmin.
  split; [exact Hdn|]. split; [exact Hbn|]. split; [exact Hmin|].
  split; [exact Hid|]. split; [exact Hver|]. split; [exact Hname|].
  apply getPackageInfo_packageIDs.
Qed.

(** The values the forward pass leaves for version and identifier. *)
Definition accumulated_version (p : PackageInfo) : string :=
  match last_qualifying p with
  | Some b => sanitizeBundleString (bi_CFBundleShortVersionString b)
  | None => ""
  end.

Definition accumulated_identifier (p : PackageInfo) : string :=
  match last_qualifying p with
  | Some b => sanitizeBundleString (bi_ID b)
  | None => ""
  end.

(** C9. PackageInfo strategy: the fallback to the top-level version, and
    likewise to the top-level identifier, applies whenever the value left by
    the forward pass is empty: when no bundle qualifies, and also when the
    last qualifying bundle has a version (or id) that is empty once
    sanitized. A non-empty value is kept. *)
Theorem packageInfo_fallback_on_empty (p : PackageInfo) :
  let r := getPackageInfo p in
  (accumulated_version p = "" -> r_version r = sanitizeBundleString (pi_Version p))
  /\ (accumulated_identifier p = "" ->
      r_identifier r = sanitizeBundleString (pi_Identifier p))
  /\ (accumulated_version p <> "" -> r_version r = accumulated_version p)
  /\ (accumulated_identifier p <> "" -> r_identifier r = accumulated_identifier p).
Proof.
  cbv zeta.
  destruct (getPackageInfo_held p) as (Hheld & Hid & Hver & _).
  assert (Ev : s_version (fold_left (packageInfo_step p) (pi_Bundles p) packageInfo_init)
               = accumulated_version p).
  { unfold accumulated_version. unfold held in Hheld.
    destruct (last_qualifying p); injection Hheld; intros; assumption. }
  assert (Ei : s_identifier (fold_left (packageInfo_step p) (pi_Bundles p) packageInfo_init)
               = accumulated_identifier p).
  { unfold accumulated_identifier. unfold held in Hheld.
    destruct (last_qualifying p); injection Hheld; intros; assumption. }
  rewrite Hid, Hver, Ev, Ei.
  repeat split; intros E.
  - rewrite E. reflexivity.
  - rewrite E. reflexivity.
  - apply is_empty_false in E. rewrite E. reflexivity.
  - apply is_empty_false in E. rewrite E. reflexivity.
Qed.
End PackageInfoClaims.

(** Two bundles qualify; the last one has no version and neither has an id. *)
Definition unnamed_bundles : PackageInfo :=
  {| pi_Version := "9.9"; pi_InstallLocation := "";
     pi_Identifier := "com.example.pkg";
     pi_Bundles := [ sample_bundle "One.app" "" "1.0";
                     sample_bundle "Two.app" " " "" ] |}.

Lemma packageInfo_last_qualifying_wins_witness :
  last_qualifying sample_packageInfo
  = Some (sample_bundle "Applications/Two.app" "com.example.two" "2.0")
  /\ r_version (getPackageInfo (H := sample_Environment) sample_packageInfo) = "2.0"
  /\ r_name (getPackageInfo (H := sample_Environment) sample_packageInfo) = "Two.app".
Proof.
  assert (E : last_qualifying sample_packageInfo
              = Some (sample_bundle "Applications/Two.app" "com.example.two" "2.0"))
    by (vm_compute; reflexivity).
  split; [exact E|].
  destruct (packageInfo_last_qualifying_wins (H := sample_Environment) _ _ E)
    as (_ & _ & _ & _ & Hv & Hn & _).
  split; [rewrite Hv | rewrite Hn]; vm_compute; reflexivity.
Defined.

Lemma packageInfo_fallback_on_empty_witness :
  last_qualifying unnamed_bundles = Some (sample_bundle "Two.app" " " "")
  /\ accumulated_version unnamed_bundles = ""
  /\ accumulated_identifier unnamed_bundles = ""
  /\ r_version (getPackageInfo (H := sample_Environment) unnamed_bundles) = "9.9"
  /\ r_identifier (getPackageInfo (H := sample_Environment) unnamed_bundles)
     = "com.example.pkg".
Proof.
  assert (Ev : accumulated_version unnamed_bundles = "") by (vm_compute; reflexivity).
  assert (Ei : accumulated_identifier unnamed_bundles = "") by (vm_compute; reflexivity).
  split; [vm_compute; reflexivity|]. split; [exact Ev|]. split; [exact Ei|].
  destruct (packageInfo_fallback_on_empty (H := sample_Environment) unnamed_bundles)
    as (Hv & Hi & _).
  split; [rewrite (Hv Ev) | rewrite (Hi Ei)]; vm_compute; reflexivity.
Defined.

(** C4 as stated fails: both bundles qualify, yet the version is not the
    one of the last qualifying bundle (which is empty) and packageIDs holds
    an identifier that is the id of no bundle. *)
Lemma packageInfo_ids_not_from_bundles :
  let r := getPackageInfo (H := sample_Environment) unnamed_bundles in
  List.filter (qualifies unnamed_bundles) (pi_Bundles unnamed_bundles)
    = pi_Bundles unnamed_bundles
  /\ bundleIDs unnamed_bundles = []
  /\ r_packageIDs r = ["com.example.pkg"]
  /\ r_version r = "9.9"
  /\ ~ (forall id, id ∈ r_packageIDs r <-> id ∈ bundleIDs unnamed_bundles).
Proof.
  simpl. split; [vm_compute; reflexivity|]. split; [vm_compute; reflexivity|].
  split; [vm_compute; reflexivity|]. split; [vm_compute; reflexivity|].
  intros Hall. specialize (Hall "com.example.pkg").
  assert (Hin : "com.example.pkg"
                ∈ r_packageIDs (getPackageInfo (H := sample_Environment) unnamed_bundles)).
  { vm_compute. left. }
  apply Hall in Hin. vm_compute in Hin. inversion Hin.
Qed.

Example packageInfo_order_matters :
  let one := sample_bundle "One.app" "com.example.one" "1.0" in
  let two := sample_bundle "Two.app" "com.example.two" "2.0" in
  let doc bundles :=
    {| pi_Version := ""; pi_InstallLocation := ""; pi_Identifier := "";
       pi_Bundles := bundles |} in
  r_version (getPackageInfo (H := sample_Environment) (doc [one; two])) = "2.0"
  /\ r_version (getPackageInfo (H := sample_Environment) (doc [two; one])) = "1.0".
Proof. vm_compute. done. Qed.

(** ** The signature detector *)

(** The hash-algorithm ids [parseHeader] maps to a digest. *)
Definition recognized (id : Z) : bool :=
  (id =? hashSHA1) || (id =? hashSHA256) || (id =? hashSHA512).

Definition has_marker (t : toc) : bool :=
  match toc_Signature t, toc_XSignature t with
  | None, None => false
  | _, _ => true
  end.

(** The checks of [parseHeader] on the 28 bytes it has read. *)
Definition checkHeader (b : list byte) : result (xarHeader * crypto_Hash) :=
  let hdr := decode_xarHeader b in
  if negb (hdr_Magic hdr =? xarMagic) then Err ErrInvalidType
  else if hdr_HashType hdr =? hashSHA1 then Ok (hdr, crypto_SHA1)
  else if hdr_HashType hdr =? hashSHA256 then Ok (hdr, crypto_SHA256)
  else if hdr_HashType hdr =? hashSHA512 then Ok (hdr, crypto_SHA512)
  else Err (ErrUnknownHash (hdr_HashType hdr)).

Lemma checkHeader_cases b :
  let hdr := decode_xarHeader b in
  (hdr_Magic hdr <> xarMagic /\ checkHeader b = Err ErrInvalidType)
  \/ (hdr_Magic hdr = xarMagic /\ recognized (hdr_HashType hdr) = false
      /\ checkHeader b = Err (ErrUnknownHash (hdr_HashType hdr)))
  \/ (hdr_Magic hdr = xarMagic /\ recognized (hdr_HashType hdr) = true
      /\ exists h, checkHeader b = Ok (hdr, h)).
Proof.
  cbv zeta. unfold checkHeader, recognized.
  set (hdr := decode_xarHeader b).
  destruct (Z.eqb_spec (hdr_Magic hdr) xarMagic) as [E|E]; cbn [negb];
    [|left; done].
  right.
  destruct (hdr_HashType hdr =? hashSHA1); cbn [orb];
    [right; split; [done|]; split; [done|]; eexists; done|].
  destruct (hdr_HashType hdr =? hashSHA256); cbn [orb];
    [right; split; [done|]; split; [done|]; eexists; done|].
  destruct (hdr_HashType hdr =? hashSHA512); cbn [orb];
    [right; split; [done|]; split; [done|]; eexists; done|].
  left. done.
Qed.

(** The magic number is read from the first four bytes. *)
Lemma to_N_byte_inj (a b : byte) : Byte.to_N a = Byte.to_N b -> a = b.
Proof.
  intros E. apply (f_equal Byte.of_N) in E. rewrite !Byte.of_to_N in E. congruence.
Qed.

Lemma byte_range (a : byte) : 0 <= Z.of_N (Byte.to_N a) < 256.
Proof. pose proof (Byte.to_N_bounded a). lia. Qed.

Lemma magic_bytes (pkg : list byte) :
  (4 <= length pkg)%nat ->
  be_uint (take 4 pkg) = xarMagic <-> take 4 pkg = [x78; x61; x72; x21].
Proof.
  intros Hlen.
  destruct pkg as [|a [|b [|c [|d pkg]]]]; simpl in Hlen; try lia.
  simpl. split.
  - unfold be_uint, xarMagic. simpl.
    pose proof (byte_range a). pose proof (byte_range b).
    pose proof (byte_range c). pose proof (byte_range d).
    intros E.
    assert (Z.of_N (Byte.to_N a) = 0x78 /\ Z.of_N (Byte.to_N b) = 0x61
            /\ Z.of_N (Byte.to_N c) = 0x72 /\ Z.of_N (Byte.to_N d) = 0x21)
      as (Ea & Eb & Ec & Ed) by lia.
    rewrite (to_N_byte_inj a x78), (to_N_byte_inj b x61),
      (to_N_byte_inj c x72), (to_N_byte_inj d x21); [done|..]; simpl; lia.
  - intros E. injection E as -> -> -> ->. reflexivity.
Qed.

Lemma decode_magic (pkg : list byte) :
  hdr_Magic (decode_xarHeader (take 28 pkg)) = be_uint (take 4 pkg).
Proof. simpl. rewrite take_take. reflexivity. Qed.

Section Detector.
Context `{Environment}.

(** [CheckPKGSignature] on the bytes [pkg] its reader delivers, without the
    reading loops. *)
Definition detect (pkg : list byte) : run (option error) :=
  match ReadFull_error 28 (len (take 28 pkg)) with
  | Some e => Done (Some e)
  | None =>
      match checkHeader (take 28 pkg) with
      | Err e => Done (Some e)
      | Ok (hdr, hashType) =>
          t ← parseTOC
                (NewSectionReader (bytes_Reader_ReadAt pkg)
                   (hdr_HeaderSize hdr) (hdr_CompressedSize hdr)) hashType;
          match t with
          | Err e => Done (Some e)
          | Ok toc => Done (if has_marker toc then None else Some ErrNotSigned)
          end
      end
  end.

Lemma bytes_Reader_reads_bytes (s : list byte) : reads_bytes (bytes_Reader_ReadAt s) s.
Proof. intros plen off _ _. reflexivity. Qed.

Lemma parseHeader_checkHeader fuel (r : SectionReader) :
  parseHeader fuel r
  = x ← io_ReadFull fuel r xarHeaderSize;
    Done match x.1.2 with
         | Some e => Err e
         | None => checkHeader x.1.1
         end.
Proof.
  unfold parseHeader.
  destruct (io_ReadFull fuel r xarHeaderSize) as [[[b [e|]] r']| |]; try reflexivity.
  cbn [mbind run_bind fst snd]. unfold checkHeader.
  destruct (negb _); [reflexivity|].
  repeat (destruct (_ =? _); [reflexivity|]). reflexivity.
Qed.

Lemma parseHeader_section fuel (buff : list byte) :
  (length buff < fuel)%nat ->
  parseHeader fuel (NewSectionReader (bytes_Reader_ReadAt buff) 0 28)
  = Done match ReadFull_error 28 (len (take 28 buff)) with
         | Some e => Err e
         | None => checkHeader (take 28 buff)
         end.
Proof.
  intros Hfuel.
  assert (D : delivers (NewSectionReader (bytes_Reader_ReadAt buff) 0 28)
                (take 28 buff)
                (section (bytes_Reader_ReadAt buff) 0 (0 + len (window buff 0 28)) 28 28)).
  { apply (SectionReader_delivers (bytes_Reader_ReadAt buff) buff 0 28
             (length (window buff 0 28)) 0 28);
      [apply bytes_Reader_reads_bytes | lia | rewrite maxint64_eq; lia | reflexivity]. }
  destruct (io_ReadFull_delivers fuel _ _ _ 28 D ltac:(lia)) as [r' E].
  { rewrite length_take. lia. }
  rewrite parseHeader_checkHeader. unfold xarHeaderSize. rewrite E.
  cbn [mbind run_bind fst snd]. rewrite take_take. reflexivity.
Qed.

Lemma CheckPKGSignature_detect {R : Type} `{Reader R} fuel (r r_end : R) pkg :
  delivers r pkg r_end -> (length pkg < fuel)%nat ->
  CheckPKGSignature fuel r = (e ← detect pkg; Done (e, r_end)).
Proof.
  intros D Hfuel. unfold CheckPKGSignature, bytes_Buffer_ReadFrom.
  rewrite (Copy_loop_delivers fuel 512 r pkg r_end [] D) by (done || lia).
  simpl. rewrite parseHeader_section by done. simpl.
  unfold detect.
  destruct (ReadFull_error 28 (len (take 28 pkg))); [done|].
  destruct (checkHeader (take 28 pkg)) as [[hdr h]|e]; [|done].
  destruct (parseTOC _ h) as [[t|e]| |]; simpl; try done.
  unfold has_marker. destruct (toc_Signature t), (toc_XSignature t); done.
Qed.
End Detector.

(** Sample packages for the stand-in libraries: a header, a table of
    contents in the toy syntax, a heap. *)
Definition sample_header (headerSize compressedSize hashType : byte) : list byte :=
  [x78; x61; x72; x21; x00; headerSize; x00; x01;
   x00; x00; x00; x00; x00; x00; x00; compressedSize;
   x00; x00; x00; x00; x00; x00; x00; x40;
   x00; x00; x00; hashType].

(** Signed; a Distribution entry at heap offset 0 and another file. *)
Definition signed_pkg : list byte :=
  sample_header x1c x0b x01
  ++ [x78; x9c; x01; x44; x00; x03; x01; x58; x03; x02; x01]
  ++ [x3c; x61; x62; x7a; x7a].

(** Not signed; only a file that is neither document. *)
Definition bare_pkg : list byte :=
  sample_header x1c x07 x03
  ++ [x78; x9c; x00; x58; x00; x02; x01]
  ++ [x7a; x7a].

(** The same as [signed_pkg] with the hash-algorithm id 0. *)
Definition unknown_hash_pkg : list byte :=
  sample_header x1c x0b x00
  ++ [x78; x9c; x01; x44; x00; x03; x01; x58; x03; x02; x01]
  ++ [x3c; x61; x62; x7a; x7a].

Section DetectorClaims.
Context `{Environment}.

(** C5 (as amended). On an input of at least 28 bytes the signature
    detector returns InvalidType when the first four bytes differ from
    78 61 72 21; with the magic in place it fails with the unknown-hash
    error when the hash-algorithm id is not one of SHA-1, SHA-256, SHA-512,
    and with the error of the TOC when that cannot be decompressed or
    parsed; otherwise it returns success exactly when the parsed TOC has a
    signature or x-signature element, and NotSigned when it has neither. *)
Theorem signature_outcomes {R : Type} `{Reader R} (fuel : nat) (r r_end : R)
    (pkg : list byte) :
  delivers r pkg r_end -> (length pkg < fuel)%nat -> (28 <= length pkg)%nat ->
  let hdr := decode_xarHeader (take 28 pkg) in
  let tocReader :=
    NewSectionReader (bytes_Reader_ReadAt pkg)
      (hdr_HeaderSize hdr) (hdr_CompressedSize hdr) in
  (take 4 pkg <> [x78; x61; x72; x21] ->
   CheckPKGSignature fuel r = Done (Some ErrInvalidType, r_end))
  /\ (take 4 pkg = [x78; x61; x72; x21] ->
      recognized (hdr_HashType hdr) = false ->
      CheckPKGSignature fuel r
      = Done (Some (ErrUnknownHash (hdr_HashType hdr)), r_end))
  /\ (take 4 pkg = [x78; x61; x72; x21] ->
      recognized (hdr_HashType hdr) = true ->
      forall h t, parseTOC tocReader h = Done (Ok t) ->
      CheckPKGSignature fuel r
      = Done (if has_marker t then None else Some ErrNotSigned, r_end))
  /\ (take 4 pkg = [x78; x61; x72; x21] ->
      recognized (hdr_HashType hdr) = true ->
      forall h e, parseTOC tocReader h = Done (Err e) ->
      CheckPKGSignature fuel r = Done (Some e, r_end)).
Proof.
  intros D Hfuel Hlen. cbv zeta.
  rewrite (CheckPKGSignature_detect fuel r r_end pkg D Hfuel).
  unfold detect.
  assert (Hfull : ReadFull_error 28 (len (take 28 pkg)) = None).
  { unfold ReadFull_error. rewrite len_take.
    destruct (Z.leb_spec 28 (Z.min (Z.of_nat 28) (len pkg))); [done|].
    unfold len in *. lia. }
  rewrite Hfull.
  pose proof (magic_bytes pkg ltac:(lia)) as Hmagic.
  rewrite <- decode_magic in Hmagic.
  destruct (checkHeader_cases (take 28 pkg))
    as [(Hm & ->) | [(Hm & Hr & ->) | (Hm & Hr & h0 & ->)]];
    (split; [|split; [|split]]).
  - intros _. reflexivity.
  - intros E. apply Hmagic in E. congruence.
  - intros E. apply Hmagic in E. congruence.
  - intros E. apply Hmagic in E. congruence.
  - intros E. apply Hmagic in Hm. congruence.
  - intros _ _. reflexivity.
  - intros _ E. congruence.
  - intros _ E. congruence.
  - intros E. apply Hmagic in Hm. congruence.
  - intros _ E. congruence.
  - intros _ _ h t Ht. change (parseTOC ?x h0) with (parseTOC x h).
    rewrite Ht. reflexivity.
  - intros _ _ h e He. change (parseTOC ?x h0) with (parseTOC x h).
    rewrite He. reflexivity.
Qed.
End DetectorClaims.

Lemma signature_outcomes_witness :
  (x ← CheckPKGSignature (H := sample_Environment) 100 (open_TempFileReader signed_pkg);
   Done x.1) = Done None
  /\ (x ← CheckPKGSignature (H := sample_Environment) 100 (open_TempFileReader bare_pkg);
      Done x.1) = Done (Some ErrNotSigned).
Proof.
  split.
  - destruct (signature_outcomes (H := sample_Environment) 100
                (open_TempFileReader signed_pkg) _ signed_pkg
                (TempFileReader_delivers (open_TempFileReader signed_pkg))
                ltac:(vm_compute; lia) ltac:(vm_compute; lia))
      as (_ & _ & Hsig & _).
    rewrite (Hsig ltac:(reflexivity) ltac:(reflexivity) crypto_SHA1
               {| toc_Signature := Some (); toc_XSignature := None |}
               ltac:(vm_compute; reflexivity)).
    reflexivity.
  - destruct (signature_outcomes (H := sample_Environment) 100
                (open_TempFileReader bare_pkg) _ bare_pkg
                (TempFileReader_delivers (open_TempFileReader bare_pkg))
                ltac:(vm_compute; lia) ltac:(vm_compute; lia))
      as (_ & _ & Hsig & _).
    rewrite (Hsig ltac:(reflexivity) ltac:(reflexivity) crypto_SHA256
               {| toc_Signature := None; toc_XSignature := None |}
               ltac:(vm_compute; reflexivity)).
    reflexivity.
Defined.

(** C5 as stated fails: with the magic in place and the hash-algorithm id
    0 the detector ends in none of the three outcomes. *)
Lemma signature_fourth_outcome :
  take 4 unknown_hash_pkg = [x78; x61; x72; x21]
  /\ (x ← CheckPKGSignature (H := sample_Environment) 100
            (open_TempFileReader unknown_hash_pkg);
      Done x.1) = Done (Some (ErrUnknownHash 0))
  /\ Some (ErrUnknownHash 0) <> None
  /\ ErrUnknownHash 0 <> ErrNotSigned
  /\ ErrUnknownHash 0 <> ErrInvalidType.
Proof. split; [reflexivity|]. split; [vm_compute; reflexivity|]. done. Qed.

(** ** Bulk extraction, step by step *)

(** The reader after everything left of its file was read through it. *)
Definition drained (t : TempFileReader) : TempFileReader :=
  TempFileReader_advance t (length (unread t)).

Lemma unread_Rewind t : unread (Rewind t) = f_data (tfr_Reader t).
Proof. reflexivity. Qed.

Lemma f_data_advance t n :
  f_data (tfr_Reader (TempFileReader_advance t n)) = f_data (tfr_Reader t).
Proof. reflexivity. Qed.

Lemma f_data_Rewind t : f_data (tfr_Reader (Rewind t)) = f_data (tfr_Reader t).
Proof. reflexivity. Qed.

Lemma buf_advance t n :
  tfr_buf (TempFileReader_advance t n)
  = Some (default [] (tfr_buf t) ++ take n (unread t)).
Proof. reflexivity. Qed.

Lemma buf_Rewind t : tfr_buf (Rewind t) = Some (default [] (tfr_buf t)).
Proof. reflexivity. Qed.

Section Steps.
Context `{Environment}.

Lemma io_Copy_TempFileReader fuel t :
  (length (unread t) < fuel)%nat ->
  io_Copy fuel t = Done ((unread t, None), drained t).
Proof.
  intros Hfuel. unfold io_Copy.
  rewrite (Copy_loop_delivers fuel (32 * 1024) t (unread t) (drained t) []);
    [reflexivity | apply TempFileReader_delivers | lia | done].
Qed.

Lemma io_ReadFull_TempFileReader fuel t size :
  0 < size <= len (unread t) -> (0 < fuel)%nat ->
  io_ReadFull fuel t size
  = Done ((take (Z.to_nat size) (unread t), None),
          TempFileReader_advance t (Z.to_nat size)).
Proof.
  intros Hsize Hfuel. destruct fuel as [|fuel]; [lia|].
  unfold io_ReadFull. cbn [ReadFull_loop].
  replace (size - len []) with size by (unfold len; simpl; lia).
  rewrite (TempFileReader_Read_eq t size) by lia.
  cbn [mbind run_bind]. rewrite app_nil_l.
  assert (Hne : unread t <> []).
  { intros E. rewrite E in Hsize. unfold len in Hsize. simpl in Hsize. lia. }
  destruct (unread t) as [|x xs] eqn:E; [done|].
  rewrite <- E in *. rewrite len_take.
  destruct (Z.ltb_spec (Z.min (Z.of_nat (Z.to_nat size)) (len (unread t))) size);
    [lia|reflexivity].
Qed.

Lemma digestPass_TempFileReader fuel t sum :
  (length (f_data (tfr_Reader t)) < fuel)%nat ->
  digestPass fuel t sum
  = Done (Some (sum (f_data (tfr_Reader t))), drained (Rewind t)).
Proof.
  intros Hfuel. unfold digestPass.
  rewrite io_Copy_TempFileReader by (rewrite unread_Rewind; done).
  reflexivity.
Qed.

(** The reader when bulk extraction has read the header: the package was
    read twice in full and 28 bytes a third time. *)
Definition header_read (pkg : list byte) : TempFileReader :=
  TempFileReader_advance
    (Rewind (drained (Rewind (drained (open_TempFileReader pkg))))) 28.

Lemma header_read_unread pkg : unread (header_read pkg) = drop 28 pkg.
Proof. unfold header_read. rewrite unread_advance. reflexivity. Qed.

Lemma header_read_buf pkg n :
  tfr_buf (TempFileReader_advance (header_read pkg) n)
  = Some (pkg ++ (pkg ++ take 28 pkg ++ take n (drop 28 pkg))).
Proof.
  rewrite buf_advance, header_read_unread. unfold header_read.
  rewrite buf_advance, buf_Rewind. unfold drained at 1.
  rewrite buf_advance, buf_Rewind. unfold drained.
  rewrite buf_advance. rewrite !unread_Rewind. simpl.
  rewrite !take_ge by lia. rewrite <- !app_assoc. reflexivity.
Qed.

(** [ExtractXARMetadata] on a freshly opened package, without the reading
    loops of the reader. *)
Definition extraction (fuel : nat) (pkg : list byte)
  : run (result PKGInstallerMetadata) :=
  err ← detect pkg;
  let status :=
    match err with
    | None => Ok true
    | Some ErrNotSigned => Ok false
    | Some ErrInvalidType => Err ErrInvalidType
    | Some e => Err (Wrapf "check package signature" e)
    end in
  match status with
  | Err e => Done (Err e)
  | Ok isSignedStatus =>
      let hdr := decode_xarHeader (take 28 pkg) in
      let avail := take (Z.to_nat (hdr_CompressedSize hdr)) (drop 28 pkg) in
      let '(consumed, decoded) := toc_Decode avail in
      let tfr := TempFileReader_advance (header_read pkg) (consumed `min` length avail) in
      match decoded with
      | TOCReaderFailed e => Done (Err (Wrapf "create TOC reader" e))
      | TOCDecodeFailed e => Done (Err (Wrapf "decode TOC XML" e))
      | TOCDecoded root =>
          '(dist, pinfo) ←
            collectContents fuel (TempFileReader_ReadAt tfr)
              (heapOffset hdr) (len pkg) (xar_TOC_Files root) None None;
          let meta :=
            match selectMetadata isSignedStatus dist pinfo with
            | None =>
                with_SHA256Sum (with_IsSigned zero_PKGInstallerMetadata false)
                  (sha256_Sum pkg)
            | Some meta =>
                with_PkgSizeMB (with_SHA256Sum meta (sha256_Sum pkg))
                  (Qmake (len pkg) (2 ^ 20))
            end in
          Done (Ok (with_SHA256Sum
                      (with_MD5Sum (with_SHA1Sum meta (sha1_Sum pkg)) (md5_Sum pkg))
                      (sha256_Sum pkg)))
      end
  end.

Lemma detect_accepts pkg err :
  detect pkg = Done err -> err = None \/ err = Some ErrNotSigned ->
  28 <= len pkg.
Proof.
  unfold detect, ReadFull_error. rewrite len_take.
  destruct (Z.leb_spec 28 (Z.min (Z.of_nat 28) (len pkg))) as [?|?]; [lia|].
  destruct (0 <? _); intros [= <-] [?|?]; congruence.
Qed.

Lemma ExtractXARMetadata_extraction fuel pkg :
  (length pkg < fuel)%nat ->
  ExtractXARMetadata fuel (open_TempFileReader pkg) = extraction fuel pkg.
Proof.
  intros Hfuel. unfold ExtractXARMetadata, extraction.
  rewrite io_Copy_TempFileReader by done.
  cbn [mbind run_bind].
  change (unread (open_TempFileReader pkg)) with pkg.
  rewrite (CheckPKGSignature_detect fuel
             (Rewind (drained (open_TempFileReader pkg)))
             (drained (Rewind (drained (open_TempFileReader pkg)))) pkg);
    [|apply (TempFileReader_delivers (Rewind (drained (open_TempFileReader pkg))))|done].
  destruct (detect pkg) as [err| |] eqn:Edetect; [|reflexivity|reflexivity].
  cbn [mbind run_bind].
  assert (Hok : (err = None \/ err = Some ErrNotSigned) -> 28 <= len pkg)
    by apply (detect_accepts pkg err Edetect).
  assert (Hread : 28 <= len pkg ->
            io_ReadFull fuel (Rewind (drained (Rewind (drained (open_TempFileReader pkg)))))
              xarHeaderSize
            = Done ((take 28 pkg, None), header_read pkg)).
  { intros H28. rewrite io_ReadFull_TempFileReader;
      [reflexivity | rewrite unread_Rewind; simpl; unfold xarHeaderSize; lia | lia]. }
  assert (Hsums : forall t : TempFileReader, f_data (tfr_Reader t) = pkg ->
            forall sum, digestPass fuel t sum = Done (Some (sum pkg), drained (Rewind t))).
  { intros t Et sum. rewrite digestPass_TempFileReader by (rewrite Et; done).
    rewrite Et. reflexivity. }
  destruct err as [[]|]; try reflexivity;
    (rewrite Hread by (apply Hok; auto);
     cbn [mbind run_bind]; cbv zeta;
     change (drop (f_off (tfr_Reader (header_read pkg)))
               (f_data (tfr_Reader (header_read pkg))))
       with (unread (header_read pkg));
     rewrite header_read_unread;
     destruct (toc_Decode _) as [consumed decoded];
     destruct decoded as [e|e|root]; [reflexivity|reflexivity|];
     destruct (collectContents _ _ _ _ _ _ _) as [[dist pinfo]| |];
       [|reflexivity|reflexivity];
     cbn [mbind run_bind];
     rewrite Hsums by reflexivity; cbn [mbind run_bind];
     rewrite Hsums by reflexivity; cbn [mbind run_bind];
     rewrite Hsums by reflexivity; reflexivity).
Qed.
End Steps.

(** Signed, without either document. *)
Definition signed_bare_pkg : list byte :=
  sample_header x1c x07 x01
  ++ [x78; x9c; x03; x58; x00; x02; x01]
  ++ [x7a; x7a].

Section ExtractionClaims.
Context `{Environment}.

Lemma detect_unknown_hash (pkg : list byte) :
  (28 <= length pkg)%nat ->
  take 4 pkg = [x78; x61; x72; x21] ->
  recognized (hdr_HashType (decode_xarHeader (take 28 pkg))) = false ->
  detect pkg
  = Done (Some (ErrUnknownHash (hdr_HashType (decode_xarHeader (take 28 pkg))))).
Proof.
  intros Hlen Hmagic Hrec. unfold detect.
  assert (Hfull : ReadFull_error 28 (len (take 28 pkg)) = None).
  { unfold ReadFull_error. rewrite len_take.
    destruct (Z.leb_spec 28 (Z.min (Z.of_nat 28) (len pkg))); [done|].
    unfold len in *. lia. }
  rewrite Hfull.
  apply (magic_bytes pkg ltac:(lia)) in Hmagic. rewrite <- decode_magic in Hmagic.
  destruct (checkHeader_cases (take 28 pkg))
    as [(Hm & ->) | [(Hm & Hr & ->) | (Hm & Hr & h0 & ->)]]; congruence.
Qed.

(** C2 (as amended). Bulk extraction reads the header a second time
    without validating the hash-algorithm id, but it runs the signature
    detector first and gives up on any error of it other than NotSigned:
    for every input with the magic in place and a hash-algorithm id other
    than SHA-1, SHA-256 and SHA-512, extraction fails with the detector's
    unknown-hash error, wrapped as a signature-check failure. *)
Theorem unknown_hash_aborts_extraction (fuel : nat) (pkg : list byte) :
  (length pkg < fuel)%nat -> (28 <= length pkg)%nat ->
  take 4 pkg = [x78; x61; x72; x21] ->
  recognized (hdr_HashType (decode_xarHeader (take 28 pkg))) = false ->
  ExtractXARMetadata fuel (open_TempFileReader pkg)
  = Done (Err (Wrapf "check package signature"
                 (ErrUnknownHash (hdr_HashType (decode_xarHeader (take 28 pkg)))))).
Proof.
  intros Hfuel Hlen Hmagic Hrec.
  rewrite ExtractXARMetadata_extraction by done. unfold extraction.
  rewrite detect_unknown_hash by done. reflexivity.
Qed.
End ExtractionClaims.

Lemma unknown_hash_aborts_extraction_witness :
  ExtractXARMetadata (H := sample_Environment) 100 (open_TempFileReader unknown_hash_pkg)
  = Done (Err (Wrapf "check package signature" (ErrUnknownHash 0))).
Proof.
  apply (unknown_hash_aborts_extraction (H := sample_Environment) 100 unknown_hash_pkg);
    [vm_compute; lia | vm_compute; lia | reflexivity | reflexivity].
Defined.

(** C2 as stated fails: the package with the hash-algorithm id 0 is not
    extracted, on account of that id alone, since the same package with the
    id 1 is. *)
Lemma unknown_hash_extraction_fails :
  take 4 unknown_hash_pkg = [x78; x61; x72; x21]
  /\ recognized (hdr_HashType (decode_xarHeader (take 28 unknown_hash_pkg))) = false
  /\ ExtractXARMetadata (H := sample_Environment) 100
       (open_TempFileReader unknown_hash_pkg)
     = Done (Err (Wrapf "check package signature" (ErrUnknownHash 0)))
  /\ (ApplicationTitle <$>
        match ExtractXARMetadata (H := sample_Environment) 100
                (open_TempFileReader signed_pkg) with
        | Done (Ok meta) => Some meta
        | _ => None
        end) = Some "Sample".
Proof. repeat split; vm_compute; reflexivity. Qed.

(** ** The section extractor within bulk extraction *)

(** The error message carries the name of the entry. *)
Definition names_entry (e : error) (name : string) : Prop :=
  match e with
  | Wrapf msg _ => exists pre post, msg = pre +:+ name +:+ post
  | _ => False
  end.

Definition stored_entry (name : string) (offset length : Z) : xmlFile :=
  {| xf_Name := name; xf_Type := "file";
     xf_Data := Some {| fd_Length := length; fd_Offset := offset; fd_Size := length;
                        fd_Encoding_Style := "application/octet-stream" |} |}.

(** A header that declares 32 bytes: the detector looks for the TOC at
    offset 32, bulk extraction at offset 28; both find one. The bytes from
    offset 39 on are "<abc", those from offset 43 on are "zzzz". *)
Definition long_header_pkg : list byte :=
  sample_header x20 x0b x01
  ++ [x78; x9c; x00; x58; x78; x9c; x01; x44; x00; x04; x01]
  ++ [x3c; x61; x62; x63; x7a; x7a; x7a; x7a].

Section ExtractorClaims.
Context `{Environment}.

Lemma TempFileReader_reads_bytes (tfr : TempFileReader) (b : list byte) :
  tfr_buf tfr = Some b -> reads_bytes (TempFileReader_ReadAt tfr) b.
Proof.
  intros E plen off _ _. unfold TempFileReader_ReadAt. rewrite E. reflexivity.
Qed.

(** C1 (as amended). For every container whose TOC declares an entry
    whose encoding style names neither x-gzip nor x-bzip2, with offset and
    length in bounds, the section extractor, called as bulk extraction
    calls it, returns exactly the bytes of the source in the range
    [heapBase+offset, heapBase+offset+length), where heapBase is the fixed
    header size 28 plus the compressed TOC size declared in the header. *)
Theorem stored_entry_round_trip (fuel : nat) (pkg : list byte) (n : nat)
    (f : xmlFile) (data : xmlFileData) :
  let hdr := decode_xarHeader (take 28 pkg) in
  let tfr := TempFileReader_advance (header_read pkg) n in
  let heapBase := xarHeaderSize + hdr_CompressedSize hdr in
  xf_Data f = Some data -> stored data ->
  0 <= hdr_CompressedSize hdr -> 0 <= fd_Offset data -> 0 <= fd_Length data ->
  heapBase + fd_Offset data + fd_Length data <= len pkg ->
  len pkg <= maxint64 -> (length pkg < fuel)%nat ->
  exists contents,
    readCompressedFile fuel (TempFileReader_ReadAt tfr) (heapOffset hdr) (len pkg) (Some f)
    = Done (Ok contents)
    /\ contents = take (Z.to_nat (fd_Length data))
                    (drop (Z.to_nat (heapBase + fd_Offset data)) pkg)
    /\ len contents = fd_Length data.
Proof.
  intros hdr tfr heapBase HD Hst HC HO HL Hin Hmax Hfuel.
  assert (Hbase : heapOffset hdr = heapBase).
  { unfold heapOffset. apply wrap64_small. subst heapBase.
    unfold xarHeaderSize in *. rewrite maxint64_eq in Hmax. lia. }
  rewrite Hbase. eexists. split; [|split; [reflexivity|]].
  - eapply (readCompressedFile_stored fuel _ pkg _ heapBase f data);
      [apply TempFileReader_reads_bytes, header_read_buf | done | done | ..];
      try done;
      subst heapBase; unfold xarHeaderSize in *; rewrite ?maxint64_eq in *; lia.
  - rewrite len_take, len_drop. subst heapBase. unfold xarHeaderSize in *. lia.
Qed.

(** C7 (as amended). The section extractor does not check the range of an
    entry. For an entry stored as it is, with non-negative offset and
    length over a heap that starts inside the source, it succeeds and
    returns the bytes of the range that lie inside the source: none for an
    empty range or one past the end, fewer than the declared length for a
    range that runs past the end. It fails when the zlib stream of an
    x-gzip entry cannot be constructed, with an error that names the codec
    and not the entry, and when reading the decoded stream of an x-gzip or
    x-bzip2 entry fails, with an error that names the entry. *)
Theorem section_extractor_failures (fuel : nat) (rat : ReaderAt)
    (pkg extra : list byte) (base : Z) (f : xmlFile) (data : xmlFileData) :
  xf_Data f = Some data ->
  let style := fd_Encoding_Style data in
  let fileReader :=
    NewSectionReader
      (SectionReader_ReadAt (NewSectionReader rat base (wrap64 (len pkg - base))))
      (fd_Offset data) (fd_Length data) in
  let extracted := readCompressedFile fuel rat base (len pkg) (Some f) in
  (stored data -> reads_bytes rat (pkg ++ extra) ->
   0 <= base <= len pkg -> len pkg <= maxint64 ->
   0 <= fd_Offset data <= maxint64 -> 0 <= fd_Length data <= maxint64 ->
   (length pkg < fuel)%nat ->
   extracted = Done (Ok (take (Z.to_nat (fd_Length data))
                           (drop (Z.to_nat (base + fd_Offset data)) pkg))))
  /\ (strings_Contains style "x-gzip" = true ->
      forall e, zlib_ReadAll fileReader = Done (NewReaderFailed e) ->
      extracted = Done (Err (Wrapf "create zlib reader" e)))
  /\ (strings_Contains style "x-gzip" = true ->
      forall e, zlib_ReadAll fileReader = Done (ReadFailed e) ->
      exists err, extracted = Done (Err err) /\ names_entry err (xf_Name f))
  /\ (strings_Contains style "x-gzip" = false ->
      strings_Contains style "x-bzip2" = true ->
      forall e, bzip2_ReadAll fileReader = Done (Err e) ->
      exists err, extracted = Done (Err err) /\ names_entry err (xf_Name f)).
Proof.
  intros HD style fileReader extracted.
  split; [|split; [|split]].
  - intros Hst Hrat Hbase Hmax HO HL Hfuel. subst extracted.
    eapply readCompressedFile_stored; done.
  - intros Hz e He. subst extracted. unfold readCompressedFile.
    rewrite HD. fold style. rewrite Hz. fold fileReader. rewrite He. reflexivity.
  - intros Hz e He. subst extracted. unfold readCompressedFile.
    rewrite HD. fold style. rewrite Hz. fold fileReader. rewrite He.
    eexists. split; [reflexivity|]. exists "reading ", " file". reflexivity.
  - intros Hz Hb e He. subst extracted. unfold readCompressedFile.
    rewrite HD. fold style. rewrite Hz, Hb. fold fileReader. rewrite He.
    eexists. split; [reflexivity|]. exists "reading ", " file". reflexivity.
Qed.
End ExtractorClaims.

Lemma stored_entry_round_trip_witness :
  readCompressedFile (H := sample_Environment) 100
    (TempFileReader_ReadAt (TempFileReader_advance (header_read signed_pkg) 11))
    (heapOffset (decode_xarHeader (take 28 signed_pkg))) (len signed_pkg)
    (Some (stored_entry "Distribution" 0 3))
  = Done (Ok [x3c; x61; x62]).
Proof.
  destruct (stored_entry_round_trip (H := sample_Environment) 100 signed_pkg 11
              (stored_entry "Distribution" 0 3) _ eq_refl
              (conj eq_refl eq_refl))
    as (contents & -> & -> & _);
    [vm_compute; congruence | vm_compute; congruence | vm_compute; congruence
    | vm_compute; congruence | vm_compute; congruence | vm_compute; lia |].
  vm_compute. reflexivity.
Defined.

(** C1 as stated fails: the header declares headerSize = 32 and a
    compressed TOC of 11 bytes; the extractor reads the entry at offset 0
    from byte 39 = 28 + 11 of the source, not from byte 43 = 32 + 11, and
    the document bulk extraction parses is the one found there. *)
Lemma heap_base_ignores_declared_header_size :
  let hdr := decode_xarHeader (take 28 long_header_pkg) in
  hdr_HeaderSize hdr = 32 /\ hdr_CompressedSize hdr = 11
  /\ readCompressedFile (H := sample_Environment) 100
       (TempFileReader_ReadAt (TempFileReader_advance (header_read long_header_pkg) 11))
       (heapOffset hdr) (len long_header_pkg)
       (Some (stored_entry "Distribution" 0 4))
     = Done (Ok [x3c; x61; x62; x63])
  /\ take 4 (drop (Z.to_nat (hdr_HeaderSize hdr + hdr_CompressedSize hdr + 0))
               long_header_pkg)
     = [x7a; x7a; x7a; x7a]
  /\ (ApplicationTitle <$>
        match ExtractXARMetadata (H := sample_Environment) 100
                (open_TempFileReader long_header_pkg) with
        | Done (Ok meta) => Some meta
        | _ => None
        end) = Some "Sample".
Proof. repeat split; vm_compute; reflexivity. Qed.

Lemma section_extractor_failures_witness :
  readCompressedFile (H := sample_Environment) 100
    (bytes_Reader_ReadAt (signed_pkg ++ signed_pkg)) 39 (len signed_pkg)
    (Some (stored_entry "Other" 3 100))
  = Done (Ok [x7a; x7a]).
Proof.
  destruct (section_extractor_failures (H := sample_Environment) 100
              (bytes_Reader_ReadAt (signed_pkg ++ signed_pkg)) signed_pkg signed_pkg 39
              (stored_entry "Other" 3 100) _ eq_refl) as (Hstored & _).
  rewrite Hstored.
  - vm_compute. reflexivity.
  - split; reflexivity.
  - apply bytes_Reader_reads_bytes.
  - vm_compute. split; congruence.
  - vm_compute. congruence.
  - vm_compute. split; congruence.
  - vm_compute. split; congruence.
  - vm_compute. lia.
Defined.

(** C7 as stated fails: an empty range, a range that runs past the end of
    the source and a range that lies past it are extracted without error,
    as empty or truncated bytes. *)
Lemma section_extractor_accepts_bad_ranges :
  let extract offset length :=
    readCompressedFile (H := sample_Environment) 100
      (TempFileReader_ReadAt (TempFileReader_advance (header_read signed_pkg) 11))
      (heapOffset (decode_xarHeader (take 28 signed_pkg))) (len signed_pkg)
      (Some (stored_entry "Distribution" offset length)) in
  len signed_pkg = 44
  /\ heapOffset (decode_xarHeader (take 28 signed_pkg)) = 39
  /\ extract 1 0 = Done (Ok [])
  /\ extract 3 100 = Done (Ok [x7a; x7a])
  /\ extract 50 4 = Done (Ok []).
Proof. repeat split; vm_compute; reflexivity. Qed.

(** ** The record of a container without documents *)

Section MinimalRecord.
Context `{Environment}.

(** An entry the loop over the TOC reads through: a nil pointer, an entry
    without data, an entry stored as it is whose offset and length are not
    negative, or a compressed entry on which the codec returns, with a
    result or with an error. *)
Definition readable_entry (rat : ReaderAt) (base size : Z) (f : option xmlFile)
  : Prop :=
  match f with
  | None => True
  | Some xf =>
      match xf_Data xf with
      | None => True
      | Some data =>
          let fileReader :=
            NewSectionReader
              (SectionReader_ReadAt (NewSectionReader rat base (wrap64 (size - base))))
              (fd_Offset data) (fd_Length data) in
          if strings_Contains (fd_Encoding_Style data) "x-gzip"
          then exists z, zlib_ReadAll fileReader = Done z
          else if strings_Contains (fd_Encoding_Style data) "x-bzip2"
          then exists z, bzip2_ReadAll fileReader = Done z
          else 0 <= fd_Offset data <= maxint64 /\ 0 <= fd_Length data <= maxint64
      end
  end.

(** An entry that gives no document: when it is named Distribution or
    PackageInfo and the section extractor returns its contents, these do
    not parse. *)
Definition no_document (fuel : nat) (rat : ReaderAt) (base size : Z)
    (f : option xmlFile) : Prop :=
  forall xf contents,
    f = Some xf ->
    readCompressedFile fuel rat base size f = Done (Ok contents) ->
    (xf_Name xf = "Distribution" -> exists e, parseDistributionFile contents = Err e)
    /\ (xf_Name xf = "PackageInfo" -> exists e, parsePackageInfoFile contents = Err e).

(** Contents that were collected and do not parse, or none. *)
Definition unparsable {A} (parse : list byte -> result A) (c : option (list byte))
  : Prop :=
  c = None \/ exists b e, c = Some b /\ parse b = Err e.

Lemma readable_entry_returns fuel rat pkg extra base xf data :
  reads_bytes rat (pkg ++ extra) ->
  0 <= base <= len pkg -> len pkg <= maxint64 -> (length pkg < fuel)%nat ->
  xf_Data xf = Some data ->
  readable_entry rat base (len pkg) (Some xf) ->
  exists c, readCompressedFile fuel rat base (len pkg) (Some xf) = Done c.
Proof.
  intros Hrat Hbase Hmax Hfuel HD Hread.
  unfold readable_entry in Hread. rewrite HD in Hread. cbv zeta in Hread.
  destruct (strings_Contains (fd_Encoding_Style data) "x-gzip") eqn:Ez.
  - destruct Hread as [z Hz]. unfold readCompressedFile. rewrite HD, Ez, Hz.
    destruct z; eexists; reflexivity.
  - destruct (strings_Contains (fd_Encoding_Style data) "x-bzip2") eqn:Eb.
    + destruct Hread as [z Hz]. unfold readCompressedFile. rewrite HD, Ez, Eb, Hz.
      destruct z; eexists; reflexivity.
    + destruct Hread as [HO HL]. eexists.
      eapply readCompressedFile_stored; try done.
Qed.

(** The loop over the entries of a TOC that give no document ends, and
    with no document. *)
Lemma collectContents_without_documents fuel rat pkg extra base files :
  reads_bytes rat (pkg ++ extra) ->
  0 <= base <= len pkg -> len pkg <= maxint64 -> (length pkg < fuel)%nat ->
  Forall (readable_entry rat base (len pkg)) files ->
  Forall (no_document fuel rat base (len pkg)) files ->
  forall dist pinfo,
    unparsable parseDistributionFile dist -> unparsable parsePackageInfoFile pinfo ->
    exists dist' pinfo',
      collectContents fuel rat base (len pkg) files dist pinfo = Done (dist', pinfo')
      /\ unparsable parseDistributionFile dist'
      /\ unparsable parsePackageInfoFile pinfo'.
Proof.
  intros Hrat Hbase Hmax Hfuel Hread Hnone.
  induction files as [|f files IH]; intros dist pinfo Hd Hp.
  - exists dist, pinfo. done.
  - inversion Hread as [|? ? Hf Hread']; subst.
    inversion Hnone as [|? ? Hn Hnone']; subst.
    specialize (IH Hread' Hnone').
    cbn [collectContents].
    destruct f as [xf|]; [|by apply IH].
    destruct (xf_Data xf) as [data|] eqn:HD; [|by apply IH].
    destruct (readable_entry_returns fuel rat pkg extra base xf data
                Hrat Hbase Hmax Hfuel HD Hf) as [c Hc].
    rewrite Hc. cbn [mbind run_bind].
    destruct c as [contents|e]; [|by apply IH].
    destruct (Hn xf contents eq_refl Hc) as [Hdist Hpinfo].
    destruct (String.eqb_spec (xf_Name xf) "Distribution") as [En|_].
    { apply IH; [|done]. right. destruct (Hdist En) as [e He]. eauto. }
    destruct (String.eqb_spec (xf_Name xf) "PackageInfo") as [En|_].
    { apply IH; [done|]. right. destruct (Hpinfo En) as [e He]. eauto. }
    by apply IH.
Qed.

(** C6 (as amended). A container that the detector accepts, whose TOC
    bulk extraction decodes from the bytes after the first 28, whose heap
    starts inside the source, whose entries can all be read through, and
    none of whose entries gives a Distribution or a PackageInfo document
    that parses, is extracted without error, into a record whose isSigned
    is false, whose title and version are empty and whose three digests are
    those of the whole source. *)
Theorem minimal_record_without_documents (fuel : nat) (pkg : list byte)
    (sig : option error) (consumed : nat) (root : xmlXar) :
  (length pkg < fuel)%nat -> len pkg <= maxint64 ->
  detect pkg = Done sig -> sig = None \/ sig = Some ErrNotSigned ->
  let hdr := decode_xarHeader (take 28 pkg) in
  let avail := take (Z.to_nat (hdr_CompressedSize hdr)) (drop 28 pkg) in
  let rat :=
    TempFileReader_ReadAt
      (TempFileReader_advance (header_read pkg) (consumed `min` length avail)) in
  toc_Decode avail = (consumed, TOCDecoded root) ->
  0 <= hdr_CompressedSize hdr -> xarHeaderSize + hdr_CompressedSize hdr <= len pkg ->
  Forall (readable_entry rat (heapOffset hdr) (len pkg)) (xar_TOC_Files root) ->
  Forall (no_document fuel rat (heapOffset hdr) (len pkg)) (xar_TOC_Files root) ->
  exists meta,
    ExtractXARMetadata fuel (open_TempFileReader pkg) = Done (Ok meta)
    /\ IsSigned meta = false
    /\ ApplicationTitle meta = ""
    /\ Version meta = ""
    /\ SHA256Sum meta = Some (sha256_Sum pkg)
    /\ SHA1Sum meta = Some (sha1_Sum pkg)
    /\ MD5Sum meta = Some (md5_Sum pkg).
Proof.
  intros Hfuel Hmax Hdetect Hsig hdr avail rat Htoc HC Hheap Hread Hnone.
  assert (Hbase : heapOffset hdr = xarHeaderSize + hdr_CompressedSize hdr).
  { unfold heapOffset. apply wrap64_small.
    unfold xarHeaderSize in *. rewrite maxint64_eq in Hmax. lia. }
  destruct (collectContents_without_documents fuel rat pkg _ (heapOffset hdr)
              (xar_TOC_Files root)
              (TempFileReader_reads_bytes _ _ (header_read_buf pkg _))
              ltac:(rewrite Hbase; unfold xarHeaderSize in *; lia) Hmax Hfuel
              Hread Hnone None None ltac:(by left) ltac:(by left))
    as (dist & pinfo & Hcollect & Hdist & Hpinfo).
  rewrite ExtractXARMetadata_extraction by done. unfold extraction.
  rewrite Hdetect. cbn [mbind run_bind].
  assert (Hsel : forall s, selectMetadata s dist pinfo = None).
  { intros s. unfold selectMetadata.
    destruct Hdist as [->|(c & e & -> & ->)];
      destruct Hpinfo as [->|(c' & e' & -> & ->)]; reflexivity. }
  destruct Hsig as [->| ->]; cbv zeta; fold hdr; fold avail; rewrite Htoc;
    fold rat; rewrite Hcollect; cbn [mbind run_bind]; rewrite Hsel;
    eexists; (split; [reflexivity|]); repeat split.
Qed.
End MinimalRecord.

Lemma minimal_record_without_documents_witness :
  exists meta,
    ExtractXARMetadata (H := sample_Environment) 100 (open_TempFileReader signed_bare_pkg)
    = Done (Ok meta)
    /\ IsSigned meta = false
    /\ ApplicationTitle meta = ""
    /\ Version meta = ""
    /\ SHA256Sum meta = Some (sha256_Sum (Environment := sample_Environment) signed_bare_pkg)
    /\ SHA1Sum meta = Some (sha1_Sum (Environment := sample_Environment) signed_bare_pkg)
    /\ MD5Sum meta = Some (md5_Sum (Environment := sample_Environment) signed_bare_pkg).
Proof.
  apply (minimal_record_without_documents (H := sample_Environment) 100
           signed_bare_pkg None 7 {| xar_TOC_Files := [Some (stored_entry "Other" 0 2)] |}).
  - vm_compute. lia.
  - vm_compute. congruence.
  - vm_compute. reflexivity.
  - left. reflexivity.
  - vm_compute. reflexivity.
  - vm_compute. congruence.
  - vm_compute. congruence.
  - constructor; [|constructor]. vm_compute. repeat split; congruence.
  - constructor; [|constructor].
    intros xf contents [= <-] _. split; intros Hname; discriminate Hname.
Defined.

(** A header that declares 32 bytes, four bytes of padding, and at offset
    32 a TOC without any file and without a signature. *)
Definition padded_header_pkg : list byte :=
  sample_header x20 x03 x03 ++ [x00; x00; x00; x00] ++ [x78; x9c; x00].

(** The stand-in for the libraries, except that every TOC which bulk
    extraction decodes holds one file that is neither document, stored as
    it is, with the offset -2^63 and the length -1. *)
Definition overflowing_Environment : Environment :=
  {| growslice := growslice (Environment := sample_Environment);
     growslice_grows := growslice_grows (Environment := sample_Environment);
     map_range := map_range (Environment := sample_Environment);
     map_range_perm := map_range_perm (Environment := sample_Environment);
     zlib_ReadAll := zlib_ReadAll (Environment := sample_Environment);
     bzip2_ReadAll := bzip2_ReadAll (Environment := sample_Environment);
     toc_Decode := fun avail =>
       (length avail,
        TOCDecoded {| xar_TOC_Files := [Some (stored_entry "Other" minint64 (-1))] |});
     xml_Unmarshal_tocXar := xml_Unmarshal_tocXar (Environment := sample_Environment);
     xml_Unmarshal_distributionXML :=
       xml_Unmarshal_distributionXML (Environment := sample_Environment);
     plist_Decode_PackageInfo := plist_Decode_PackageInfo (Environment := sample_Environment);
     sha1_Sum := sha1_Sum (Environment := sample_Environment);
     md5_Sum := md5_Sum (Environment := sample_Environment);
     sha256_Sum := sha256_Sum (Environment := sample_Environment) |}.

(** C6 as stated fails. A container whose header declares 32 bytes, with
    a valid TOC right after them and no document, is accepted by the
    detector and yet not extracted: bulk extraction looks for the TOC at
    offset 28 and returns an error. And a container with a valid header and
    TOC and no document, one of whose entries has the offset -2^63 and the
    length -1, is not extracted either: reading that entry panics. *)
Lemma minimal_record_not_for_every_container :
  let hdr := decode_xarHeader (take 28 padded_header_pkg) in
  hdr_HeaderSize hdr = 32 /\ hdr_CompressedSize hdr = 3
  /\ toc_Decode (Environment := sample_Environment)
       (take 3 (drop 32 padded_header_pkg))
     = (3%nat, TOCDecoded {| xar_TOC_Files := [] |})
  /\ detect (H := sample_Environment) padded_header_pkg = Done (Some ErrNotSigned)
  /\ ExtractXARMetadata (H := sample_Environment) 100
       (open_TempFileReader padded_header_pkg)
     = Done (Err (Wrapf "create TOC reader" (LibError "zlib: invalid header")))
  /\ detect (H := overflowing_Environment) signed_bare_pkg = Done None
  /\ ExtractXARMetadata (H := overflowing_Environment) 100
       (open_TempFileReader signed_bare_pkg)
     = Panicked.
Proof. repeat split; vm_compute; reflexivity. Qed.

(** * Further properties *)

(** ** The temporary-file reader across rewinds *)


Lemma drained_Rewind_buf t :
  tfr_buf (drained (Rewind t))
  = Some (default [] (tfr_buf t) ++ f_data (tfr_Reader t)).
Proof.
  unfold drained. rewrite buf_advance, buf_Rewind, unread_Rewind. simpl.
  rewrite take_ge by lia. reflexivity.
Qed.

(** X1. After [Rewind] a full read through the reader delivers the whole
    file again, from its first byte, whatever had been read before. *)
Theorem Rewind_reads_whole_file_again (fuel : nat) (t : TempFileReader) :
  (length (f_data (tfr_Reader t)) < fuel)%nat ->
  exists t', io_Copy fuel (Rewind t) = Done ((f_data (tfr_Reader t), None), t').
Proof.
  intros Hfuel. exists (drained (Rewind t)).
  rewrite io_Copy_TempFileReader by (rewrite unread_Rewind; done).
  rewrite unread_Rewind. reflexivity.
Qed.

(** X2. The buffer is never reset: every full read after a [Rewind]
    appends the file to it once more, so [Size] grows by the length of the
    file each time and is not the size of the file. *)
Theorem Size_grows_with_every_pass (fuel : nat) (t t' : TempFileReader)
    (out : read) :
  (length (f_data (tfr_Reader t)) < fuel)%nat ->
  io_Copy fuel (Rewind t) = Done (out, t') ->
  tfr_buf t' = Some (default [] (tfr_buf t) ++ f_data (tfr_Reader t))
  /\ TempFileReader_Size t' = TempFileReader_Size t + len (f_data (tfr_Reader t)).
Proof.
  intros Hfuel E.
  rewrite io_Copy_TempFileReader in E by (rewrite unread_Rewind; done).
  injection E as _ <-. rewrite drained_Rewind_buf. split; [reflexivity|].
  unfold TempFileReader_Size. rewrite drained_Rewind_buf, len_app.
  destruct (tfr_buf t); reflexivity.
Qed.

(** X3. Once a freshly opened file was read in full through the reader,
    [ReadAt] serves the bytes of the file: the requested bytes with no
    error inside the file, the remaining bytes with [io.EOF] when the
    request runs past the end, nothing with [io.EOF] at or past the end,
    and an error for a negative offset. *)
Theorem ReadAt_serves_the_file (fuel : nat) (pkg : list byte)
    (t : TempFileReader) (out : read) :
  (length pkg < fuel)%nat ->
  io_Copy fuel (open_TempFileReader pkg) = Done (out, t) ->
  forall plen off, 0 <= plen ->
    (off < 0 -> TempFileReader_ReadAt t plen off = Done ([], Some ErrNegativeOffset))
    /\ (len pkg <= off -> TempFileReader_ReadAt t plen off = Done ([], Some EOF))
    /\ (0 <= off < len pkg ->
        TempFileReader_ReadAt t plen off
        = Done (take (Z.to_nat plen) (drop (Z.to_nat off) pkg),
                if off + plen <=? len pkg then None else Some EOF)).
Proof.
  intros Hfuel E plen off Hp.
  rewrite io_Copy_TempFileReader in E by done.
  injection E as _ <-.
  assert (Hbuf : tfr_buf (drained (open_TempFileReader pkg)) = Some pkg).
  { unfold drained. rewrite buf_advance. simpl. rewrite take_ge by done. reflexivity. }
  unfold TempFileReader_ReadAt. rewrite Hbuf. unfold bytes_Reader_ReadAt.
  split; [|split].
  - intros Ho. destruct (Z.ltb_spec off 0); [reflexivity|lia].
  - intros Ho. destruct (Z.ltb_spec off 0); [pose proof (len_nonneg pkg); lia|].
    destruct (Z.leb_spec (len pkg) off); [reflexivity|lia].
  - intros Ho. destruct (Z.ltb_spec off 0); [lia|].
    destruct (Z.leb_spec (len pkg) off); [lia|].
    rewrite len_take, len_drop. do 2 f_equal.
    destruct (Z.ltb_spec (Z.min (Z.of_nat (Z.to_nat plen))
                            (Z.max 0 (len pkg - Z.of_nat (Z.to_nat off)))) plen);
      destruct (Z.leb_spec (off + plen) (len pkg)); try reflexivity; lia.
Qed.

Lemma Rewind_reads_whole_file_again_witness :
  exists t',
    io_Copy 100
      (Rewind (TempFileReader_advance (open_TempFileReader signed_pkg) 30))
    = Done ((signed_pkg, None), t').
Proof.
  apply (Rewind_reads_whole_file_again 100
           (TempFileReader_advance (open_TempFileReader signed_pkg) 30)).
  vm_compute. lia.
Defined.

Lemma Size_grows_with_every_pass_witness :
  TempFileReader_Size (drained (open_TempFileReader signed_pkg)) = 44
  /\ TempFileReader_Size (drained (Rewind (drained (open_TempFileReader signed_pkg)))) = 88.
Proof.
  split; [vm_compute; reflexivity|].
  destruct (Size_grows_with_every_pass 100
              (drained (open_TempFileReader signed_pkg))
              (drained (Rewind (drained (open_TempFileReader signed_pkg))))
              (signed_pkg, None)
              ltac:(vm_compute; lia) ltac:(vm_compute; reflexivity)) as [_ ->].
  vm_compute. reflexivity.
Defined.

Lemma ReadAt_serves_the_file_witness :
  TempFileReader_ReadAt (drained (open_TempFileReader signed_pkg)) 4 0
  = Done ([x78; x61; x72; x21], None)
  /\ TempFileReader_ReadAt (drained (open_TempFileReader signed_pkg)) 4 42
     = Done ([x7a; x7a], Some EOF).
Proof.
  pose proof (ReadAt_serves_the_file 100 signed_pkg
                (drained (open_TempFileReader signed_pkg)) (signed_pkg, None)
                ltac:(vm_compute; lia) ltac:(vm_compute; reflexivity)) as HR.
  split.
  - destruct (HR 4 0 ltac:(lia)) as (_ & _ & E).
    rewrite E by (vm_compute; split; congruence). vm_compute. reflexivity.
  - destruct (HR 4 42 ltac:(lia)) as (_ & _ & E).
    rewrite E by (vm_compute; split; congruence). vm_compute. reflexivity.
Defined.

(** ** Inputs that are not containers *)

(** The error of the header read on an input of fewer than 28 bytes. *)
Definition short_read (pkg : list byte) : error :=
  match pkg with
  | [] => EOF
  | _ => ErrUnexpectedEOF
  end.

Section RejectedInputs.
Context `{Environment}.

Lemma detect_short (pkg : list byte) :
  (length pkg < 28)%nat -> detect pkg = Done (Some (short_read pkg)).
Proof.
  intros Hlen. unfold detect, ReadFull_error. rewrite len_take.
  destruct (Z.leb_spec 28 (Z.min (Z.of_nat 28) (len pkg))) as [?|_];
    [unfold len in *; lia|].
  destruct pkg as [|x pkg]; [reflexivity|].
  destruct (Z.ltb_spec 0 (Z.min (Z.of_nat 28) (len (x :: pkg)))) as [_|?];
    [reflexivity|unfold len in *; simpl in *; lia].
Qed.

Lemma detect_bad_magic (pkg : list byte) :
  (28 <= length pkg)%nat -> take 4 pkg <> [x78; x61; x72; x21] ->
  detect pkg = Done (Some ErrInvalidType).
Proof.
  intros Hlen Hmagic. unfold detect.
  assert (Hfull : ReadFull_error 28 (len (take 28 pkg)) = None).
  { unfold ReadFull_error. rewrite len_take.
    destruct (Z.leb_spec 28 (Z.min (Z.of_nat 28) (len pkg))); [done|].
    unfold len in *. lia. }
  rewrite Hfull.
  pose proof (magic_bytes pkg ltac:(lia)) as Hm. rewrite <- decode_magic in Hm.
  destruct (checkHeader_cases (take 28 pkg))
    as [(_ & ->) | [(Hm' & _) | (Hm' & _)]]; [reflexivity| |];
    apply Hm in Hm'; congruence.
Qed.

(** X4. On an input of fewer than 28 bytes the signature detector fails
    with the error of the header read, [io.EOF] for an empty input and
    [io.ErrUnexpectedEOF] otherwise; it does not report InvalidType. *)
Theorem signature_short_input {R : Type} `{Reader R} (fuel : nat) (r r_end : R)
    (pkg : list byte) :
  delivers r pkg r_end -> (length pkg < fuel)%nat -> (length pkg < 28)%nat ->
  CheckPKGSignature fuel r = Done (Some (short_read pkg), r_end)
  /\ short_read pkg <> ErrInvalidType.
Proof.
  intros D Hfuel Hlen.
  rewrite (CheckPKGSignature_detect fuel r r_end pkg D Hfuel).
  rewrite detect_short by done. split; [reflexivity|].
  destruct pkg; discriminate.
Qed.

(** X5. Whatever its outcome, the signature detector has consumed its
    whole input: the reader it was given is left at the end. *)
Theorem signature_detector_drains_reader {R : Type} `{Reader R} (fuel : nat)
    (r r_end r' : R) (pkg : list byte) (outcome : option error) :
  delivers r pkg r_end -> (length pkg < fuel)%nat ->
  CheckPKGSignature fuel r = Done (outcome, r') ->
  r' = r_end.
Proof.
  intros D Hfuel E.
  rewrite (CheckPKGSignature_detect fuel r r_end pkg D Hfuel) in E.
  destruct (detect pkg); simpl in E; congruence.
Qed.

(** X6. Bulk extraction of a file that is not a container: with at least
    28 bytes and another magic it fails with InvalidType itself, not
    wrapped; with fewer than 28 bytes it fails with the error of the header
    read wrapped as a signature-check failure. *)
Theorem extraction_rejects_non_containers (fuel : nat) (pkg : list byte) :
  (length pkg < fuel)%nat ->
  ((28 <= length pkg)%nat -> take 4 pkg <> [x78; x61; x72; x21] ->
   ExtractXARMetadata fuel (open_TempFileReader pkg) = Done (Err ErrInvalidType))
  /\ ((length pkg < 28)%nat ->
      ExtractXARMetadata fuel (open_TempFileReader pkg)
      = Done (Err (Wrapf "check package signature" (short_read pkg)))).
Proof.
  intros Hfuel. rewrite ExtractXARMetadata_extraction by done. unfold extraction.
  split.
  - intros Hlen Hmagic. rewrite detect_bad_magic by done. reflexivity.
  - intros Hlen. rewrite detect_short by done. destruct pkg; reflexivity.
Qed.

(** X7. A container that the detector accepts but whose TOC the bulk path
    cannot decode is not extracted: the error of the zlib reader or of the
    XML decoder is returned, wrapped. *)
Theorem undecodable_toc_aborts_extraction (fuel : nat) (pkg : list byte)
    (sig : option error) (consumed : nat) (e : error) :
  (length pkg < fuel)%nat ->
  detect pkg = Done sig -> sig = None \/ sig = Some ErrNotSigned ->
  let hdr := decode_xarHeader (take 28 pkg) in
  let avail := take (Z.to_nat (hdr_CompressedSize hdr)) (drop 28 pkg) in
  (toc_Decode avail = (consumed, TOCReaderFailed e) ->
   ExtractXARMetadata fuel (open_TempFileReader pkg)
   = Done (Err (Wrapf "create TOC reader" e)))
  /\ (toc_Decode avail = (consumed, TOCDecodeFailed e) ->
      ExtractXARMetadata fuel (open_TempFileReader pkg)
      = Done (Err (Wrapf "decode TOC XML" e))).
Proof.
  intros Hfuel Hdetect Hsig hdr avail.
  rewrite ExtractXARMetadata_extraction by done. unfold extraction.
  rewrite Hdetect. cbn [mbind run_bind]. fold hdr. fold avail.
  split; intros ->; destruct Hsig as [-> | ->]; reflexivity.
Qed.
End RejectedInputs.

Lemma signature_short_input_witness :
  (x ← CheckPKGSignature (H := sample_Environment) 100
         (open_TempFileReader [x61; x62; x63; x64]);
   Done x.1) = Done (Some ErrUnexpectedEOF).
Proof.
  destruct (signature_short_input (H := sample_Environment) 100
              (open_TempFileReader [x61; x62; x63; x64]) _ [x61; x62; x63; x64]
              (TempFileReader_delivers (open_TempFileReader [x61; x62; x63; x64]))
              ltac:(vm_compute; lia) ltac:(vm_compute; lia)) as [-> _].
  reflexivity.
Defined.

Lemma signature_detector_drains_reader_witness :
  exists r',
    CheckPKGSignature (H := sample_Environment) 100 (open_TempFileReader signed_pkg)
    = Done (None, r')
    /\ unread r' = [].
Proof.
  eexists. split; [vm_compute; reflexivity|].
  rewrite (signature_detector_drains_reader (H := sample_Environment) 100
             (open_TempFileReader signed_pkg) _ _ signed_pkg None
             (TempFileReader_delivers (open_TempFileReader signed_pkg))
             ltac:(vm_compute; lia) ltac:(vm_compute; reflexivity)).
  vm_compute. reflexivity.
Defined.

Lemma extraction_rejects_non_containers_witness :
  ExtractXARMetadata (H := sample_Environment) 100
    (open_TempFileReader (replicate 30 x61))
  = Done (Err ErrInvalidType)
  /\ ExtractXARMetadata (H := sample_Environment) 100
       (open_TempFileReader [x61; x62; x63; x64])
     = Done (Err (Wrapf "check package signature" ErrUnexpectedEOF)).
Proof.
  split.
  - apply (extraction_rejects_non_containers (H := sample_Environment) 100
             (replicate 30 x61)); [vm_compute; lia | vm_compute; lia | discriminate].
  - destruct (extraction_rejects_non_containers (H := sample_Environment) 100
                [x61; x62; x63; x64] ltac:(vm_compute; lia)) as [_ E].
    rewrite E by (vm_compute; lia). reflexivity.
Defined.

(** A package whose TOC does not start with the two bytes of the toy
    compressed stream at offset 28, although the detector, which is told a
    header of 30 bytes, finds one at offset 30. *)
Definition misplaced_toc_pkg : list byte :=
  sample_header x1e x05 x01 ++ [x00; x00; x78; x9c; x00; x7a; x7a].

Lemma undecodable_toc_aborts_extraction_witness :
  ExtractXARMetadata (H := sample_Environment) 100 (open_TempFileReader misplaced_toc_pkg)
  = Done (Err (Wrapf "create TOC reader" (LibError "zlib: invalid header"))).
Proof.
  destruct (undecodable_toc_aborts_extraction (H := sample_Environment) 100
              misplaced_toc_pkg (Some ErrNotSigned) 5 (LibError "zlib: invalid header")
              ltac:(vm_compute; lia) ltac:(vm_compute; reflexivity)
              ltac:(right; reflexivity)) as [E _].
  apply E. vm_compute. reflexivity.
Defined.

(** ** The record bulk extraction returns *)

(** The descriptive fields of a record, those a strategy fills. *)
Definition description (m : PKGInstallerMetadata) :=
  (ApplicationTitle m, DisplayName m, BundleName m, Version m,
   PrimaryBundleIdentifier m, PrimaryBundlePath m, PackageIDs m,
   MinimumOperatingSystemVersion m, HostArchitectures m, AppBundles m).

(** The verdict of the detector as bulk extraction records it. *)
Definition verdict (sig : option error) : bool :=
  match sig with
  | None => true
  | Some _ => false
  end.

Section ExtractionRecord.
Context `{Environment}.

(** Bulk extraction of [pkg] gets as far as the strategy selection: the
    detector accepts the package with the outcome [sig], the TOC decodes,
    and the loop over its files ends with the contents [dist] and [pinfo]. *)
Definition reaches_documents (fuel : nat) (pkg : list byte) (sig : option error)
    (dist pinfo : option (list byte)) : Prop :=
  let hdr := decode_xarHeader (take 28 pkg) in
  let avail := take (Z.to_nat (hdr_CompressedSize hdr)) (drop 28 pkg) in
  exists consumed root,
    detect pkg = Done sig /\ (sig = None \/ sig = Some ErrNotSigned)
    /\ toc_Decode avail = (consumed, TOCDecoded root)
    /\ collectContents fuel
         (TempFileReader_ReadAt
            (TempFileReader_advance (header_read pkg) (consumed `min` length avail)))
         (heapOffset hdr) (len pkg) (xar_TOC_Files root) None None
       = Done (dist, pinfo).

Lemma extraction_selected fuel pkg sig dist pinfo m :
  (length pkg < fuel)%nat ->
  reaches_documents fuel pkg sig dist pinfo ->
  selectMetadata (verdict sig) dist pinfo = Some m ->
  ExtractXARMetadata fuel (open_TempFileReader pkg)
  = Done (Ok (with_SHA256Sum
                (with_MD5Sum
                   (with_SHA1Sum
                      (with_PkgSizeMB (with_SHA256Sum m (sha256_Sum pkg))
                         (Qmake (len pkg) (2 ^ 20)))
                      (sha1_Sum pkg))
                   (md5_Sum pkg))
                (sha256_Sum pkg))).
Proof.
  intros Hfuel (consumed & root & Hdetect & Hsig & Htoc & Hcollect) Hsel.
  rewrite ExtractXARMetadata_extraction by done. unfold extraction.
  rewrite Hdetect. cbn [mbind run_bind].
  destruct Hsig as [-> | ->]; cbv zeta; rewrite Htoc, Hcollect;
    cbn [mbind run_bind]; simpl in Hsel; rewrite Hsel; reflexivity.
Qed.

Lemma selectMetadata_cases s dist pinfo m :
  selectMetadata s dist pinfo = Some m ->
  (exists c dm, dist = Some c /\ parseDistributionFile c = Ok dm
                /\ m = with_IsSigned dm s)
  \/ (exists c pm, pinfo = Some c /\ parsePackageInfoFile c = Ok pm
                   /\ m = with_IsSigned pm s
                   /\ (dist = None
                       \/ exists c' e, dist = Some c' /\ parseDistributionFile c' = Err e)).
Proof.
  unfold selectMetadata. intros E.
  destruct dist as [c|].
  - destruct (parseDistributionFile c) as [dm|e] eqn:Ed.
    + left. exists c, dm. destruct pinfo; injection E as <-; done.
    + destruct pinfo as [c'|]; [|discriminate].
      destruct (parsePackageInfoFile c') as [pm|e'] eqn:Ep; [|discriminate].
      injection E as <-. right. exists c', pm. repeat split; try done.
      right. eauto.
  - destruct pinfo as [c'|]; [|discriminate].
    destruct (parsePackageInfoFile c') as [pm|e'] eqn:Ep; [|discriminate].
    injection E as <-. right. exists c', pm. repeat split; try done. left. done.
Qed.

(** X8. When a strategy gives a record, the record bulk extraction
    returns has the descriptive fields of that record, isSigned set to the
    verdict of the detector, the size in MB of the whole source, and the
    three digests of the whole source. *)
Theorem extraction_completes_the_record (fuel : nat) (pkg : list byte)
    (sig : option error) (dist pinfo : option (list byte))
    (m : PKGInstallerMetadata) :
  (length pkg < fuel)%nat ->
  reaches_documents fuel pkg sig dist pinfo ->
  selectMetadata (verdict sig) dist pinfo = Some m ->
  exists meta,
    ExtractXARMetadata fuel (open_TempFileReader pkg) = Done (Ok meta)
    /\ description meta = description m
    /\ IsSigned meta = verdict sig
    /\ PkgSizeMB meta = Qmake (len pkg) (2 ^ 20)
    /\ SHA256Sum meta = Some (sha256_Sum pkg)
    /\ SHA1Sum meta = Some (sha1_Sum pkg)
    /\ MD5Sum meta = Some (md5_Sum pkg).
Proof.
  intros Hfuel Hreach Hsel.
  rewrite (extraction_selected fuel pkg sig dist pinfo m Hfuel Hreach Hsel).
  eexists. split; [reflexivity|]. repeat split.
  destruct (selectMetadata_cases _ _ _ _ Hsel)
    as [(c & dm & _ & _ & ->) | (c & pm & _ & _ & -> & _)]; reflexivity.
Qed.

(** X9. The Distribution document has precedence: when its contents were
    read and parse, the descriptive fields of the result are those of the
    Distribution strategy, whether or not a PackageInfo document exists. *)
Theorem extraction_prefers_distribution (fuel : nat) (pkg : list byte)
    (sig : option error) (c : list byte) (pinfo : option (list byte))
    (dm : PKGInstallerMetadata) :
  (length pkg < fuel)%nat ->
  reaches_documents fuel pkg sig (Some c) pinfo ->
  parseDistributionFile c = Ok dm ->
  exists meta,
    ExtractXARMetadata fuel (open_TempFileReader pkg) = Done (Ok meta)
    /\ description meta = description dm.
Proof.
  intros Hfuel Hreach Hdm.
  assert (Hsel : selectMetadata (verdict sig) (Some c) pinfo
                 = Some (with_IsSigned dm (verdict sig))).
  { unfold selectMetadata. rewrite Hdm. destruct pinfo; reflexivity. }
  rewrite (extraction_selected fuel pkg sig _ pinfo _ Hfuel Hreach Hsel).
  eexists. split; reflexivity.
Qed.

(** X10. The PackageInfo document is the fallback: when no Distribution
    contents were read, or they do not parse, and the PackageInfo contents
    parse, the descriptive fields of the result are those of the
    PackageInfo strategy; there are then no app bundles, no host
    architectures and no primary bundle path. *)
Theorem extraction_falls_back_to_packageInfo (fuel : nat) (pkg : list byte)
    (sig : option error) (dist : option (list byte)) (c : list byte)
    (pm : PKGInstallerMetadata) :
  (length pkg < fuel)%nat ->
  reaches_documents fuel pkg sig dist (Some c) ->
  dist = None \/ (exists c' e, dist = Some c' /\ parseDistributionFile c' = Err e) ->
  parsePackageInfoFile c = Ok pm ->
  exists meta,
    ExtractXARMetadata fuel (open_TempFileReader pkg) = Done (Ok meta)
    /\ description meta = description pm
    /\ AppBundles meta = [] /\ HostArchitectures meta = ""
    /\ PrimaryBundlePath meta = "".
Proof.
  intros Hfuel Hreach Hdist Hpm.
  assert (Hsel : selectMetadata (verdict sig) dist (Some c)
                 = Some (with_IsSigned pm (verdict sig))).
  { unfold selectMetadata.
    destruct Hdist as [-> | (c' & e & -> & ->)]; rewrite Hpm; reflexivity. }
  rewrite (extraction_selected fuel pkg sig dist _ _ Hfuel Hreach Hsel).
  eexists. split; [reflexivity|]. split; [reflexivity|].
  unfold parsePackageInfoFile in Hpm.
  destruct (plist_Decode_PackageInfo c); [|discriminate].
  injection Hpm as <-. repeat split.
Qed.

(** X11. No path of bulk extraction assigns the bundle name: the value
    [getPackageInfo] computes is dropped by [parsePackageInfoFile], and the
    Distribution strategy has none, so the field is empty in every record
    that is returned. *)
Theorem extraction_never_sets_bundle_name (fuel : nat) (pkg : list byte)
    (meta : PKGInstallerMetadata) :
  (length pkg < fuel)%nat ->
  ExtractXARMetadata fuel (open_TempFileReader pkg) = Done (Ok meta) ->
  BundleName meta = "".
Proof.
  intros Hfuel. rewrite ExtractXARMetadata_extraction by done. unfold extraction.
  destruct (detect pkg) as [sig| |]; cbn [mbind run_bind]; [|discriminate..].
  assert (Hsel : forall s dist pinfo m,
            selectMetadata s dist pinfo = Some m -> BundleName m = "").
  { intros s dist pinfo m Hm.
    destruct (selectMetadata_cases _ _ _ _ Hm)
      as [(c & dm & _ & Hdm & ->) | (c & pm & _ & Hpm & -> & _)].
    - unfold parseDistributionFile in Hdm.
      destruct (xml_Unmarshal_distributionXML c) as [d|]; [|discriminate].
      injection Hdm as <-. unfold distributionMetadata.
      repeat match goal with |- context [let '(_, _) := ?x in _] => destruct x end.
      reflexivity.
    - unfold parsePackageInfoFile in Hpm.
      destruct (plist_Decode_PackageInfo c); [|discriminate].
      injection Hpm as <-. reflexivity. }
  assert (Hgo : forall s,
    (let hdr := decode_xarHeader (take 28 pkg) in
     let avail := take (Z.to_nat (hdr_CompressedSize hdr)) (drop 28 pkg) in
     let '(consumed, decoded) := toc_Decode avail in
     let tfr := TempFileReader_advance (header_read pkg) (consumed `min` length avail) in
     match decoded with
     | TOCReaderFailed e => Done (Err (Wrapf "create TOC reader" e))
     | TOCDecodeFailed e => Done (Err (Wrapf "decode TOC XML" e))
     | TOCDecoded root =>
         '(dist, pinfo) ←
           collectContents fuel (TempFileReader_ReadAt tfr)
             (heapOffset hdr) (len pkg) (xar_TOC_Files root) None None;
         let meta :=
           match selectMetadata s dist pinfo with
           | None =>
               with_SHA256Sum (with_IsSigned zero_PKGInstallerMetadata false)
                 (sha256_Sum pkg)
           | Some meta =>
               with_PkgSizeMB (with_SHA256Sum meta (sha256_Sum pkg))
                 (Qmake (len pkg) (2 ^ 20))
           end in
         Done (Ok (with_SHA256Sum
                     (with_MD5Sum (with_SHA1Sum meta (sha1_Sum pkg)) (md5_Sum pkg))
                     (sha256_Sum pkg)))
     end) = Done (Ok meta) -> BundleName meta = "").
  { intros s. cbv zeta. destruct (toc_Decode _) as [consumed decoded].
    destruct decoded as [e|e|root]; [discriminate|discriminate|].
    destruct (collectContents _ _ _ _ _ _ _) as [[dist pinfo]| |];
      cbn [mbind run_bind]; [|discriminate..].
    destruct (selectMetadata s dist pinfo) as [m|] eqn:Em;
      intros [= <-]; [|reflexivity].
    simpl. exact (Hsel _ _ _ _ Em). }
  destruct sig as [[]|]; try discriminate; apply Hgo.
Qed.
End ExtractionRecord.


(** Not signed; a PackageInfo entry at heap offset 2 and another file. *)
Definition packageInfo_pkg : list byte :=
  sample_header x1c x0b x03
  ++ [x78; x9c; x00; x50; x02; x03; x01; x58; x03; x02; x01]
  ++ [x3c; x61; x62; x7a; x7a].

(** Signed; both documents. *)
Definition both_documents_pkg : list byte :=
  sample_header x1c x0b x01
  ++ [x78; x9c; x01; x50; x02; x03; x01; x44; x00; x02; x01]
  ++ [x3c; x61; x62; x7a; x7a].

Lemma signed_pkg_reaches_documents :
  reaches_documents (H := sample_Environment) 100 signed_pkg None
    (Some [x3c; x61; x62]) None.
Proof.
  unfold reaches_documents. eexists _, _.
  split; [vm_compute; reflexivity|]. split; [left; reflexivity|].
  split; [vm_compute; reflexivity|]. vm_compute. reflexivity.
Qed.

Lemma packageInfo_pkg_reaches_documents :
  reaches_documents (H := sample_Environment) 100 packageInfo_pkg (Some ErrNotSigned)
    None (Some [x62; x7a; x7a]).
Proof.
  unfold reaches_documents. eexists _, _.
  split; [vm_compute; reflexivity|]. split; [right; reflexivity|].
  split; [vm_compute; reflexivity|]. vm_compute. reflexivity.
Qed.

Lemma both_documents_pkg_reaches_documents :
  reaches_documents (H := sample_Environment) 100 both_documents_pkg None
    (Some [x3c; x61]) (Some [x62; x7a; x7a]).
Proof.
  unfold reaches_documents. eexists _, _.
  split; [vm_compute; reflexivity|]. split; [left; reflexivity|].
  split; [vm_compute; reflexivity|]. vm_compute. reflexivity.
Qed.

Lemma extraction_completes_the_record_witness :
  exists meta,
    ExtractXARMetadata (H := sample_Environment) 100 (open_TempFileReader signed_pkg)
    = Done (Ok meta)
    /\ ApplicationTitle meta = "Sample"
    /\ IsSigned meta = true
    /\ PkgSizeMB meta = Qmake 44 (2 ^ 20)
    /\ SHA1Sum meta = Some (x01 :: signed_pkg).
Proof.
  destruct (extraction_completes_the_record (H := sample_Environment) 100 signed_pkg
              None (Some [x3c; x61; x62]) None
              (with_IsSigned (distributionMetadata sample_distribution) true)
              ltac:(vm_compute; lia) signed_pkg_reaches_documents
              ltac:(vm_compute; reflexivity))
    as (meta & E & Hd & Hs & Hsize & _ & Hsha1 & _).
  exists meta. split; [exact E|].
  split; [injection Hd; intros; assumption|]. split; [exact Hs|].
  split; [exact Hsize|exact Hsha1].
Defined.

Lemma extraction_prefers_distribution_witness :
  exists meta,
    ExtractXARMetadata (H := sample_Environment) 100
      (open_TempFileReader both_documents_pkg) = Done (Ok meta)
    /\ description meta = description (distributionMetadata sample_distribution).
Proof.
  apply (extraction_prefers_distribution (H := sample_Environment) 100
           both_documents_pkg None [x3c; x61] (Some [x62; x7a; x7a])
           (distributionMetadata sample_distribution)
           ltac:(vm_compute; lia) both_documents_pkg_reaches_documents).
  vm_compute. reflexivity.
Defined.

Lemma extraction_falls_back_to_packageInfo_witness :
  exists meta,
    ExtractXARMetadata (H := sample_Environment) 100
      (open_TempFileReader packageInfo_pkg) = Done (Ok meta)
    /\ ApplicationTitle meta = "Two.app"
    /\ AppBundles meta = [].
Proof.
  destruct (extraction_falls_back_to_packageInfo (H := sample_Environment) 100
              packageInfo_pkg (Some ErrNotSigned) None [x62; x7a; x7a]
              {| ApplicationTitle := "Two.app"; DisplayName := "";
                 BundleName := ""; Version := "2.0";
                 PrimaryBundleIdentifier := "com.example.two";
                 PrimaryBundlePath := "";
                 PackageIDs := ["com.example.one"; "com.example.two"];
                 MinimumOperatingSystemVersion := ""; HostArchitectures := "";
                 AppBundles := []; IsSigned := false; PkgSizeMB := Qmake 0 1;
                 SHA256Sum := None; SHA1Sum := None; MD5Sum := None |}
              ltac:(vm_compute; lia) packageInfo_pkg_reaches_documents
              ltac:(left; reflexivity) ltac:(vm_compute; reflexivity))
    as (meta & E & Hd & Hab & _).
  exists meta. split; [exact E|]. split; [|exact Hab].
  injection Hd; intros; assumption.
Defined.

Lemma extraction_never_sets_bundle_name_witness :
  exists meta,
    ExtractXARMetadata (H := sample_Environment) 100
      (open_TempFileReader packageInfo_pkg) = Done (Ok meta)
    /\ BundleName meta = "".
Proof.
  eexists. split; [vm_compute; reflexivity|].
  apply (extraction_never_sets_bundle_name (H := sample_Environment) 100
           packageInfo_pkg); [vm_compute; lia | vm_compute; reflexivity].
Defined.

(** ** The loop over the files of the TOC *)

(** The entry is not one the loop can take a document from: a nil entry,
    an entry without data, an entry whose extraction fails, or an entry
    with another name. *)
Definition passed_over `{Environment} (fuel : nat) (rat : ReaderAt)
    (heapOffset size : Z) (f : option xmlFile) : Prop :=
  match f with
  | None => True
  | Some xf =>
      xf_Data xf = None
      \/ (exists e, readCompressedFile fuel rat heapOffset size f = Done (Err e))
      \/ (exists c, readCompressedFile fuel rat heapOffset size f = Done (Ok c)
                    /\ xf_Name xf <> "Distribution" /\ xf_Name xf <> "PackageInfo")
  end.

Definition not_named (name : string) (f : option xmlFile) : Prop :=
  match f with
  | None => True
  | Some xf => xf_Name xf <> name
  end.

Section Collect.
Context `{Environment}.

Lemma collectContents_app fuel rat heapOffset size files1 : forall files2 dist pinfo,
  collectContents fuel rat heapOffset size (files1 ++ files2) dist pinfo
  = '(dist', pinfo') ← collectContents fuel rat heapOffset size files1 dist pinfo;
    collectContents fuel rat heapOffset size files2 dist' pinfo'.
Proof.
  induction files1 as [|f files1 IH]; intros files2 dist pinfo; [reflexivity|].
  simpl. destruct f as [xf|]; [|apply IH].
  destruct (xf_Data xf); [|apply IH].
  destruct (readCompressedFile fuel rat heapOffset size (Some xf)) as [[c|e]| |];
    cbn [mbind run_bind]; try reflexivity; [|apply IH].
  destruct (String.eqb (xf_Name xf) "Distribution"); [apply IH|].
  destruct (String.eqb (xf_Name xf) "PackageInfo"); apply IH.
Qed.

Lemma collectContents_passed_over fuel rat heapOffset size f files dist pinfo :
  passed_over fuel rat heapOffset size f ->
  collectContents fuel rat heapOffset size (f :: files) dist pinfo
  = collectContents fuel rat heapOffset size files dist pinfo.
Proof.
  intros Hf. simpl. destruct f as [xf|]; [|reflexivity].
  destruct Hf as [-> | [(e & He) | (c & Hc & Hd & Hp)]]; [reflexivity| |].
  - destruct (xf_Data xf); [|reflexivity]. rewrite He. reflexivity.
  - destruct (xf_Data xf); [|reflexivity]. rewrite Hc. cbn [mbind run_bind].
    apply String.eqb_neq in Hd, Hp. rewrite Hd, Hp. reflexivity.
Qed.

Lemma collectContents_keeps_distribution fuel rat heapOffset size files :
  forall dist pinfo dist' pinfo',
  Forall (not_named "Distribution") files ->
  collectContents fuel rat heapOffset size files dist pinfo = Done (dist', pinfo') ->
  dist' = dist.
Proof.
  induction files as [|f files IH]; intros dist pinfo dist' pinfo' HF E.
  - simpl in E. congruence.
  - inversion HF as [|? ? Hf HF']; subst. simpl in E.
    destruct f as [xf|]; [|eauto].
    destruct (xf_Data xf); [|eauto].
    destruct (readCompressedFile fuel rat heapOffset size (Some xf)) as [[c|e]| |];
      cbn [mbind run_bind] in E; try discriminate; [|eauto].
    simpl in Hf. apply String.eqb_neq in Hf. rewrite Hf in E.
    destruct (String.eqb (xf_Name xf) "PackageInfo"); eauto.
Qed.

(** X12. Entries the loop cannot take a document from leave no trace: a
    nil entry, an entry without a data section, an entry whose extraction
    fails (the failure is not fatal) and an entry with another name can be
    removed from the list without changing what the loop collects. *)
Theorem collectContents_ignores_other_entries (fuel : nat) (rat : ReaderAt)
    (heapOffset size : Z) (files1 files2 : list (option xmlFile))
    (f : option xmlFile) (dist pinfo : option (list byte)) :
  passed_over fuel rat heapOffset size f ->
  collectContents fuel rat heapOffset size (files1 ++ f :: files2) dist pinfo
  = collectContents fuel rat heapOffset size (files1 ++ files2) dist pinfo.
Proof.
  intros Hf. rewrite !collectContents_app.
  destruct (collectContents fuel rat heapOffset size files1 dist pinfo)
    as [[d p]| |]; cbn [mbind run_bind]; try reflexivity.
  apply collectContents_passed_over. exact Hf.
Qed.

(** X13. Of several readable entries named Distribution the last one
    wins: when an entry named Distribution is extracted and no later entry
    has that name, the Distribution contents the loop ends with are the
    contents of that entry, whatever was collected before. *)
Theorem collectContents_last_distribution_wins (fuel : nat) (rat : ReaderAt)
    (heapOffset size : Z) (files1 files2 : list (option xmlFile)) (xf : xmlFile)
    (c : list byte) (dist pinfo dist' pinfo' : option (list byte)) :
  xf_Name xf = "Distribution" ->
  readCompressedFile fuel rat heapOffset size (Some xf) = Done (Ok c) ->
  Forall (not_named "Distribution") files2 ->
  collectContents fuel rat heapOffset size (files1 ++ Some xf :: files2) dist pinfo
  = Done (dist', pinfo') ->
  dist' = Some c.
Proof.
  intros Hname Hread Hlater E. rewrite collectContents_app in E.
  destruct (collectContents fuel rat heapOffset size files1 dist pinfo)
    as [[d p]| |]; cbn [mbind run_bind] in E; try discriminate.
  cbn [collectContents] in E.
  destruct (xf_Data xf) as [data|] eqn:Hdata.
  - rewrite Hread in E. cbn [mbind run_bind] in E. rewrite Hname in E.
    change (String.eqb "Distribution" "Distribution") with true in E. cbv iota in E.
    eapply collectContents_keeps_distribution; [exact Hlater | exact E].
  - unfold readCompressedFile in Hread. rewrite Hdata in Hread. discriminate.
Qed.
End Collect.

(** The files of a TOC with two entries named Distribution, the first at
    heap offset 3, the second at heap offset 0, and one unreadable entry. *)
Definition two_distributions : list (option xmlFile) :=
  [ Some (stored_entry "Distribution" 3 2);
    Some {| xf_Name := "Broken"; xf_Type := "file";
            xf_Data := Some {| fd_Length := 2; fd_Offset := 0; fd_Size := 2;
                               fd_Encoding_Style := "application/x-gzip" |} |};
    Some (stored_entry "Distribution" 0 3);
    Some (stored_entry "PackageInfo" 2 1) ].

Lemma collectContents_ignores_other_entries_witness :
  collectContents (H := sample_Environment) 100
    (bytes_Reader_ReadAt signed_pkg) 39 (len signed_pkg) two_distributions None None
  = collectContents (H := sample_Environment) 100
      (bytes_Reader_ReadAt signed_pkg) 39 (len signed_pkg)
      [ Some (stored_entry "Distribution" 3 2);
        Some (stored_entry "Distribution" 0 3);
        Some (stored_entry "PackageInfo" 2 1) ] None None.
Proof.
  apply (collectContents_ignores_other_entries (H := sample_Environment) 100
           (bytes_Reader_ReadAt signed_pkg) 39 (len signed_pkg)
           [Some (stored_entry "Distribution" 3 2)]).
  right. left. eexists. vm_compute. reflexivity.
Defined.

Lemma collectContents_last_distribution_wins_witness :
  exists dist' pinfo',
    collectContents (H := sample_Environment) 100
      (bytes_Reader_ReadAt signed_pkg) 39 (len signed_pkg) two_distributions None None
    = Done (dist', pinfo')
    /\ dist' = Some [x3c; x61; x62].
Proof.
  eexists _, _. split; [vm_compute; reflexivity|].
  apply (collectContents_last_distribution_wins (H := sample_Environment) 100
           (bytes_Reader_ReadAt signed_pkg) 39 (len signed_pkg)
           (take 2 two_distributions) [Some (stored_entry "PackageInfo" 2 1)]
           (stored_entry "Distribution" 0 3) [x3c; x61; x62]
           None None _ (Some [x62]) eq_refl ltac:(vm_compute; reflexivity)
           ltac:(repeat constructor; discriminate)).
  vm_compute. reflexivity.
Defined.

(** ** The Distribution strategy: the primary bundle *)

(** A bundle can become the primary one when it is eligible and its id is
    the id of the package reference that lists it. *)
Definition names_its_ref (pkgID : string) (b : distBundle) : bool :=
  eligible b && String.eqb pkgID (db_ID b).

(** The identifier and path such bundles would give, in the order in which
    the document lists them. *)
Definition primaries_of (refs : list distPkgRef) : list (string * string) :=
  List.flat_map
    (fun pkg =>
       match pr_BundleVersion pkg with
       | Some bundles =>
           List.map (fun b => (pr_ID pkg, db_Path b))
             (List.filter (names_its_ref (pr_ID pkg)) bundles)
       | None => []
       end) refs.

(** What a state of the first loop holds for the primary bundle. *)
Definition primary (st : distState) : option (string * string) :=
  if st_primaryFound st
  then Some (st_primaryBundleIdentifier st, st_primaryBundlePath st)
  else None.

(** The document without the bundles that are not eligible. *)
Definition eligible_only (d : distributionXML) : distributionXML :=
  {| dist_Title := dist_Title d;
     dist_Options := dist_Options d;
     dist_OsVersions := dist_OsVersions d;
     dist_PkgRefs :=
       List.map
         (fun pkg =>
            {| pr_ID := pr_ID pkg; pr_Version := pr_Version pkg;
               pr_BundleVersion := List.filter eligible <$> pr_BundleVersion pkg |})
         (dist_PkgRefs d);
     dist_Product_ID := dist_Product_ID d;
     dist_Product_Version := dist_Product_Version d |}.

Lemma bundle_step_primary pkgID st b :
  primary (bundle_step pkgID st b)
  = match primary st with
    | Some p => Some p
    | None => if names_its_ref pkgID b then Some (pkgID, db_Path b) else None
    end
  /\ (st_primaryFound st = false ->
      names_its_ref pkgID b = false ->
      st_primaryBundleIdentifier (bundle_step pkgID st b) = st_primaryBundleIdentifier st
      /\ st_primaryBundlePath (bundle_step pkgID st b) = st_primaryBundlePath st).
Proof.
  unfold bundle_step, names_its_ref, eligible, primary.
  destruct (negb (is_empty (db_CFBundleShortVersionString b))
            && negb (is_empty (db_ID b))); simpl.
  - destruct (st_primaryFound st); simpl; [split; [done|discriminate]|].
    destruct (String.eqb pkgID (db_ID b)); simpl; [split; [done|discriminate]|].
    split; [|done]. intros. by destruct (st_primaryFound st).
  - destruct (st_primaryFound st); split; done.
Qed.

(** A state in which no primary bundle was found still has the empty
    identifier and path it started with. *)
Definition unset (st : distState) : Prop :=
  st_primaryFound st = false ->
  st_primaryBundleIdentifier st = "" /\ st_primaryBundlePath st = "".

Lemma bundle_step_unset pkgID st b : unset st -> unset (bundle_step pkgID st b).
Proof.
  intros Hst Hnot.
  destruct (bundle_step_primary pkgID st b) as [Hp Hkeep].
  unfold primary in Hp. rewrite Hnot in Hp.
  destruct (st_primaryFound st) eqn:Ef; [discriminate|].
  destruct (names_its_ref pkgID b); [discriminate|].
  destruct (Hkeep eq_refl eq_refl) as [-> ->]. by apply Hst.
Qed.

Lemma bundles_fold_primary pkgID bundles : forall st,
  primary (fold_left (bundle_step pkgID) bundles st)
  = match primary st with
    | Some p => Some p
    | None =>
        head (List.map (fun b => (pkgID, db_Path b))
                (List.filter (names_its_ref pkgID) bundles))
    end
  /\ (unset st -> unset (fold_left (bundle_step pkgID) bundles st)).
Proof.
  induction bundles as [|b bundles IH]; intros st; simpl.
  - split; [by destruct (primary st)|done].
  - destruct (IH (bundle_step pkgID st b)) as [-> Hun].
    destruct (bundle_step_primary pkgID st b) as [-> _].
    split.
    + destruct (primary st); [done|]. by destruct (names_its_ref pkgID b).
    + intros Hst. by apply Hun, bundle_step_unset.
Qed.

Lemma head_app_first {A} (l k : list A) :
  head (l ++ k) = match head l with Some x => Some x | None => head k end.
Proof. by destruct l. Qed.

Lemma pkg_step_primary st pkg :
  primary (pkg_step st pkg)
  = match primary st with
    | Some p => Some p
    | None => head (primaries_of [pkg])
    end
  /\ (unset st -> unset (pkg_step st pkg)).
Proof.
  unfold pkg_step, primaries_of. simpl. rewrite app_nil_r.
  destruct (pr_BundleVersion pkg) as [bundles|].
  - apply bundles_fold_primary.
  - split; [by destruct (primary st)|done].
Qed.

Lemma refs_fold_primary refs : forall st,
  primary (fold_left pkg_step refs st)
  = match primary st with
    | Some p => Some p
    | None => head (primaries_of refs)
    end
  /\ (unset st -> unset (fold_left pkg_step refs st)).
Proof.
  induction refs as [|pkg refs IH]; intros st.
  - simpl. split; [by destruct (primary st)|done].
  - change (fold_left pkg_step (pkg :: refs) st)
      with (fold_left pkg_step refs (pkg_step st pkg)).
    destruct (IH (pkg_step st pkg)) as [-> Hun].
    destruct (pkg_step_primary st pkg) as [-> Hun'].
    split; [|by intros; apply Hun, Hun'].
    assert (E : primaries_of (pkg :: refs) = primaries_of [pkg] ++ primaries_of refs).
    { unfold primaries_of. simpl. by rewrite app_nil_r. }
    rewrite E, head_app_first.
    destruct (primary st); [done|].
    by destruct (head (primaries_of [pkg])).
Qed.

(** The record, from the state the first loop ends in. *)
Lemma distribution_primary_fields d :
  let st := fold_left pkg_step (dist_PkgRefs d)
              {| st_appBundles := []; st_primaryBundleIdentifier := "";
                 st_primaryBundlePath := ""; st_primaryFound := false |} in
  let m := distributionMetadata d in
  AppBundles m = st_appBundles st
  /\ (PrimaryBundleIdentifier m, PrimaryBundlePath m)
     = match st_primaryFound st, st_appBundles st with
       | false, ab :: _ => (ab_ID ab, ab_AppLocationPath ab)
       | _, _ => (st_primaryBundleIdentifier st, st_primaryBundlePath st)
       end.
Proof.
  cbv zeta. unfold distributionMetadata.
  repeat match goal with |- context [let '(_, _) := ?x in _] => destruct x eqn:? end.
  simpl. split; [done|]. congruence.
Qed.

Lemma distribution_primary_outline d :
  let m := distributionMetadata d in
  (PrimaryBundleIdentifier m, PrimaryBundlePath m)
  = match head (primaries_of (dist_PkgRefs d)) with
    | Some p => p
    | None =>
        match AppBundles m with
        | ab :: _ => (ab_ID ab, ab_AppLocationPath ab)
        | [] => ("", "")
        end
    end.
Proof.
  cbv zeta. destruct (distribution_primary_fields d) as [-> ->].
  set (st0 := {| st_appBundles := [] |}).
  destruct (refs_fold_primary (dist_PkgRefs d) st0) as [Hp Hun].
  change (primary st0) with (@None (string * string)) in Hp.
  unfold primary in Hp.
  destruct (st_primaryFound (fold_left pkg_step (dist_PkgRefs d) st0)) eqn:Ef.
  - rewrite <- Hp. done.
  - rewrite <- Hp. destruct (st_appBundles _); [|done].
    assert (Hst0 : unset st0) by done.
    destruct (Hun Hst0 Ef) as [-> ->]. done.
Qed.

(** X14. Distribution strategy: the primary identifier and path come from
    the first eligible bundle, in the order of the document, whose id is
    the id of the package reference that lists it; when there is none they
    are the id and path of the first AppBundle, and both are empty when
    there is no AppBundle either. *)
Theorem distribution_primary_bundle (d : distributionXML) :
  let m := distributionMetadata d in
  (PrimaryBundleIdentifier m, PrimaryBundlePath m)
  = match head (primaries_of (dist_PkgRefs d)) with
    | Some p => p
    | None =>
        match head (candidates d) with
        | Some ab => (ab_ID ab, ab_AppLocationPath ab)
        | None => ("", "")
        end
    end.
Proof.
  cbv zeta. rewrite distribution_primary_outline.
  destruct (head (primaries_of (dist_PkgRefs d))); [done|].
  assert (Hh : head (AppBundles (distributionMetadata d)) = head (candidates d)).
  { rewrite AppBundles_keep_first. destruct (candidates d) as [|ab abs]; [done|].
    simpl. unfold keep_first at 2. simpl.
    destruct (keep_first_fold_app abs [ab]) as (added & -> & _). done. }
  rewrite <- Hh. by destruct (AppBundles (distributionMetadata d)).
Qed.

Lemma primaries_of_candidates refs id path :
  (id, path) ∈ primaries_of refs ->
  exists ab, ab ∈ candidates_of refs /\ ab_ID ab = id.
Proof.
  intros Hin. apply list_elem_of_In in Hin.
  unfold primaries_of in Hin. apply in_flat_map in Hin as (pkg & Hpkg & Hin).
  destruct (pr_BundleVersion pkg) as [bundles|] eqn:Eb; [|done].
  apply in_map_iff in Hin as (b & [= <- <-] & Hb).
  apply filter_In in Hb as [Hb Hn]. unfold names_its_ref in Hn.
  apply andb_true_iff in Hn as [He Hid]. apply String.eqb_eq in Hid.
  exists (toAppBundle b). split; [|by rewrite Hid].
  apply list_elem_of_In. unfold candidates_of. apply in_flat_map.
  exists pkg. split; [done|]. rewrite Eb.
  apply in_map. apply filter_In. done.
Qed.

Lemma find_has_id_Some id abs ab :
  ab ∈ abs -> ab_ID ab = id -> exists ab', List.find (has_id id) abs = Some ab'.
Proof.
  intros Hin Hid. destruct (List.find (has_id id) abs) as [ab'|] eqn:E; [eauto|].
  exfalso. apply list_elem_of_In in Hin.
  pose proof (find_none _ _ E _ Hin) as Hn. unfold has_id in Hn.
  apply String.eqb_neq in Hn. done.
Qed.

(** X15. Distribution strategy: when there are AppBundles the primary
    identifier is one of the package ids, the id of an AppBundle; when there
    are none the primary identifier and the primary path are empty. *)
Theorem distribution_primary_is_a_package_id (d : distributionXML) :
  let m := distributionMetadata d in
  match AppBundles m with
  | [] => PrimaryBundleIdentifier m = "" /\ PrimaryBundlePath m = ""
  | _ :: _ => PrimaryBundleIdentifier m ∈ PackageIDs m
  end.
Proof.
  cbv zeta. pose proof (distribution_primary_outline d) as Hp. cbv zeta in Hp.
  rewrite PackageIDs_AppBundles.
  assert (Hfind : forall id path,
            (id, path) ∈ primaries_of (dist_PkgRefs d) ->
            id ∈ ab_ID <$> AppBundles (distributionMetadata d)).
  { intros id path Hin.
    destruct (primaries_of_candidates _ _ _ Hin) as (ab & Hab & Hid).
    destruct (find_has_id_Some id _ ab Hab Hid) as (ab' & Hf).
    assert (Hf' : List.find (has_id id) (AppBundles (distributionMetadata d)) = Some ab').
    { rewrite AppBundles_keep_first, keep_first_fold_find. exact Hf. }
    apply find_some in Hf' as [Hin' Hid']. unfold has_id in Hid'.
    apply String.eqb_eq in Hid'. rewrite <- Hid'.
    apply list_elem_of_fmap. exists ab'. split; [done|]. by apply list_elem_of_In. }
  destruct (head (primaries_of (dist_PkgRefs d))) as [[id path]|] eqn:Eh.
  - assert (Hin : (id, path) ∈ primaries_of (dist_PkgRefs d)).
    { destruct (primaries_of (dist_PkgRefs d)); [discriminate|].
      injection Eh as ->. left. }
    apply Hfind in Hin. injection Hp as -> _.
    destruct (AppBundles (distributionMetadata d)); [|done].
    inversion Hin.
  - destruct (AppBundles (distributionMetadata d)) as [|ab abs].
    + injection Hp as -> ->. done.
    + injection Hp as -> _. left.
Qed.

Lemma bundles_fold_eligible pkgID bundles : forall st,
  fold_left (bundle_step pkgID) (List.filter eligible bundles) st
  = fold_left (bundle_step pkgID) bundles st.
Proof.
  induction bundles as [|b bundles IH]; intros st; simpl; [done|].
  destruct (eligible b) eqn:E; simpl; [apply IH|].
  rewrite IH. f_equal. unfold bundle_step. unfold eligible in E. by rewrite E.
Qed.

(** X16. Distribution strategy: a bundle that lacks a short version or an
    id leaves no trace; the record of a document is the record of the
    document without such bundles, even when one of them has the id of its
    package reference. *)
Theorem distribution_ignores_ineligible_bundles (d : distributionXML) :
  distributionMetadata (eligible_only d) = distributionMetadata d.
Proof.
  assert (Hfold : forall refs st,
    fold_left pkg_step
      (List.map
         (fun pkg =>
            {| pr_ID := pr_ID pkg; pr_Version := pr_Version pkg;
               pr_BundleVersion := List.filter eligible <$> pr_BundleVersion pkg |})
         refs) st
    = fold_left pkg_step refs st).
  { induction refs as [|pkg refs IH]; intros st; simpl; [done|].
    rewrite IH. f_equal. unfold pkg_step. simpl.
    destruct (pr_BundleVersion pkg); simpl; [|done].
    apply bundles_fold_eligible. }
  unfold distributionMetadata, eligible_only. simpl. rewrite Hfold. done.
Qed.

Example distribution_primary_sample :
  let ref id bundles :=
    {| pr_ID := id; pr_Version := ""; pr_BundleVersion := Some bundles |} in
  let bundle id path :=
    {| db_CFBundleShortVersionString := "1"; db_CFBundleVersion := "";
       db_ID := id; db_Path := path |} in
  let d refs :=
    {| dist_Title := ""; dist_Options := []; dist_OsVersions := [];
       dist_PkgRefs := refs; dist_Product_ID := ""; dist_Product_Version := "" |} in
  let m := distributionMetadata
             (d [ref "a" [bundle "b" "first/b"]; ref "b" [bundle "b" "second/b"]]) in
  AppBundles m
  = [{| ab_ID := "b"; ab_ShortVersion := "1"; ab_AppLocationPath := "first/b" |}]
  /\ PrimaryBundleIdentifier m = "b"
  /\ PrimaryBundlePath m = "second/b".
Proof. vm_compute. done. Qed.

(** ** The PackageInfo strategy: documents without a qualifying bundle, and
    the package ids *)

Lemma bundleIDs_of_nonempty bundles id : id ∈ bundleIDs_of bundles -> id <> "".
Proof.
  unfold bundleIDs_of. intros Hin. apply list_elem_of_In, filter_In in Hin as [_ Hne].
  apply negb_true_iff, is_empty_false in Hne. done.
Qed.

Lemma last_filter_None {A} (f : A -> bool) (l : list A) :
  Forall (fun x => f x = false) l -> last (List.filter f l) = None.
Proof.
  induction 1 as [|x l Hx _ IH]; simpl; [done|]. by rewrite Hx.
Qed.

Section PackageInfoMore.
Context `{Environment}.

(** X17. PackageInfo strategy: when no bundle qualifies, identifier and
    version are the sanitized top-level ones, the name is the last
    dot-separated component of that identifier, and displayName, bundleName
    and minOSVersion are empty. *)
Theorem packageInfo_without_qualifying_bundle (p : PackageInfo) :
  Forall (fun b => qualifies p b = false) (pi_Bundles p) ->
  let r := getPackageInfo p in
  r_identifier r = sanitizeBundleString (pi_Identifier p)
  /\ r_version r = sanitizeBundleString (pi_Version p)
  /\ r_name r = lastComponent (sanitizeBundleString (pi_Identifier p))
  /\ r_displayName r = "" /\ r_bundleName r = "" /\ r_minOSVersion r = "".
Proof.
  intros Hnone. cbv zeta.
  destruct (getPackageInfo_held p) as (Hheld & Hid & Hver & Hname & Hdn & Hbn & Hmin).
  unfold last_qualifying in Hheld. rewrite (last_filter_None _ _ Hnone) in Hheld.
  unfold held in Hheld. injection Hheld as Ei En Ev Ed Eb Em.
  rewrite Ei in Hid. rewrite Ev in Hver. rewrite En, Hid in Hname.
  rewrite Hid, Hver, Hname, Hdn, Hbn, Hmin. done.
Qed.

(** X18. PackageInfo strategy: packageIDs never repeats an id and never
    holds an empty string; it holds the sanitized id of every bundle that
    has one, whether the bundle qualifies or not; and it is empty exactly
    when no bundle has an id and the resolved identifier is empty. *)
Theorem packageInfo_package_ids (p : PackageInfo) :
  let r := getPackageInfo p in
  NoDup (r_packageIDs r)
  /\ ("" ∉ r_packageIDs r)
  /\ (forall b, b ∈ pi_Bundles p ->
        sanitizeBundleString (bi_ID b) = ""
        \/ sanitizeBundleString (bi_ID b) ∈ r_packageIDs r)
  /\ (r_packageIDs r = [] <-> bundleIDs p = [] /\ r_identifier r = "").
Proof.
  cbv zeta. destruct (getPackageInfo_packageIDs p) as (HN & Hsome & Hnone).
  cbv zeta in Hsome, Hnone.
  split; [exact HN|]. split; [|split].
  - intros Hin. destruct (bundleIDs p) as [|x l] eqn:E.
    + rewrite (Hnone eq_refl) in Hin.
      destruct (is_empty (r_identifier _)) eqn:Ee; [inversion Hin|].
      apply list_elem_of_singleton in Hin. apply is_empty_false in Ee. done.
    + apply Hsome in Hin; [|done]. rewrite <- E in Hin.
      by apply bundleIDs_of_nonempty in Hin.
  - intros b Hb.
    destruct (is_empty (sanitizeBundleString (bi_ID b))) eqn:Ee.
    { left. by apply is_empty_true. }
    right.
    assert (Hin : sanitizeBundleString (bi_ID b) ∈ bundleIDs p).
    { unfold bundleIDs, bundleIDs_of. apply list_elem_of_In, filter_In.
      split; [|by rewrite Ee].
      apply in_map_iff. exists b. split; [done|]. by apply list_elem_of_In. }
    apply Hsome; [|done]. intros E. rewrite E in Hin. inversion Hin.
  - split.
    + intros E. destruct (bundleIDs p) as [|x l] eqn:Eb.
      * split; [done|]. rewrite (Hnone eq_refl) in E.
        destruct (is_empty (r_identifier _)) eqn:Ee; [|discriminate].
        by apply is_empty_true.
      * exfalso. assert (Hin : x ∈ r_packageIDs (getPackageInfo p)).
        { apply Hsome; [done|]. left. }
        rewrite E in Hin. inversion Hin.
    + intros [Eb Ei]. rewrite (Hnone Eb), Ei. done.
Qed.
End PackageInfoMore.

(** One bundle, outside the applications folder. *)
Definition library_bundle : PackageInfo :=
  {| pi_Version := " 9.9"; pi_InstallLocation := "/";
     pi_Identifier := "com.example.pkg";
     pi_Bundles := [ sample_bundle "Library/Three.bundle" "com.example.three" "3.0" ] |}.

Lemma packageInfo_without_qualifying_bundle_witness :
  let r := getPackageInfo (H := sample_Environment) library_bundle in
  Forall (fun b => qualifies library_bundle b = false) (pi_Bundles library_bundle)
  /\ r_identifier r = "com.example.pkg" /\ r_version r = "9.9" /\ r_name r = "pkg".
Proof.
  assert (Hnone : Forall (fun b => qualifies library_bundle b = false)
                    (pi_Bundles library_bundle)).
  { repeat constructor. }
  cbv zeta. split; [exact Hnone|].
  destruct (packageInfo_without_qualifying_bundle (H := sample_Environment)
              library_bundle Hnone) as (Hi & Hv & Hn & _).
  rewrite Hi, Hv, Hn. vm_compute. done.
Defined.

(** ** Paths of bundles and sanitized strings *)

Definition has_sep (s : string) : bool := existsb is_sep (chars s).

Lemma str_chars s : str (chars s) = s.
Proof. apply string_of_list_ascii_of_string. Qed.

Lemma chars_str cs : chars (str cs) = cs.
Proof. apply list_ascii_of_string_of_list_ascii. Qed.

Lemma chars_app a b : chars (a +:+ b) = chars a ++ chars b.
Proof.
  induction a as [|c a IH]; simpl; [done|].
  unfold chars in *. simpl. by rewrite IH.
Qed.

Lemma chars_inj a b : chars a = chars b -> a = b.
Proof. intros E. rewrite <- (str_chars a), <- (str_chars b). by rewrite E. Qed.

Lemma is_empty_str cs : is_empty (str cs) = true <-> cs = [].
Proof. destruct cs; simpl; split; congruence. Qed.

(** Where [filepath.Split] cuts: after the last separator. *)
Lemma after_last_sep_spec cs : forall n,
  (n <= length cs)%nat ->
  let i := after_last_sep cs n in
  (i <= n)%nat
  /\ (forall j, (i <= j < n)%nat -> is_sep (nth j cs "/"%char) = false)
  /\ (i = 0%nat \/ is_sep (nth (i - 1) cs "/"%char) = true).
Proof.
  induction n as [|n IH]; intros Hn; simpl.
  - split; [lia|]. split; [intros; lia|by left].
  - destruct (is_sep (nth n cs "/"%char)) eqn:E.
    + split; [lia|]. split; [intros; lia|]. right.
      by replace (S n - 1)%nat with n by lia.
    + destruct IH as (Hle & Hno & Hlast); [lia|].
      split; [lia|]. split; [|done].
      intros j Hj. destruct (decide (j = n)) as [->|]; [done|]. apply Hno. lia.
Qed.

Lemma existsb_nth_false cs :
  (forall j, (j < length cs)%nat -> is_sep (nth j cs "/"%char) = false) ->
  existsb is_sep cs = false.
Proof.
  induction cs as [|c cs IH]; intros Hall; simpl; [done|].
  pose proof (Hall 0%nat ltac:(simpl; lia)) as H0. simpl in H0. rewrite H0.
  simpl. apply IH.
  intros j Hj. apply (Hall (S j)). simpl. lia.
Qed.

Lemma after_last_sep_none cs : forall n,
  (n <= length cs)%nat -> existsb is_sep cs = false -> after_last_sep cs n = 0%nat.
Proof.
  induction n as [|n IH]; intros Hn Hno; simpl; [done|].
  assert (E : is_sep (nth n cs "/"%char) = false).
  { destruct (is_sep (nth n cs "/"%char)) eqn:E; [|done].
    assert (Hex : existsb is_sep cs = true).
    { apply existsb_exists. exists (nth n cs "/"%char).
      split; [apply nth_In; lia|done]. }
    congruence. }
  rewrite E. apply IH; [lia|done].
Qed.

Lemma after_last_sep_app pre post : forall k,
  (k <= length post)%nat ->
  existsb is_sep post = false ->
  after_last_sep (pre ++ ["/"%char] ++ post) (length pre + 1 + k) = (length pre + 1)%nat.
Proof.
  induction k as [|k IH]; intros Hk Hno.
  - replace (length pre + 1 + 0)%nat with (S (length pre)) by lia. simpl.
    rewrite app_nth2 by lia. replace (length pre - length pre)%nat with 0%nat by lia.
    simpl. lia.
  - replace (length pre + 1 + S k)%nat with (S (length pre + 1 + k)) by lia.
    cbn [after_last_sep].
    assert (E : is_sep (nth (length pre + 1 + k) (pre ++ ["/"%char] ++ post) "/"%char)
                = false).
    { rewrite app_nth2 by lia. rewrite app_nth2 by (simpl; lia). simpl length.
      replace (length pre + 1 + k - length pre - 1)%nat with k by lia.
      destruct (is_sep (nth k post "/"%char)) eqn:E; [|done].
      assert (Hex : existsb is_sep post = true).
      { apply existsb_exists. exists (nth k post "/"%char).
        split; [apply nth_In; lia|done]. }
      congruence. }
    rewrite E. apply IH; [lia|done].
Qed.

Lemma nth_drop_plus {A} (d : A) (cs : list A) : forall i j,
  nth j (drop i cs) d = nth (i + j) cs d.
Proof.
  induction cs as [|c cs IH]; intros [|i] j; simpl; try done.
  by destruct j.
Qed.

(** What [filepath.Split] returns. *)
Lemma filepath_Split_spec input :
  let '(dir, file) := filepath_Split input in
  input = dir +:+ file
  /\ has_sep file = false
  /\ (dir = "" <-> has_sep input = false).
Proof.
  unfold filepath_Split, has_sep.
  set (cs := chars input). set (i := after_last_sep cs (length cs)).
  destruct (after_last_sep_spec cs (length cs)) as (Hle & Hno & Hlast); [lia|].
  fold i in Hle, Hno, Hlast.
  split; [|split].
  - apply chars_inj. rewrite chars_app, !chars_str, take_drop. done.
  - rewrite chars_str. apply existsb_nth_false. intros j Hj.
    rewrite length_drop in Hj. rewrite nth_drop_plus. apply Hno. lia.
  - split.
    + intros E. assert (Hi : i = 0%nat).
      { assert (El : take i cs = []).
        { apply (f_equal chars) in E. by rewrite chars_str in E. }
        apply (f_equal length) in El. rewrite length_take in El. simpl in El.
        destruct Hlast as [?|Hs]; [done|].
        destruct (decide (i = 0%nat)); [done|].
        lia. }
      apply existsb_nth_false. intros j Hj. apply Hno. lia.
    + intros E. subst i. rewrite after_last_sep_none by (lia || done). done.
Qed.

Lemma filepath_Split_Applications base :
  has_sep base = false ->
  filepath_Split ("Applications/" +:+ base) = ("Applications/", base).
Proof.
  intros Hno. unfold filepath_Split. rewrite chars_app.
  change (chars "Applications/") with (chars "Applications" ++ ["/"%char]).
  rewrite <- app_assoc.
  replace (length (chars "Applications" ++ ["/"%char] ++ chars base))
    with (length (chars "Applications") + 1 + length (chars base))%nat
    by (rewrite !length_app; simpl; lia).
  rewrite after_last_sep_app by (lia || done).
  change (length (chars "Applications") + 1)%nat with 13%nat.
  change (chars "Applications" ++ ["/"%char] ++ chars base)
    with (chars "Applications/" ++ chars base).
  rewrite take_app_length' by done. rewrite drop_app_length' by done.
  by rewrite !str_chars.
Qed.

(** X19. A path is accepted as the path of an application exactly when it
    has no separator at all, or is a name ending in ".app" directly inside
    "Applications/"; the base that is returned has no separator. A path
    that is refused gives the empty base. *)
Theorem isValidAppFilePath_accepts (input base : string) :
  (isValidAppFilePath input = (base, true)
   <-> has_sep base = false
       /\ (input = base
           \/ input = "Applications/" +:+ base
              /\ strings_HasSuffix base ".app" = true))
  /\ (isValidAppFilePath input = (base, false) -> base = "").
Proof.
  split.
  - split.
    + unfold isValidAppFilePath.
      pose proof (filepath_Split_spec input) as Hs.
      destruct (filepath_Split input) as [dir file].
      destruct Hs as (Hin & Hfile & Hdir).
      destruct (is_empty dir) eqn:Ed; simpl.
      * apply is_empty_true in Ed. subst dir.
        change ("" +:+ file) with file in Hin. subst file.
        rewrite String.eqb_refl. intros [= <-]. split; [done|]. by left.
      * destruct (strings_HasSuffix file ".app") eqn:Esuf; simpl; [|discriminate].
        destruct (String.eqb_spec dir "Applications/") as [->|]; [|discriminate].
        intros [= <-]. split; [done|]. right. done.
    + intros (Hno & [-> | [-> Hsuf]]).
      * unfold isValidAppFilePath.
        pose proof (filepath_Split_spec base) as Hs.
        destruct (filepath_Split base) as [dir file].
        destruct Hs as (Hin & _ & Hdir).
        apply Hdir in Hno. subst dir.
        change ("" +:+ file) with file in Hin. subst file. simpl.
        by rewrite String.eqb_refl.
      * unfold isValidAppFilePath. rewrite filepath_Split_Applications by done.
        simpl. rewrite Hsuf. done.
  - unfold isValidAppFilePath. destruct (filepath_Split input) as [dir file].
    destruct (is_empty dir && String.eqb file input); [discriminate|].
    destruct (strings_HasSuffix file ".app" && String.eqb dir "Applications/");
      [discriminate|].
    by intros [= <-].
Qed.

(** A string without tab, line feed or carriage return. *)
Definition one_line (s : string) : Prop :=
  Forall (fun c => c <> "009"%char /\ c <> "010"%char /\ c <> "013"%char) (chars s).

Lemma one_line_empty : one_line "".
Proof. constructor. Qed.

Lemma sanitizeBundleString_one_line s : one_line (sanitizeBundleString s).
Proof.
  unfold one_line, sanitizeBundleString, invalidChars_Replace.
  rewrite chars_str. apply Forall_forall. intros c Hin.
  apply list_elem_of_filter in Hin as [Hc _]. tauto.
Qed.

Section Sanitized.
Context `{Environment}.

(** X20. PackageInfo strategy: the identifier, the version, the display
    name, the bundle name, the minimum OS version and every package id it
    returns are free of tabs, line feeds and carriage returns, whatever the
    document holds. *)
Theorem packageInfo_strings_are_sanitized (p : PackageInfo) :
  let r := getPackageInfo p in
  one_line (r_identifier r) /\ one_line (r_version r)
  /\ one_line (r_displayName r) /\ one_line (r_bundleName r)
  /\ one_line (r_minOSVersion r) /\ Forall one_line (r_packageIDs r).
Proof.
  cbv zeta.
  destruct (getPackageInfo_held p) as (Hheld & Hid & Hver & _ & Hdn & Hbn & Hmin).
  set (st := fold_left (packageInfo_step p) (pi_Bundles p) packageInfo_init) in *.
  assert (Hst : one_line (s_identifier st) /\ one_line (s_version st)
                /\ one_line (s_displayName st) /\ one_line (s_bundleName st)
                /\ one_line (s_minOSVersion st)).
  { unfold held in Hheld. destruct (last_qualifying p) as [b|].
    - unfold assigned in Hheld. injection Hheld as -> _ -> -> -> ->.
      repeat split; apply sanitizeBundleString_one_line.
    - injection Hheld as -> _ -> -> -> ->. repeat split; apply one_line_empty. }
  destruct Hst as (Hi & Hv & Hd & Hb & Hm).
  assert (Hident : one_line (r_identifier (getPackageInfo p))).
  { rewrite Hid. destruct (is_empty (s_identifier st)); [|done].
    apply sanitizeBundleString_one_line. }
  split; [exact Hident|]. split.
  { rewrite Hver. destruct (is_empty (s_version st)); [|done].
    apply sanitizeBundleString_one_line. }
  rewrite Hdn, Hbn, Hmin. split; [done|]. split; [done|]. split; [done|].
  apply Forall_forall. intros id Hin.
  destruct (getPackageInfo_packageIDs p) as (_ & Hsome & Hnone).
  cbv zeta in Hsome, Hnone.
  destruct (bundleIDs p) as [|x l] eqn:E.
  - rewrite (Hnone eq_refl) in Hin.
    destruct (is_empty (r_identifier (getPackageInfo p))); [inversion Hin|].
    apply list_elem_of_singleton in Hin. by subst.
  - apply Hsome in Hin; [|done]. rewrite <- E in Hin.
    unfold bundleIDs, bundleIDs_of in Hin.
    apply list_elem_of_In, filter_In in Hin as [Hin _].
    apply in_map_iff in Hin as (b & <- & _). apply sanitizeBundleString_one_line.
Qed.
End Sanitized.

Example packageInfo_name_is_not_sanitized :
  let tab := String "009" "" in
  let p := {| pi_Version := ""; pi_InstallLocation := ""; pi_Identifier := "";
              pi_Bundles := [sample_bundle ("My" +:+ tab +:+ ".app") "id" "1"] |} in
  r_name (getPackageInfo (H := sample_Environment) p) = "My" +:+ tab +:+ ".app".
Proof. vm_compute. done. Qed.

(** ** The outcomes of bulk extraction *)

Section ExtractionErrors.
Context `{Environment}.

(** Bulk extraction of [pkg], past the detector, decodes the TOC and the
    loop over its files ends as [out]. *)
Definition loop_ends (fuel : nat) (pkg : list byte)
    (out : run (option (list byte) * option (list byte))) : Prop :=
  let hdr := decode_xarHeader (take 28 pkg) in
  let avail := take (Z.to_nat (hdr_CompressedSize hdr)) (drop 28 pkg) in
  exists consumed root,
    toc_Decode avail = (consumed, TOCDecoded root)
    /\ collectContents fuel
         (TempFileReader_ReadAt
            (TempFileReader_advance (header_read pkg) (consumed `min` length avail)))
         (heapOffset hdr) (len pkg) (xar_TOC_Files root) None None
       = out.

(** The detector accepts [pkg] and the loop ends as [out]. *)
Definition loop_outcome (fuel : nat) (pkg : list byte)
    (out : run (option (list byte) * option (list byte))) : Prop :=
  exists sig,
    detect pkg = Done sig /\ (sig = None \/ sig = Some ErrNotSigned)
    /\ loop_ends fuel pkg out.

(** X21. Over a regular file, whose reads and seeks succeed, every outcome
    of bulk extraction is one of these. A record, when the loop over the
    TOC ends. One of four errors: the invalid-type error of the detector as
    it is; any other error of the detector except not-signed, wrapped as a
    signature check failure; a failure of the TOC reader; a failure of the
    TOC decoder. Or a panic, which comes from the codec inside the detector
    or from reading an entry in the loop over the TOC. No error is returned
    for the header read after the detector, for an entry that cannot be
    extracted, for a document that does not parse or for a digest. *)
Theorem extraction_outcomes (fuel : nat) (pkg : list byte) :
  (length pkg < fuel)%nat ->
  match ExtractXARMetadata fuel (open_TempFileReader pkg) with
  | Done (Ok _) => exists contents, loop_outcome fuel pkg (Done contents)
  | Done (Err e) =>
      (e = ErrInvalidType /\ detect pkg = Done (Some ErrInvalidType))
      \/ (exists cause,
            e = Wrapf "check package signature" cause
            /\ detect pkg = Done (Some cause)
            /\ cause <> ErrNotSigned /\ cause <> ErrInvalidType)
      \/ (exists cause, e = Wrapf "create TOC reader" cause)
      \/ (exists cause, e = Wrapf "decode TOC XML" cause)
  | Panicked => detect pkg = Panicked \/ loop_outcome fuel pkg Panicked
  | OutOfFuel => detect pkg = OutOfFuel \/ loop_outcome fuel pkg OutOfFuel
  end.
Proof.
  intros Hfuel. rewrite ExtractXARMetadata_extraction by done.
  unfold extraction, loop_outcome.
  destruct (detect pkg) as [sig| |] eqn:Edetect; cbn [mbind run_bind];
    [|by left|by left].
  assert (Hgo : forall s,
    match
      (let hdr := decode_xarHeader (take 28 pkg) in
       let avail := take (Z.to_nat (hdr_CompressedSize hdr)) (drop 28 pkg) in
       let '(consumed, decoded) := toc_Decode avail in
       let tfr :=
         TempFileReader_advance (header_read pkg) (consumed `min` length avail) in
       match decoded with
       | TOCReaderFailed e => Done (Err (Wrapf "create TOC reader" e))
       | TOCDecodeFailed e => Done (Err (Wrapf "decode TOC XML" e))
       | TOCDecoded root =>
           '(dist, pinfo) ←
             collectContents fuel (TempFileReader_ReadAt tfr)
               (heapOffset hdr) (len pkg) (xar_TOC_Files root) None None;
           let meta :=
             match selectMetadata s dist pinfo with
             | None =>
                 with_SHA256Sum (with_IsSigned zero_PKGInstallerMetadata false)
                   (sha256_Sum pkg)
             | Some meta =>
                 with_PkgSizeMB (with_SHA256Sum meta (sha256_Sum pkg))
                   (Qmake (len pkg) (2 ^ 20))
             end in
           Done (Ok (with_SHA256Sum
                       (with_MD5Sum (with_SHA1Sum meta (sha1_Sum pkg)) (md5_Sum pkg))
                       (sha256_Sum pkg)))
       end)
    with
    | Done (Ok _) => exists contents, loop_ends fuel pkg (Done contents)
    | Done (Err e) =>
        (exists cause, e = Wrapf "create TOC reader" cause)
        \/ (exists cause, e = Wrapf "decode TOC XML" cause)
    | Panicked => loop_ends fuel pkg Panicked
    | OutOfFuel => loop_ends fuel pkg OutOfFuel
    end).
  { intros s. unfold loop_ends. cbv zeta.
    destruct (toc_Decode _) as [consumed decoded] eqn:Etoc.
    destruct decoded as [e'|e'|root].
    - left. eauto.
    - right. eauto.
    - destruct (collectContents _ _ _ _ _ _ _) as [[dist pinfo]| |] eqn:Ec;
        cbn [mbind run_bind].
      + exists (dist, pinfo), consumed, root. done.
      + exists consumed, root. done.
      + exists consumed, root. done. }
  destruct sig as [cause|].
  - destruct cause;
      try (right; left; eexists; repeat split; discriminate).
    + left. done.
    + specialize (Hgo false). cbv zeta in Hgo.
      destruct (let '(_, _) := toc_Decode _ in _) as [[meta|e]| |].
      * destruct Hgo as [contents Hl]. exists contents, (Some ErrNotSigned).
        split; [done|]. split; [by right|done].
      * right. right. exact Hgo.
      * right. exists (Some ErrNotSigned). split; [done|]. split; [by right|done].
      * right. exists (Some ErrNotSigned). split; [done|]. split; [by right|done].
  - specialize (Hgo true). cbv zeta in Hgo.
    destruct (let '(_, _) := toc_Decode _ in _) as [[meta|e]| |].
    + destruct Hgo as [contents Hl]. exists contents, None.
      split; [done|]. split; [by left|done].
    + right. right. exact Hgo.
    + right. exists None. split; [done|]. split; [by left|done].
    + right. exists None. split; [done|]. split; [by left|done].
Qed.
End ExtractionErrors.

Lemma extraction_outcomes_witness :
  ExtractXARMetadata (H := sample_Environment) 100 (open_TempFileReader unknown_hash_pkg)
  = Done (Err (Wrapf "check package signature" (ErrUnknownHash 0)))
  /\ detect (H := sample_Environment) unknown_hash_pkg = Done (Some (ErrUnknownHash 0)).
Proof.
  assert (E : ExtractXARMetadata (H := sample_Environment) 100
                (open_TempFileReader unknown_hash_pkg)
              = Done (Err (Wrapf "check package signature" (ErrUnknownHash 0))))
    by (vm_compute; reflexivity).
  split; [exact E|].
  pose proof (extraction_outcomes (H := sample_Environment) 100 unknown_hash_pkg
                ltac:(vm_compute; lia)) as Hout.
  rewrite E in Hout.
  destruct Hout as [[? _] | [(cause & Hc & Hd & _) | [(cause & ?) | (cause & ?)]]];
    try discriminate.
  injection Hc as <-. exact Hd.
Defined.
